(** * Attendance ledger and report engine of [server.js]

    A shallow embedding of the two handlers of [src/server.js] that carry
    the service's invariants, [POST /attendance/mark] and
    [GET /reports/summary], together with the parts of the JavaScript and
    Mongoose semantics they rest on:

    - request bodies are JSON values, with JavaScript truthiness, property
      access (which throws on [null]) and [for ... of] iteration;
    - JavaScript numbers are IEEE 754 binary64 values, taken from the
      Standard Library's executable specification [SpecFloat]; the counters
      themselves are natural numbers, which a JavaScript number holds
      exactly up to [2 ^ 53];
    - the two collections are lists of documents, and the compound unique
      index of [attendanceSchema] is an invariant of the attendance list;
    - the casts Mongoose applies to a filter and an update are parameters;
    - [studentStats], a plain object keyed by the 24 hexadecimal digits of
      an [ObjectId], is an association list in insertion order (such keys
      are never array indices and never names of [Object.prototype], so
      [Object.values] enumerates them in insertion order and a lookup sees
      own properties only).

    The rest of the service follows the same way, after the vocabulary of
    the two handlers: the [auth] middleware and the routes behind it, the
    listing and the bulk upsert of students, registration and login of
    teachers, and the seed. [jsonwebtoken] and [bcrypt] are parameters, as
    are the [_id]s and salts the store and [bcrypt] draw. Where a handler is
    only modelled on part of its inputs (a batch of students whose elements
    carry anything but the four paths of the schema, an email that is not a
    string) it returns [None] on the others.

    Not modelled: the [_id] and timestamps of attendance documents (the
    response of a successful [mark] is reduced to its status), the [__v] of
    documents, logging, the health check and the 404 handler. Of the
    middleware around the routes, the JSON parser and the error handler are
    modelled for the two guarded routes of the ledger.

    The definitions come first, in the order of the source; the properties
    follow. *)

From Stdlib Require Import String Ascii.
From Stdlib Require Import List Bool Arith NArith ZArith Lia.
From Stdlib Require Import Permutation Sorted.
From Stdlib Require Import SpecFloat.
Import ListNotations.

Local Open Scope string_scope.
Local Open Scope list_scope.
Local Open Scope nat_scope.

(** ** JavaScript values *)

Module Js.

(** A value produced by [express.json()]. [undefined], which JSON cannot
    carry, is the [None] of [option value]. *)
#[local] Unset Elimination Schemes.
Inductive value : Type :=
| Null
| Bool (b : bool)
| Num (x : spec_float)
| Str (s : string)
| Arr (items : list value)
| Obj (fields : list (string * value)).
#[local] Set Elimination Schemes.

(** [!!v] *)
Definition truthy (v : option value) : bool :=
  match v with
  | None => false
  | Some Null => false
  | Some (Bool b) => b
  | Some (Num (S754_zero _)) => false
  | Some (Num S754_nan) => false
  | Some (Num _) => true
  | Some (Str s) => negb (String.eqb s "")
  | Some (Arr _) => true
  | Some (Obj _) => true
  end.

Fixpoint assoc (k : string) (fields : list (string * value)) : option value :=
  match fields with
  | [] => None
  | (k', v) :: rest => if String.eqb k' k then Some v else assoc k rest
  end.

(** [v.k] for a key [k] that no prototype defines (the handlers read
    [studentId] and [present] only). The outer [None] is the [TypeError]
    raised when [v] is [null]; [Some None] is [undefined]. *)
Definition get (v : value) (k : string) : option (option value) :=
  match v with
  | Null => None
  | Obj fields => Some (assoc k fields)
  | _ => Some None
  end.

(** [typeof v === 'boolean'] *)
Definition isBoolean (v : option value) : bool :=
  match v with
  | Some (Bool _) => true
  | _ => false
  end.

(** The elements [for (let x of v)] visits; [None] is the [TypeError] of a
    value that is not iterable. A string iterates over its characters. *)
Definition iterate (v : value) : option (list value) :=
  match v with
  | Arr items => Some items
  | Str s => Some (map (fun c => Str (String c EmptyString)) (list_ascii_of_string s))
  | _ => None
  end.

End Js.

(** ** JavaScript numbers *)

Module Number.

Definition t := spec_float.

Definition prec : Z := 53.
Definition emax : Z := 1024.

(** The number value of an integer. Counters stay far below [2^53], where
    this is exact. *)
Definition ofZ (z : Z) : t := binary_normalize prec emax z 0 false.
Definition ofNat (n : nat) : t := ofZ (Z.of_nat n).

Definition div (x y : t) : t := SFdiv prec emax x y.
Definition mul (x y : t) : t := SFmul prec emax x y.
Definition ltb (x y : t) : bool := SFltb x y.

(** The exact value of a finite number, as a fraction with a positive
    denominator. *)
Definition ratio (m : positive) (e : Z) : Z * Z :=
  match e with
  | Z0 => (Zpos m, 1%Z)
  | Zpos p => ((Zpos m * 2 ^ Zpos p)%Z, 1%Z)
  | Zneg p => (Zpos m, (2 ^ Zpos p)%Z)
  end.

(** What [toFixed(1)] prints. *)
Inductive numeral : Type :=
| NaNText
| InfinityText (negative : bool)
| Tenths (negative : bool) (n : Z)   (* the digits of [n] with a point before the last *)
| Exponential (x : t).               (* [x >= 1e21]: the text of [ToString(x)] *)

(** The integer [n] for which [n / 10 - x] is as close to zero as possible,
    the larger one if there are two. *)
Definition nearestTenths (num den : Z) : Z := ((20 * num + den) / (2 * den))%Z.

Definition toFixed1 (x : t) : numeral :=
  match x with
  | S754_nan => NaNText
  | S754_infinity s => InfinityText s
  | S754_zero _ => Tenths false 0
  | S754_finite s m e =>
      let (num, den) := ratio m e in
      if (10 ^ 21 * den <=? num)%Z then Exponential x
      else Tenths s (nearestTenths num den)
  end.

(** [parseFloat] of such a text: the number nearest to the decimal, ties to
    even, which is the correctly rounded quotient of [n] by ten. *)
Definition parseNumeral (s : numeral) : t :=
  match s with
  | NaNText => S754_nan
  | InfinityText neg => S754_infinity neg
  | Tenths neg (Zpos n) => div (S754_finite neg n 0) (S754_finite false 10 0)
  | Tenths neg _ => S754_zero neg
  | Exponential x => x
  end.

End Number.

(** [parseFloat(a)] where [a] is either the string of [toFixed] or the
    number literal [0] of the other branch of the conditional. *)
Definition parseFloat (a : Number.numeral + Number.t) : Number.t :=
  match a with
  | inl s => Number.parseNumeral s
  | inr x => x
  end.

(** ** Documents *)

(** An [ObjectId], by its 24 hexadecimal digits. *)
Definition ObjectId := string.

(** [studentSchema] *)
Module Student.
Record t : Type := make
  { _id : ObjectId; roll : Z; name : string; className : string; parentPhone : string }.
End Student.

(** An element of [attendanceSchema.entries] as it is stored. *)
Module Entry.
Record t : Type := make
  { studentId : ObjectId; present : bool; remarks : string }.
End Entry.

(** [attendanceSchema] *)
Module Attendance.
Record t : Type := make
  { date : string; className : string; entries : list Entry.t }.

(** The filter [{ date, className }]. *)
Definition hasKey (d c : string) (r : t) : bool :=
  String.eqb (date r) d && String.eqb (className r) c.

Definition key (r : t) : string * string := (date r, className r).
End Attendance.

(** The two collections the handlers touch. *)
Record Db : Type := mkDb
  { students : list Student.t; attendance : list Attendance.t }.

(** [attendanceSchema.index({ date: 1, className: 1 }, { unique: true })] *)
Definition uniqueIndex (ledger : list Attendance.t) : Prop :=
  NoDup (map Attendance.key ledger).

(** What a handler sends: [res.json(payload)] with status 200, or
    [res.status(code).json({ message })]. *)
Inductive Reply (A : Type) : Type :=
| Ok (payload : A)
| Fail (code : nat) (message : string).
Arguments Ok {A} payload.
Arguments Fail {A} code message.

Definition status {A : Type} (r : Reply A) : nat :=
  match r with
  | Ok _ => 200
  | Fail code _ => code
  end.

(** ** Mongoose casting

    [findOneAndUpdate] casts the filter and the update to the schema before
    it reaches the store; a value that does not cast raises a [CastError].
    The casts are Mongoose's, not the repository's, and stay abstract. *)
Class Mongoose : Type :=
  { castString : Js.value -> option string;
    castObjectId : Js.value -> option ObjectId }.

Section Mark.

Context {mongoose : Mongoose}.

(** The fields the handler destructures from [req.body]. *)
Record MarkBody : Type := mkMarkBody
  { body_date : option Js.value;
    body_className : option Js.value;
    body_entries : option Js.value }.

(** How the validation loop over [entries] ends. *)
Inductive Validation : Type :=
| Passed
| Invalid      (* [return res.status(400)] *)
| Threw.       (* [entry] is [null]: a [TypeError], caught by the handler *)

(** [!entry.studentId || typeof entry.present !== 'boolean'] *)
Definition badEntry (entry : Js.value) : option bool :=
  match Js.get entry "studentId" with
  | None => None
  | Some sid =>
      if negb (Js.truthy sid) then Some true
      else match Js.get entry "present" with
           | None => None
           | Some p => Some (negb (Js.isBoolean p))
           end
  end.

Fixpoint validateEntries (entries : list Js.value) : Validation :=
  match entries with
  | [] => Passed
  | entry :: rest =>
      match badEntry entry with
      | None => Threw
      | Some true => Invalid
      | Some false => validateEntries rest
      end
  end.

(** One element of the update's [entries], cast to the subdocument schema:
    [studentId] to an [ObjectId], [present] to a [Boolean], [remarks] to a
    [String] with default [""]. *)
Definition castEntry (entry : Js.value) : option Entry.t :=
  match Js.get entry "studentId", Js.get entry "present", Js.get entry "remarks" with
  | Some (Some sid), Some (Some (Js.Bool p)), Some r =>
      match castObjectId sid, match r with None => Some "" | Some v => castString v end with
      | Some id, Some txt => Some (Entry.make id p txt)
      | _, _ => None
      end
  | _, _, _ => None
  end.

Fixpoint castEntries (entries : list Js.value) : option (list Entry.t) :=
  match entries with
  | [] => Some []
  | entry :: rest =>
      match castEntry entry, castEntries rest with
      | Some e, Some es => Some (e :: es)
      | _, _ => None
      end
  end.

(** [Attendance.findOneAndUpdate({ date, className }, { date, className,
    entries }, { upsert: true, new: true })] on the stored documents: the
    first document with the key gets the new fields, and a document is
    inserted when there is none. *)
Fixpoint findOneAndUpdate (date className : string) (entries : list Entry.t)
    (ledger : list Attendance.t) : list Attendance.t :=
  match ledger with
  | [] => [Attendance.make date className entries]
  | r :: rest =>
      if Attendance.hasKey date className r
      then Attendance.make date className entries :: rest
      else r :: findOneAndUpdate date className entries rest
  end.

Definition required : string := "Date, className and entries are required".
Definition invalidEntry : string := "Invalid entry format".
Definition markFailed : string := "Failed to mark attendance".

(** [app.post("/attendance/mark", auth, ...)] *)
Definition mark (db : Db) (body : MarkBody) : Reply unit * Db :=
  if negb (Js.truthy (body_date body))
     || negb (Js.truthy (body_className body))
     || negb (Js.truthy (body_entries body))
  then (Fail 400 required, db)
  else
    match body_date body, body_className body, body_entries body with
    | Some date, Some className, Some entries =>
        match Js.iterate entries with
        | None => (Fail 500 markFailed, db)
        | Some items =>
            match validateEntries items with
            | Invalid => (Fail 400 invalidEntry, db)
            | Threw => (Fail 500 markFailed, db)
            | Passed =>
                match castString date, castString className, castEntries items with
                | Some d, Some c, Some es =>
                    (Ok tt, mkDb (students db) (findOneAndUpdate d c es (attendance db)))
                | _, _, _ => (Fail 500 markFailed, db)
                end
            end
        end
    | _, _, _ => (Fail 400 required, db)
    end.

End Mark.

(** ** The report *)

(** An entry after [.populate("entries.studentId")]: the reference is
    replaced by the student's document, or by [null] when no student has
    that [_id]. *)
Module Populated.
Record t : Type := make
  { studentId : option Student.t; present : bool }.
End Populated.

(** A value of [studentStats]. *)
Module Stat.
Record t : Type := make
  { name : string; present : nat; total : nat }.

Definition incPresent (s : t) : t := make (name s) (S (present s)) (total s).
Definition incTotal (s : t) : t := make (name s) (present s) (S (total s)).
End Stat.

(** [studentStats]: keys in insertion order, each key once. *)
Definition StudentStats := list (ObjectId * Stat.t).

Fixpoint lookup (k : ObjectId) (studentStats : StudentStats) : option Stat.t :=
  match studentStats with
  | [] => None
  | (k', s) :: rest => if String.eqb k' k then Some s else lookup k rest
  end.

(** In-place update of the object stored under [k]. *)
Fixpoint update (k : ObjectId) (f : Stat.t -> Stat.t) (studentStats : StudentStats)
    : StudentStats :=
  match studentStats with
  | [] => []
  | (k', s) :: rest =>
      if String.eqb k' k then (k', f s) :: rest else (k', s) :: update k f rest
  end.

(** [Object.values(studentStats)] and [Object.keys(studentStats)] *)
Definition values (studentStats : StudentStats) : list Stat.t := map snd studentStats.
Definition keys (studentStats : StudentStats) : list ObjectId := map fst studentStats.

Definition findById (id : ObjectId) (roster : list Student.t) : option Student.t :=
  find (fun s => String.eqb (Student._id s) id) roster.

Definition populate (roster : list Student.t) (e : Entry.t) : Populated.t :=
  Populated.make (findById (Entry.studentId e) roster) (Entry.present e).

(** The filter [{ className, date: { $gte: from, $lte: to } }]; strings are
    compared character by character. *)
Definition inRange (className from to : string) (r : Attendance.t) : bool :=
  String.eqb (Attendance.className r) className
  && String.leb from (Attendance.date r)
  && String.leb (Attendance.date r) to.

(** [Attendance.find(...).populate("entries.studentId")]: the entries of
    each record found, populated. *)
Definition findRecords (db : Db) (className from to : string) : list (list Populated.t) :=
  map (fun r => map (populate (students db)) (Attendance.entries r))
      (filter (inRange className from to) (attendance db)).

(** The body of the inner [forEach]. [None] is the [TypeError] of
    [e.studentId._id] when [e.studentId] is [null]. *)
Definition visitEntry (studentStats : StudentStats) (e : Populated.t) : option StudentStats :=
  match Populated.studentId e with
  | None => None
  | Some student =>
      let studentId := Student._id student in
      let created :=
        match lookup studentId studentStats with
        | None => studentStats ++ [(studentId, Stat.make (Student.name student) 0 0)]
        | Some _ => studentStats
        end in
      let counted :=
        if Populated.present e then update studentId Stat.incPresent created else created in
      Some (update studentId Stat.incTotal counted)
  end.

(** [rec.entries.forEach(...)] *)
Fixpoint forEachEntry (entries : list Populated.t) (studentStats : StudentStats)
    : option StudentStats :=
  match entries with
  | [] => Some studentStats
  | e :: rest =>
      match visitEntry studentStats e with
      | None => None
      | Some next => forEachEntry rest next
      end
  end.

(** [records.forEach(...)] *)
Fixpoint forEachRecord (records : list (list Populated.t)) (studentStats : StudentStats)
    : option StudentStats :=
  match records with
  | [] => Some studentStats
  | rec :: rest =>
      match forEachEntry rec studentStats with
      | None => None
      | Some next => forEachRecord rest next
      end
  end.

(** [Object.values(studentStats).reduce((a, s) => a + s.present, 0)] and its
    twin for [total]. *)
Definition totalPresentOf (studentStats : StudentStats) : nat :=
  fold_left (fun a s => a + Stat.present s) (values studentStats) 0.
Definition totalOf (studentStats : StudentStats) : nat :=
  fold_left (fun a s => a + Stat.total s) (values studentStats) 0.

(** [(present / total) * 100] *)
Definition percent (present total : nat) : Number.t :=
  Number.mul (Number.div (Number.ofNat present) (Number.ofNat total)) (Number.ofNat 100).

(** [total > 0 ? ((totalPresent / total) * 100).toFixed(1) : 0] *)
Definition averageOf (totalPresent total : nat) : Number.numeral + Number.t :=
  if 0 <? total then inl (Number.toFixed1 (percent totalPresent total))
  else inr (Number.ofNat 0).

(** The three filters. *)
Definition isPerfect (s : Stat.t) : bool :=
  (Stat.present s =? Stat.total s) && (0 <? Stat.total s).
Definition isBelow75 (s : Stat.t) : bool :=
  (0 <? Stat.total s) && Number.ltb (percent (Stat.present s) (Stat.total s)) (Number.ofNat 75).
Definition isChronic (s : Stat.t) : bool :=
  (0 <? Stat.total s) && Number.ltb (percent (Stat.present s) (Stat.total s)) (Number.ofNat 50).

(** The object the handler sends. *)
Record Report : Type := mkReport
  { average : Number.t;
    perfectCount : nat;
    below75Count : nat;
    chronicAbsenceCount : nat;
    days : nat;
    totalStudentsTracked : nat }.

(** Everything after the two loops. *)
Definition summarise (days : nat) (studentStats : StudentStats) : Report :=
  let totalPresent := totalPresentOf studentStats in
  let total := totalOf studentStats in
  let average := averageOf totalPresent total in
  mkReport (parseFloat average)
           (length (filter isPerfect (values studentStats)))
           (length (filter isBelow75 (values studentStats)))
           (length (filter isChronic (values studentStats)))
           days
           (length (keys studentStats)).

(** The query string of the request. *)
Record ReportQuery : Type := mkReportQuery
  { q_className : option string; q_from : option string; q_to : option string }.

(** [!s] for a query parameter. *)
Definition given (s : option string) : bool :=
  match s with
  | None => false
  | Some s => negb (String.eqb s "")
  end.

Definition paramsRequired : string := "className, from and to dates are required".
Definition reportFailed : string := "Failed to generate report".

(** [app.get("/reports/summary", auth, ...)] *)
Definition report (db : Db) (q : ReportQuery) : Reply Report :=
  if negb (given (q_className q)) || negb (given (q_from q)) || negb (given (q_to q))
  then Fail 400 paramsRequired
  else
    match q_className q, q_from q, q_to q with
    | Some className, Some from, Some to =>
        let records := findRecords db className from to in
        let days := length records in
        match forEachRecord records [] with
        | None => Fail 500 reportFailed
        | Some studentStats => Ok (summarise days studentStats)
        end
    | _, _, _ => Fail 400 paramsRequired
    end.

(** ** Vocabulary of the properties *)

(** The entries of a record that refer to the student with id [k], counted
    one by one, and those among them marked present. *)
Definition refersTo (k : ObjectId) (e : Populated.t) : bool :=
  match Populated.studentId e with
  | Some student => String.eqb (Student._id student) k
  | None => false
  end.

Definition entriesOf (k : ObjectId) (entries : list Populated.t) : nat :=
  length (filter (refersTo k) entries).

Definition presencesOf (k : ObjectId) (entries : list Populated.t) : nat :=
  length (filter (fun e => refersTo k e && Populated.present e) entries).

(** The ids the entries resolve to, in order, with repetitions. *)
Fixpoint idsOf (entries : list Populated.t) : list ObjectId :=
  match entries with
  | [] => []
  | e :: rest =>
      match Populated.studentId e with
      | Some student => Student._id student :: idsOf rest
      | None => idsOf rest
      end
  end.

Definition resolved (e : Populated.t) : Prop := Populated.studentId e <> None.

(** The counters [studentStats] holds for [k], zero when it has none. *)
Definition totalAt (k : ObjectId) (studentStats : StudentStats) : nat :=
  match lookup k studentStats with
  | Some s => Stat.total s
  | None => 0
  end.

Definition presentAt (k : ObjectId) (studentStats : StudentStats) : nat :=
  match lookup k studentStats with
  | Some s => Stat.present s
  | None => 0
  end.

(** The order of the range query, spelled out: the first differing
    character decides, and a proper prefix comes first. *)
Inductive lexLe : string -> string -> Prop :=
| lexLe_empty : forall s, lexLe EmptyString s
| lexLe_less : forall a b s t,
    (nat_of_ascii a < nat_of_ascii b) -> lexLe (String a s) (String b t)
| lexLe_same : forall a s t, lexLe s t -> lexLe (String a s) (String a t).

(** A record of class [c] dated within [[from, to]]. *)
Definition selects (c from to : string) (r : Attendance.t) : Prop :=
  Attendance.className r = c
  /\ lexLe from (Attendance.date r) /\ lexLe (Attendance.date r) to.

(** The nearest tenth: [n / 10] is at most one twentieth away from
    [num / den], and [n] is the larger candidate when two are that near. *)
Definition nearestTenth (num den n : Z) : Prop :=
  ((2 * n - 1) * den <= 20 * num < (2 * n + 1) * den)%Z.

(** [txt] is [x] printed with one decimal, for a finite [x] below [1e21]. *)
Definition printsRounded (x : Number.t) (txt : Number.numeral) : Prop :=
  match x with
  | S754_zero _ => txt = Number.Tenths false 0
  | S754_finite s m e =>
      let (num, den) := Number.ratio m e in
      (num < 10 ^ 21 * den)%Z ->
      exists n, txt = Number.Tenths s n /\ nearestTenth num den n
  | _ => True
  end.

(** [n / 10] is a tenth nearest to the exact [100 * P / T]: the two differ
    by one twentieth at most. *)
Definition nearestTenthOfPercentage (P T : nat) (n : Z) : Prop :=
  (2 * Z.abs (n * Z.of_nat T - 1000 * Z.of_nat P) <= Z.of_nat T)%Z.

(** The sums of the counters, by plain recursion. *)
Definition sumPresent (studentStats : StudentStats) : nat :=
  list_sum (map Stat.present (values studentStats)).
Definition sumTotal (studentStats : StudentStats) : nat :=
  list_sum (map Stat.total (values studentStats)).

Definition query (c from to : string) : ReportQuery :=
  mkReportQuery (Some c) (Some from) (Some to).

Definition markBody (date className entries : Js.value) : MarkBody :=
  mkMarkBody (Some date) (Some className) (Some entries).

(** A stored entry holds what the submitted one says. *)
Definition stores {mongoose : Mongoose} (submitted : Js.value) (e : Entry.t) : Prop :=
  exists sid,
    Js.get submitted "studentId" = Some (Some sid)
    /\ castObjectId sid = Some (Entry.studentId e)
    /\ Js.get submitted "present" = Some (Some (Js.Bool (Entry.present e))).

(** An entry without a [studentId], or whose [present] is not a boolean. *)
Definition malformed (entry : Js.value) : Prop :=
  Js.get entry "studentId" = Some None
  \/ forall b, Js.get entry "present" <> Some (Some (Js.Bool b)).

(** The object [visitEntry] leaves under the student's key. *)
Definition bumped (e : Populated.t) (student : Student.t) (old : option Stat.t) : Stat.t :=
  let s := match old with
           | Some s => s
           | None => Stat.make (Student.name student) 0 0
           end in
  Stat.incTotal (if Populated.present e then Stat.incPresent s else s).

(** The records the report reads, and all their entries in order. *)
Definition found (db : Db) (c from to : string) : list Attendance.t :=
  filter (inRange c from to) (attendance db).

Definition selectedEntries (db : Db) (c from to : string) : list Populated.t :=
  concat (findRecords db c from to).

(** Whether the filter [p] keeps the object of student [k]. *)
Definition keeps (p : Stat.t -> bool) (studentStats : StudentStats) (k : ObjectId) : bool :=
  match lookup k studentStats with
  | Some s => p s
  | None => false
  end.

(** A stored entry whose [studentId] is the [_id] of no student. *)
Definition dangling (db : Db) (e : Entry.t) : Prop :=
  forall s, In s (students db) -> Student._id s <> Entry.studentId e.

(** ** Sample data *)

(** The casts on the values they leave as they are: a string is a [String],
    and a string of 24 hexadecimal digits is an [ObjectId]. *)
Definition isHexDigit (c : ascii) : bool :=
  let n := nat_of_ascii c in
  ((48 <=? n) && (n <=? 57)) || ((97 <=? n) && (n <=? 102)) || ((65 <=? n) && (n <=? 70)).

Definition isObjectIdText (s : string) : bool :=
  (String.length s =? 24) && forallb isHexDigit (list_ascii_of_string s).

Definition plainCasts : Mongoose :=
  {| castString := fun v => match v with Js.Str s => Some s | _ => None end;
     castObjectId := fun v =>
       match v with
       | Js.Str s => if isObjectIdText s then Some s else None
       | _ => None
       end |}.

Definition aarav : Student.t :=
  Student.make "64f1a0000000000000000001" 1 "Aarav Kumar" "Class 5-A" "+91 98765xxxx".
Definition diya : Student.t :=
  Student.make "64f1a0000000000000000002" 2 "Diya Patel" "Class 5-A" "+91 98765xxxx".

Definition entryFor (s : Student.t) (present : bool) : Entry.t :=
  Entry.make (Student._id s) present "".

(** Three days of one class: day 1 {S1 present, S2 absent}, day 2 {S1
    present, S2 present}, day 3 {S1 absent}. *)
Definition threeDays : Db :=
  mkDb [aarav; diya]
       [ Attendance.make "2024-01-01" "Class 5-A" [entryFor aarav true; entryFor diya false];
         Attendance.make "2024-01-02" "Class 5-A" [entryFor aarav true; entryFor diya true];
         Attendance.make "2024-01-03" "Class 5-A" [entryFor aarav false] ].

Definition january : ReportQuery := query "Class 5-A" "2024-01-01" "2024-01-31".

(** One day whose entry refers to a student the roster does not have. *)
Definition strayEntry : Db :=
  mkDb [aarav]
       [ Attendance.make "2024-01-01" "Class 5-A" [entryFor aarav true; entryFor diya true] ].

(** One day that lists the same student twice. *)
Definition listedTwice : Db :=
  mkDb [aarav; diya]
       [ Attendance.make "2024-01-01" "Class 5-A" [entryFor aarav true; entryFor aarav false] ].

Definition emptyDb : Db := mkDb [] [].

(** A submitted entry, as JSON. *)
Definition submitted (s : Student.t) (present : bool) : Js.value :=
  Js.Obj [("studentId", Js.Str (Student._id s)); ("present", Js.Bool present)].

(** The report of the three sample days. *)
Definition threeDaysReport : Report :=
  mkReport (Number.ofNat 60) 0 2 0 3 2.

(** ** Further vocabulary *)

(** The report of a class and a range with no record. *)
Definition zeroReport : Report := mkReport (S754_zero false) 0 0 0 0 0.

(** The database after a run of [mark] requests, served one after the
    other. *)
Definition markAll {mongoose : Mongoose} (bodies : list MarkBody) (db : Db) : Db :=
  fold_left (fun db body => snd (mark db body)) bodies db.

(** Whether the ledger has a record for the key. *)
Definition recorded (d c : string) (ledger : list Attendance.t) : bool :=
  existsb (Attendance.hasKey d c) ledger.

(** ** The [auth] middleware *)

(** [s.split(sep)] for a separator of one character. *)
Fixpoint split (sep : ascii) (s : string) : list string :=
  match s with
  | EmptyString => [EmptyString]
  | String ch rest =>
      if Ascii.eqb ch sep then EmptyString :: split sep rest
      else match split sep rest with
           | piece :: pieces => String ch piece :: pieces
           | [] => [String ch EmptyString]
           end
  end.

(** [jsonwebtoken], as far as the handlers use it. [jwtVerify token secret
    now] is [None] when [jwt.verify] throws (bad signature, expired,
    malformed) and otherwise the [id] of the decoded payload, if it has one;
    [jwtSign id secret now] is [jwt.sign({ id }, secret, { expiresIn: "24h" })]
    at the time [now]. *)
Class Jwt : Type :=
  { jwtVerify : string -> string -> nat -> option (option string);
    jwtSign : ObjectId -> string -> nat -> string }.

(** What the middleware does: call [next()] with [req.teacherId] set, or
    answer itself. *)
Inductive Checked : Type :=
| Next (teacherId : option string)
| Refuse (code : nat) (message : string).

Definition noHeader : string := "No authorization header provided".
Definition noToken : string := "No token provided".
Definition invalidToken : string := "Invalid or expired token".

Section Auth.

Context {jwt : Jwt}.

(** [function auth(req, res, next)], on [req.headers["authorization"]]. *)
Definition auth (secret : string) (now : nat) (authHeader : option string) : Checked :=
  match authHeader with
  | None => Refuse 401 noHeader
  | Some header =>
      if String.eqb header "" then Refuse 401 noHeader
      else
        match nth_error (split " " header) 1 with
        | None => Refuse 401 noToken
        | Some token =>
            if String.eqb token "" then Refuse 401 noToken
            else
              match jwtVerify token secret now with
              | None => Refuse 401 invalidToken
              | Some id => Next id
              end
        end
  end.

(** [app.METHOD(path, auth, handler)]: the handler runs when the middleware
    calls [next()]. *)
Definition behindAuth {A S : Type} (checked : Checked) (handler : S -> Reply A * S) (s : S)
    : Reply A * S :=
  match checked with
  | Next _ => handler s
  | Refuse code message => (Fail code message, s)
  end.

End Auth.

(** ** The roster *)

(** [.sort({ roll: 1 })]: ascending by [roll]. The store leaves the order of
    equal rolls open; the insertion sort here keeps the stored one. *)
Fixpoint insertByRoll (s : Student.t) (sorted : list Student.t) : list Student.t :=
  match sorted with
  | [] => [s]
  | t :: rest =>
      if (Student.roll s <=? Student.roll t)%Z then s :: t :: rest
      else t :: insertByRoll s rest
  end.

Fixpoint sortByRoll (l : list Student.t) : list Student.t :=
  match l with
  | [] => []
  | s :: rest => insertByRoll s (sortByRoll rest)
  end.

(** [app.get("/students", auth, ...)] behind [auth], for a query parameter
    that is a string or absent: [className ? { className } : {}]. *)
Definition getStudents (roster : list Student.t) (className : option string)
    : list Student.t :=
  match className with
  | Some c =>
      if given className
      then sortByRoll (filter (fun s => String.eqb (Student.className s) c) roster)
      else sortByRoll roster
  | None => sortByRoll roster
  end.

(** An element of the [students] array: the fields of [studentSchema] it
    sets. *)
Module StudentInput.
Record t : Type := make
  { roll : Z; name : string; className : string; parentPhone : option string }.
End StudentInput.

(** The integer a number is, if it is one. *)
Definition wholeNumber (x : Number.t) : option Z :=
  match x with
  | S754_zero _ => Some 0%Z
  | S754_finite neg m e =>
      let z := if neg then Zneg m else Zpos m in
      if (0 <=? e)%Z then Some (z * 2 ^ e)%Z
      else if (Zpos m mod 2 ^ (- e) =? 0)%Z then Some (z / 2 ^ (- e))%Z
      else None
  | _ => None
  end.

Definition studentPaths : list string := ["className"; "roll"; "name"; "parentPhone"].

Fixpoint distinctKeys (fields : list (string * Js.value)) : bool :=
  match fields with
  | [] => true
  | (k, _) :: rest => negb (existsb (fun f => String.eqb (fst f) k) rest) && distinctKeys rest
  end.

(** The elements the model reads: an object with a string [className], a
    whole [roll], a string [name], possibly a string [parentPhone], and
    nothing else. On these the cast to the schema changes nothing. Other
    elements (other paths such as [_id], values that need a cast, missing
    fields) are left out. *)
Definition readStudent (item : Js.value) : option StudentInput.t :=
  match item with
  | Js.Obj fields =>
      if distinctKeys fields
         && forallb (fun f => existsb (String.eqb (fst f)) studentPaths) fields
      then
        match Js.assoc "className" fields, Js.assoc "roll" fields, Js.assoc "name" fields with
        | Some (Js.Str c), Some (Js.Num r), Some (Js.Str n) =>
            match wholeNumber r, Js.assoc "parentPhone" fields with
            | Some z, None => Some (StudentInput.make z n c None)
            | Some z, Some (Js.Str p) => Some (StudentInput.make z n c (Some p))
            | _, _ => None
            end
        | _, _, _ => None
        end
      else None
  | _ => None
  end.

Fixpoint readStudents (items : list Js.value) : option (list StudentInput.t) :=
  match items with
  | [] => Some []
  | item :: rest =>
      match readStudent item, readStudents rest with
      | Some s, Some ss => Some (s :: ss)
      | _, _ => None
      end
  end.

Definition defaultParentPhone : string := "+91 98765xxxx".

(** The filter [{ className: s.className, roll: s.roll }]. *)
Definition sameSeat (s : StudentInput.t) (doc : Student.t) : bool :=
  String.eqb (Student.className doc) (StudentInput.className s)
  && (Student.roll doc =? StudentInput.roll s)%Z.

(** [{ $set: s }] on a document the filter matches. *)
Definition setFields (s : StudentInput.t) (doc : Student.t) : Student.t :=
  Student.make (Student._id doc) (StudentInput.roll s) (StudentInput.name s)
               (StudentInput.className s)
               (match StudentInput.parentPhone s with
                | Some p => p
                | None => Student.parentPhone doc
                end).

(** The document an upsert inserts: the filter, the [$set] and the default
    of the schema. *)
Definition newStudent (id : ObjectId) (s : StudentInput.t) : Student.t :=
  Student.make id (StudentInput.roll s) (StudentInput.name s) (StudentInput.className s)
               (match StudentInput.parentPhone s with
                | Some p => p
                | None => defaultParentPhone
                end).

(** Whether [$set] changes the document (what [modifiedCount] counts). *)
Definition changes (s : StudentInput.t) (doc : Student.t) : bool :=
  negb (String.eqb (Student.name doc) (StudentInput.name s))
  || match StudentInput.parentPhone s with
     | Some p => negb (String.eqb (Student.parentPhone doc) p)
     | None => false
     end.

Inductive Written : Type := Modified | Matched | Upserted.

(** One [updateOne] with [upsert: true]: the first document the filter
    matches is updated, and without one a document is inserted; [id] is the
    [_id] it would get. *)
Fixpoint updateOne (id : ObjectId) (s : StudentInput.t) (roster : list Student.t)
    : list Student.t * Written :=
  match roster with
  | [] => ([newStudent id s], Upserted)
  | doc :: rest =>
      if sameSeat s doc
      then (setFields s doc :: rest, if changes s doc then Modified else Matched)
      else let (rest', w) := updateOne id s rest in (doc :: rest', w)
  end.

(** The [result] of [bulkWrite], as far as the handler reports it. *)
Record BulkResult : Type := mkBulkResult
  { modifiedCount : nat; upsertedCount : nat }.

Definition tally (w : Written) (r : BulkResult) : BulkResult :=
  match w with
  | Modified => mkBulkResult (S (modifiedCount r)) (upsertedCount r)
  | Matched => r
  | Upserted => mkBulkResult (modifiedCount r) (S (upsertedCount r))
  end.

(** [Student.bulkWrite(ops)], in order; [newId i] is the [_id] the [i]-th
    operation gives a document it inserts. *)
Fixpoint bulkWrite (newId : nat -> ObjectId) (i : nat) (ops : list StudentInput.t)
    (roster : list Student.t) (r : BulkResult) : BulkResult * list Student.t :=
  match ops with
  | [] => (r, roster)
  | s :: rest =>
      let (roster', w) := updateOne (newId i) s roster in
      bulkWrite newId (S i) rest roster' (tally w r)
  end.

Definition isNull (v : Js.value) : bool :=
  match v with
  | Js.Null => true
  | _ => false
  end.

Definition studentsRequired : string := "Students array is required".
Definition studentsFailed : string := "Failed to save students".

(** [app.post("/students", auth, ...)] behind [auth]; [None] is a batch with
    an element [readStudent] leaves out. [students.map] builds the
    operations for the whole array before anything is written, and reading
    [s.className] throws on [null]. *)
Definition postStudents (newId : nat -> ObjectId) (roster : list Student.t)
    (students : option Js.value) : option (Reply BulkResult * list Student.t) :=
  match students with
  | Some (Js.Arr items) =>
      if existsb isNull items then Some (Fail 500 studentsFailed, roster)
      else
        match readStudents items with
        | None => None
        | Some ops =>
            let (result, roster') := bulkWrite newId 0 ops roster (mkBulkResult 0 0) in
            Some (Ok result, roster')
        end
  | _ => Some (Fail 400 studentsRequired, roster)
  end.

(** The key of a student in the roster. *)
Definition seat (doc : Student.t) : string * Z := (Student.className doc, Student.roll doc).
Definition seatOf (s : StudentInput.t) : string * Z :=
  (StudentInput.className s, StudentInput.roll s).

(** ** Teachers *)

(** [teacherSchema] *)
Module Teacher.
Record t : Type := make
  { _id : ObjectId; name : string; email : string; password : string;
    employeeId : string; phone : string; school : string;
    subjects : list string; classes : list string; joinDate : string }.

(** [Teacher.create({ name, email, password })] with the defaults of the
    schema. *)
Definition create (id : ObjectId) (name email password : string) : t :=
  make id name email password "TCH2024001" "+91 98765xxxx"
       "Government Primary School, Jaipur" ["Mathematics"; "Science"]
       ["Class 5-A"; "Class 6-B"] "15 July 2020".
End Teacher.

(** [const { password: _, ...rest } = teacher.toObject()] *)
Module TeacherData.
Record t : Type := make
  { _id : ObjectId; name : string; email : string;
    employeeId : string; phone : string; school : string;
    subjects : list string; classes : list string; joinDate : string }.
End TeacherData.

Definition withoutPassword (t : Teacher.t) : TeacherData.t :=
  TeacherData.make (Teacher._id t) (Teacher.name t) (Teacher.email t)
                   (Teacher.employeeId t) (Teacher.phone t) (Teacher.school t)
                   (Teacher.subjects t) (Teacher.classes t) (Teacher.joinDate t).

(** [bcrypt], as far as the handlers use it: [bcryptHash salt data] is
    [bcrypt.hash(data, 12)] when the salt it draws is [salt], and
    [bcryptCompare data hash] is [bcrypt.compare]. Both reject data that is
    not a string, which the handlers below write out. *)
Class Bcrypt : Type :=
  { bcryptHash : string -> string -> string;
    bcryptCompare : string -> string -> bool }.

(** [Teacher.findOne({ email })] *)
Definition findByEmail (email : string) (teachers : list Teacher.t) : option Teacher.t :=
  find (fun t => String.eqb (Teacher.email t) email) teachers.

(** What [/auth/register-teacher] sends: 201 with the teacher, or an
    error. *)
Inductive Registration : Type :=
| Created (teacher : TeacherData.t)
| NotCreated (code : nat) (message : string).

Definition registrationStatus (r : Registration) : nat :=
  match r with
  | Created _ => 201
  | NotCreated code _ => code
  end.

Record RegisterBody : Type := mkRegisterBody
  { body_name : option Js.value; body_email : option Js.value;
    body_password : option Js.value }.

Record LoginBody : Type := mkLoginBody
  { login_email : option Js.value; login_password : option Js.value }.

Definition registerRequired : string := "Name, email and password are required".
Definition alreadyExists : string := "Teacher with this email already exists".
Definition registrationFailed : string := "Registration failed".
Definition loginRequired : string := "Email and password are required".
Definition invalidLogin : string := "Invalid email or password".
Definition loginFailed : string := "Login failed".

(** What [/auth/login] sends with status 200. *)
Record Session : Type := mkSession
  { token : string; teacher : TeacherData.t }.

Section Accounts.

Context {bcrypt : Bcrypt} {jwt : Jwt}.

(** [app.post("/auth/register-teacher", ...)]; [salt] and [id] are what
    [bcrypt] and the store draw for this request. [None] is a body the model
    leaves out: an [email] or a [name] that is truthy and not a string. The
    requests are served one at a time, so the insert never meets the
    duplicate key that [err.code === 11000] is for. *)
Definition register (salt : string) (id : ObjectId) (teachers : list Teacher.t)
    (body : RegisterBody) : option (Registration * list Teacher.t) :=
  if negb (Js.truthy (body_name body)) || negb (Js.truthy (body_email body))
     || negb (Js.truthy (body_password body))
  then Some (NotCreated 400 registerRequired, teachers)
  else
    match body_email body with
    | Some (Js.Str email) =>
        match findByEmail email teachers with
        | Some _ => Some (NotCreated 400 alreadyExists, teachers)
        | None =>
            match body_password body with
            | Some (Js.Str password) =>
                let hashed := bcryptHash salt password in
                match body_name body with
                | Some (Js.Str name) =>
                    let teacher := Teacher.create id name email hashed in
                    Some (Created (withoutPassword teacher), teachers ++ [teacher])
                | _ => None
                end
            | _ => Some (NotCreated 500 registrationFailed, teachers)
            end
        end
    | _ => None
    end.

(** [app.post("/auth/login", ...)] at the time [now]; [None] is an [email]
    that is truthy and not a string. *)
Definition login (secret : string) (now : nat) (teachers : list Teacher.t)
    (body : LoginBody) : option (Reply Session) :=
  if negb (Js.truthy (login_email body)) || negb (Js.truthy (login_password body))
  then Some (Fail 400 loginRequired)
  else
    match login_email body with
    | Some (Js.Str email) =>
        match findByEmail email teachers with
        | None => Some (Fail 400 invalidLogin)
        | Some teacher =>
            match login_password body with
            | Some (Js.Str password) =>
                if bcryptCompare password (Teacher.password teacher)
                then Some (Ok (mkSession (jwtSign (Teacher._id teacher) secret now)
                                         (withoutPassword teacher)))
                else Some (Fail 400 invalidLogin)
            | _ => Some (Fail 500 loginFailed)
            end
        end
    | _ => None
    end.

End Accounts.

(** ** The whole store and the seed *)

Record Store : Type := mkStore
  { store_teachers : list Teacher.t; store_db : Db }.

Definition demoEmail : string := "teacher@demo.com".
Definition demoPassword : string := "teacher@demo.com".

(** The [students] array of [/dev/seed]. *)
Definition demoStudents : list (Z * string * string) :=
  [ (1, "Aarav Kumar", "Class 5-A"); (2, "Diya Patel", "Class 5-A");
    (3, "Arjun Singh", "Class 5-A"); (4, "Ananya Sharma", "Class 5-A");
    (5, "Kabir Verma", "Class 5-A"); (6, "Zara Khan", "Class 5-A");
    (7, "Vivaan Reddy", "Class 5-A"); (8, "Ishita Gupta", "Class 5-A");
    (9, "Aditya Mehta", "Class 5-A"); (10, "Sara Ali", "Class 5-A");
    (1, "Rohan Joshi", "Class 6-B"); (2, "Priya Nair", "Class 6-B");
    (3, "Yash Pandey", "Class 6-B"); (4, "Kavya Rao", "Class 6-B");
    (5, "Om Prakash", "Class 6-B") ]%Z.

(** [Student.insertMany(students)]; [newId i] is the [_id] of the [i]-th
    document. *)
Fixpoint insertMany (newId : nat -> ObjectId) (i : nat) (docs : list (Z * string * string))
    : list Student.t :=
  match docs with
  | [] => []
  | (roll, name, className) :: rest =>
      Student.make (newId i) roll name className defaultParentPhone
      :: insertMany newId (S i) rest
  end.

(** [app.post("/dev/seed", ...)]: the three [deleteMany({})], the demo
    teacher and the demo students. *)
Definition seed {bcrypt : Bcrypt} (salt : string) (teacherId : ObjectId)
    (newId : nat -> ObjectId) (s : Store) : Store :=
  mkStore [ Teacher.make teacherId "Demo Teacher" demoEmail (bcryptHash salt demoPassword)
                         "TCH2024001" "+91 98765xxxx" "Government Primary School, Jaipur"
                         ["Mathematics"; "Science"] ["Class 5-A"; "Class 6-B"]
                         "15 July 2020" ]
          (mkDb (insertMany newId 0 demoStudents) []).

(** ** Around the routes *)

(** What [app.use(express.json())] makes of the body of a request before any
    route sees it: the value it leaves in [req.body] (the empty object when
    the request carries no JSON), or an error it hands to [next]: JSON that
    does not parse or is neither an object nor an array, a body that is too
    large or cut short, an encoding it does not take. *)
Inductive Parsed (B : Type) : Type :=
| Body (body : B)
| BodyError.
Arguments Body {B} body.
Arguments BodyError {B}.

Definition somethingWrong : string := "Something went wrong!".

(** The parser in front of a route and the error-handling middleware behind
    all of them: an error of the parser skips the route, [auth] included,
    and is answered with 500. *)
Definition afterJson {B A S : Type} (received : Parsed B)
    (route : B -> S -> Reply A * S) (s : S) : Reply A * S :=
  match received with
  | Body body => route body s
  | BodyError => (Fail 500 somethingWrong, s)
  end.

(** ** The guarded routes *)

Section Routes.

Context {mongoose : Mongoose} {jwt : Jwt}.

(** [app.post("/attendance/mark", auth, ...)] *)
Definition postAttendanceMark (secret : string) (now : nat) (authHeader : option string)
    (body : MarkBody) (db : Db) : Reply unit * Db :=
  behindAuth (auth secret now authHeader) (fun db => mark db body) db.

(** [app.get("/reports/summary", auth, ...)] *)
Definition getReportsSummary (secret : string) (now : nat) (authHeader : option string)
    (q : ReportQuery) (db : Db) : Reply Report :=
  fst (behindAuth (auth secret now authHeader) (fun db => (report db q, db)) db).

(** A request to [POST /attendance/mark], from the parser on. *)
Definition markRequest (secret : string) (now : nat) (authHeader : option string)
    (received : Parsed MarkBody) (db : Db) : Reply unit * Db :=
  afterJson received (fun body db => postAttendanceMark secret now authHeader body db) db.

(** A request to [GET /reports/summary], from the parser on; the handler
    does not read the body. *)
Definition reportRequest {B : Type} (secret : string) (now : nat)
    (authHeader : option string) (received : Parsed B) (q : ReportQuery) (db : Db)
    : Reply Report :=
  fst (afterJson received
         (fun _ db => (getReportsSummary secret now authHeader q db, db)) db).

End Routes.

(** ** Further sample data *)

(** A token is its subject after a fixed prefix, and the hash of a text is
    the text after its salt: enough to run the handlers on examples. *)
Definition plainJwt : Jwt :=
  {| jwtSign := fun id _ _ => String.append "jwt." id;
     jwtVerify := fun token _ _ =>
       if String.prefix "jwt." token
       then Some (Some (String.substring 4 (String.length token - 4) token))
       else None |}.

Definition plainBcrypt : Bcrypt :=
  {| bcryptHash := fun salt data => String.append salt data;
     bcryptCompare := fun data hash =>
       String.eqb (String.substring (String.length hash - String.length data)
                                    (String.length data) hash) data |}.

Definition rohan : Student.t :=
  Student.make "64f1a0000000000000000003" 1 "Rohan Joshi" "Class 6-B" "+91 98765xxxx".

(** A roster of two classes, not in order of roll. *)
Definition twoClasses : list Student.t := [diya; rohan; aarav].

Definition studentJson (roll : Z) (name className : string) : Js.value :=
  Js.Obj [("roll", Js.Num (Number.ofZ roll)); ("name", Js.Str name);
          ("className", Js.Str className)].

(** ** Vocabulary of the further properties *)

Definition spaceless (s : string) : bool :=
  forallb (fun ch => negb (Ascii.eqb ch " ")) (list_ascii_of_string s).

(** A header of two pieces or more: [scheme], a space, [token], and maybe a
    space and more. *)
Definition headerOf (scheme token : string) (more : option string) : string :=
  String.append scheme
    (String " " (String.append token
                   match more with
                   | Some m => String " " m
                   | None => EmptyString
                   end)).

(** What the middleware does with a token once it has one. *)
Definition verdict {jwt : Jwt} (secret : string) (now : nat) (token : string) : Checked :=
  match jwtVerify token secret now with
  | None => Refuse 401 invalidToken
  | Some id => Next id
  end.

(** The header carries, as its second piece, a token that verifies. *)
Definition verified {jwt : Jwt} (secret : string) (now : nat) (authHeader : option string)
    : Prop :=
  exists header token id,
    authHeader = Some header
    /\ nth_error (split " " header) 1 = Some token
    /\ token <> ""
    /\ jwtVerify token secret now = Some id.

Definition rollLe (a b : Student.t) : Prop := (Student.roll a <= Student.roll b)%Z.

Definition inClass (c : string) (s : Student.t) : bool := String.eqb (Student.className s) c.

(** The seats a batch names, in order. *)
Definition seatsOf (items : list Js.value) : list (string * Z) :=
  match readStudents items with
  | Some ops => map seatOf ops
  | None => []
  end.

(** The document shows what the element sets. *)
Definition shows (s : StudentInput.t) (doc : Student.t) : Prop :=
  seat doc = seatOf s
  /\ Student.name doc = StudentInput.name s
  /\ forall p, StudentInput.parentPhone s = Some p -> Student.parentPhone doc = p.

(** The first document on the seat of [s] already holds what [s] sets. *)
Fixpoint settled (s : StudentInput.t) (roster : list Student.t) : bool :=
  match roster with
  | [] => false
  | doc :: rest => if sameSeat s doc then negb (changes s doc) else settled s rest
  end.

(** The [_id]s a store hands out, for the examples. *)
Definition freshId (i : nat) : ObjectId :=
  String.append "64f1b000000000000000000" (String (ascii_of_nat (48 + i mod 10)) EmptyString).

(** A batch that renames the student on one seat and adds one on a new
    seat, and the roster it makes of [aarav] and [diya]. *)
Definition newTerm : list Js.value :=
  [studentJson 2 "Diya P. Patel" "Class 5-A"; studentJson 3 "Arjun Singh" "Class 5-A"].

Definition afterNewTerm : list Student.t :=
  [ aarav;
    Student.make "64f1a0000000000000000002" 2 "Diya P. Patel" "Class 5-A" "+91 98765xxxx";
    Student.make "64f1b0000000000000000001" 3 "Arjun Singh" "Class 5-A" "+91 98765xxxx" ].

(** A registration, and the teacher it creates. *)
Definition ashaBody : RegisterBody :=
  mkRegisterBody (Some (Js.Str "Asha Rao")) (Some (Js.Str "asha@school.in"))
                 (Some (Js.Str "chalk")).

Definition asha : Teacher.t :=
  Teacher.create "64f1d0000000000000000001" "Asha Rao" "asha@school.in" "$2b$12$saltchalk".

(** The submitted entry says [present: true]. *)
Definition saysPresent (entry : Js.value) : bool :=
  match Js.get entry "present" with
  | Some (Some (Js.Bool true)) => true
  | _ => false
  end.

(** * Properties *)

(** ** The association list behind [studentStats] *)

Section StatsFacts.

Implicit Types (k : ObjectId) (f : Stat.t -> Stat.t) (stats : StudentStats).

Lemma lookup_In k stats s : lookup k stats = Some s -> In (k, s) stats.
Proof.
  induction stats as [|[k' s'] rest IH]; simpl; [discriminate|].
  destruct (String.eqb_spec k' k) as [->|_].
  - intros [= ->]. now left.
  - intros H. right. now apply IH.
Qed.

Lemma lookup_None k stats : lookup k stats = None <-> ~ In k (keys stats).
Proof.
  induction stats as [|[k' s'] rest IH]; simpl.
  - tauto.
  - destruct (String.eqb_spec k' k) as [->|Hne].
    + split; [discriminate | intros H; exfalso; apply H; now left].
    + rewrite IH. tauto.
Qed.

Lemma In_lookup k s stats : NoDup (keys stats) -> In (k, s) stats -> lookup k stats = Some s.
Proof.
  induction stats as [|[k' s'] rest IH]; simpl; [tauto|].
  intros Hnd [[= -> ->]|Hin].
  - now rewrite String.eqb_refl.
  - inversion Hnd as [|? ? Hnotin Hnd']; subst.
    destruct (String.eqb_spec k' k) as [->|_].
    + exfalso. apply Hnotin. apply (in_map fst) in Hin. exact Hin.
    + now apply IH.
Qed.

Lemma lookup_snoc k k' s stats :
  lookup k (stats ++ [(k', s)]) =
  match lookup k stats with
  | Some x => Some x
  | None => if String.eqb k' k then Some s else None
  end.
Proof.
  induction stats as [|[k0 s0] rest IH]; simpl; [reflexivity|].
  now destruct (String.eqb k0 k).
Qed.

Lemma lookup_update k k' f stats :
  lookup k' (update k f stats) =
  if String.eqb k k' then option_map f (lookup k' stats) else lookup k' stats.
Proof.
  induction stats as [|[k0 s0] rest IH]; simpl.
  - now destruct (String.eqb k k').
  - destruct (String.eqb_spec k0 k) as [->|Hne]; simpl.
    + destruct (String.eqb_spec k k') as [->|Hne']; [reflexivity|].
      destruct (String.eqb_spec k k'); [contradiction|reflexivity].
    + destruct (String.eqb_spec k0 k') as [->|Hne'].
      * destruct (String.eqb_spec k k'); [congruence|reflexivity].
      * exact IH.
Qed.

Lemma keys_update k f stats : keys (update k f stats) = keys stats.
Proof.
  induction stats as [|[k0 s0] rest IH]; simpl; [reflexivity|].
  destruct (String.eqb k0 k); simpl; [reflexivity|].
  f_equal. exact IH.
Qed.

Lemma keys_snoc k s stats : keys (stats ++ [(k, s)]) = keys stats ++ [k].
Proof. unfold keys. now rewrite map_app. Qed.

(** An update moves the sum of a counter by what it does to the one object
    it touches. *)
Lemma sum_update (g : Stat.t -> nat) k f stats s :
  lookup k stats = Some s ->
  list_sum (map g (values (update k f stats))) + g s =
  list_sum (map g (values stats)) + g (f s).
Proof.
  induction stats as [|[k0 s0] rest IH]; simpl; [discriminate|].
  destruct (String.eqb k0 k); simpl.
  - intros [= ->]. lia.
  - intros H. specialize (IH H). unfold values in *. lia.
Qed.

Lemma sum_snoc (g : Stat.t -> nat) k s stats :
  list_sum (map g (values (stats ++ [(k, s)]))) = list_sum (map g (values stats)) + g s.
Proof.
  unfold values. rewrite !map_app, list_sum_app. simpl. lia.
Qed.

Lemma fold_left_sum (g : Stat.t -> nat) (l : list Stat.t) (a : nat) :
  fold_left (fun a s => a + g s) l a = a + list_sum (map g l).
Proof.
  revert a. induction l as [|s l IH]; intros a; simpl; [lia|].
  rewrite IH. lia.
Qed.

Lemma totalPresentOf_sum stats : totalPresentOf stats = sumPresent stats.
Proof. unfold totalPresentOf, sumPresent. now rewrite fold_left_sum. Qed.

Lemma totalOf_sum stats : totalOf stats = sumTotal stats.
Proof. unfold totalOf, sumTotal. now rewrite fold_left_sum. Qed.

(** Counting through the values is counting through the keys. *)
Lemma filter_values_keys (p : Stat.t -> bool) stats :
  NoDup (keys stats) ->
  length (filter p (values stats)) =
  length (filter (fun k => match lookup k stats with Some s => p s | None => false end)
                 (keys stats)).
Proof.
  induction stats as [|[k0 s0] rest IH]; simpl; [reflexivity|].
  intros Hnd. inversion Hnd as [|? ? Hnotin Hnd']; subst.
  rewrite String.eqb_refl.
  assert (Hext : filter (fun k => match (if String.eqb k0 k then Some s0 else lookup k rest) with
                                  | Some s => p s | None => false end) (keys rest)
                 = filter (fun k => match lookup k rest with Some s => p s | None => false end)
                          (keys rest)).
  { apply filter_ext_in. intros k Hk.
    destruct (String.eqb_spec k0 k) as [->|_]; [contradiction|reflexivity]. }
  fold (keys rest). rewrite Hext.
  destruct (p s0); simpl; now rewrite IH.
Qed.

End StatsFacts.

(** ** One entry, then all of them *)

Section Tally.

Implicit Types (k : ObjectId) (stats : StudentStats) (e : Populated.t).

Lemma visitEntry_lookup stats e student stats' :
  Populated.studentId e = Some student ->
  visitEntry stats e = Some stats' ->
  forall k, lookup k stats' =
            if String.eqb (Student._id student) k
            then Some (bumped e student (lookup k stats))
            else lookup k stats.
Proof.
  unfold visitEntry, bumped. intros -> [= <-] k.
  destruct (lookup (Student._id student) stats) as [s|] eqn:Hl;
    destruct (Populated.present e);
    rewrite ?lookup_update, ?lookup_snoc;
    destruct (String.eqb_spec (Student._id student) k) as [<-|Hne];
    rewrite ?Hl; try reflexivity;
    destruct (lookup k stats); reflexivity.
Qed.

Lemma visitEntry_keys stats e student stats' :
  Populated.studentId e = Some student ->
  visitEntry stats e = Some stats' ->
  keys stats' =
  match lookup (Student._id student) stats with
  | Some _ => keys stats
  | None => keys stats ++ [Student._id student]
  end.
Proof.
  unfold visitEntry. intros -> [= <-].
  destruct (lookup (Student._id student) stats);
    destruct (Populated.present e);
    now rewrite ?keys_update, ?keys_snoc.
Qed.

Lemma visitEntry_sums stats e student stats' :
  Populated.studentId e = Some student ->
  visitEntry stats e = Some stats' ->
  sumTotal stats' = S (sumTotal stats)
  /\ sumPresent stats' = sumPresent stats + (if Populated.present e then 1 else 0).
Proof.
  unfold visitEntry, sumTotal, sumPresent. intros -> [= <-].
  set (id := Student._id student).
  set (fresh := Stat.make (Student.name student) 0 0).
  set (created := match lookup id stats with
                  | Some _ => stats
                  | None => stats ++ [(id, fresh)]
                  end).
  assert (Hc : exists s, lookup id created = Some s
                         /\ list_sum (map Stat.total (values created))
                            = list_sum (map Stat.total (values stats)) + Stat.total s - Stat.total s
                         /\ list_sum (map Stat.present (values created))
                            = list_sum (map Stat.present (values stats))).
  { subst created. destruct (lookup id stats) as [s|] eqn:Hl.
    - exists s. repeat split; [exact Hl | lia].
    - exists fresh. rewrite lookup_snoc, Hl, String.eqb_refl, !sum_snoc. simpl.
      repeat split; lia. }
  destruct Hc as (s & Hs & Ht & Hp).
  destruct (Populated.present e).
  - assert (Hs' : lookup id (update id Stat.incPresent created) = Some (Stat.incPresent s))
      by now rewrite lookup_update, String.eqb_refl, Hs.
    pose proof (sum_update Stat.total id Stat.incTotal _ _ Hs') as H1.
    pose proof (sum_update Stat.present id Stat.incTotal _ _ Hs') as H2.
    pose proof (sum_update Stat.total id Stat.incPresent _ _ Hs) as H3.
    pose proof (sum_update Stat.present id Stat.incPresent _ _ Hs) as H4.
    simpl in *. lia.
  - pose proof (sum_update Stat.total id Stat.incTotal _ _ Hs) as H1.
    pose proof (sum_update Stat.present id Stat.incTotal _ _ Hs) as H2.
    simpl in *. lia.
Qed.

Lemma forEachRecord_concat (records : list (list Populated.t)) stats :
  forEachRecord records stats = forEachEntry (concat records) stats.
Proof.
  revert stats. induction records as [|rec rest IH]; intros stats; simpl; [reflexivity|].
  assert (Happ : forall es1 es2 st,
             forEachEntry (es1 ++ es2) st =
             match forEachEntry es1 st with
             | Some next => forEachEntry es2 next
             | None => None
             end).
  { induction es1 as [|e es1 IH1]; intros es2 st; simpl; [reflexivity|].
    destruct (visitEntry st e); [apply IH1 | reflexivity]. }
  rewrite Happ. destruct (forEachEntry rec stats); [apply IH | reflexivity].
Qed.

(** The loops go through exactly when every entry resolves. *)
Lemma forEachEntry_resolved (entries : list Populated.t) stats :
  Forall resolved entries -> exists stats', forEachEntry entries stats = Some stats'.
Proof.
  revert stats. induction entries as [|e rest IH]; intros stats H; simpl.
  - now exists stats.
  - inversion H as [|? ? He Hrest]; subst.
    unfold visitEntry. destruct (Populated.studentId e) eqn:Hs; [|now elim He].
    apply IH, Hrest.
Qed.

Lemma forEachEntry_unresolved (entries : list Populated.t) stats :
  Exists (fun e => Populated.studentId e = None) entries ->
  forEachEntry entries stats = None.
Proof.
  revert stats. induction entries as [|e rest IH]; intros stats H; simpl.
  - inversion H.
  - destruct (visitEntry stats e) as [next|] eqn:Hv; [|reflexivity].
    inversion H as [? ? He|? ? Hrest]; subst.
    + unfold visitEntry in Hv. now rewrite He in Hv.
    + now apply IH.
Qed.

(** A run that went past its first entry visited it, and that entry
    resolves. *)
Ltac first_entry H next Hv student Hs :=
  match type of H with
  | match visitEntry ?stats ?e with _ => _ end = Some _ =>
      destruct (visitEntry stats e) as [next|] eqn:Hv; [|discriminate H];
      destruct (Populated.studentId e) as [student|] eqn:Hs;
      [|unfold visitEntry in Hv; rewrite Hs in Hv; discriminate Hv]
  end.

(** Every entry adds one to the total of its student, and one to the
    present count when it is marked present. *)
Lemma forEachEntry_tally (entries : list Populated.t) stats stats' :
  forEachEntry entries stats = Some stats' ->
  forall k,
    totalAt k stats' = totalAt k stats + entriesOf k entries
    /\ presentAt k stats' = presentAt k stats + presencesOf k entries.
Proof.
  revert stats. induction entries as [|e rest IH]; intros stats H k; simpl in H.
  - injection H as <-. unfold entriesOf, presencesOf. simpl. lia.
  - first_entry H next Hv student Hs.
    destruct (IH _ H k) as [Ht Hp]. rewrite Ht, Hp. clear IH H Ht Hp.
    pose proof (visitEntry_lookup _ _ _ _ Hs Hv k) as Hl.
    unfold totalAt, presentAt, entriesOf, presencesOf, refersTo. simpl.
    rewrite Hl, Hs. unfold bumped.
    destruct (String.eqb (Student._id student) k); simpl; [|lia].
    destruct (Populated.present e), (lookup k stats); simpl; lia.
Qed.

Lemma forEachEntry_sums (entries : list Populated.t) stats stats' :
  forEachEntry entries stats = Some stats' ->
  sumTotal stats' = sumTotal stats + length entries
  /\ sumPresent stats' = sumPresent stats + length (filter Populated.present entries).
Proof.
  revert stats. induction entries as [|e rest IH]; intros stats H; simpl in H.
  - injection H as <-. simpl. lia.
  - first_entry H next Hv student Hs.
    destruct (IH _ H) as [Ht Hp]. rewrite Ht, Hp. clear IH H Ht Hp.
    destruct (visitEntry_sums _ _ _ _ Hs Hv) as [Ht Hp]. rewrite Ht, Hp. simpl.
    destruct (Populated.present e); simpl; lia.
Qed.

Lemma forEachEntry_keys (entries : list Populated.t) stats stats' :
  forEachEntry entries stats = Some stats' ->
  (forall k, In k (keys stats') <-> In k (keys stats) \/ In k (idsOf entries))
  /\ (NoDup (keys stats) -> NoDup (keys stats')).
Proof.
  revert stats. induction entries as [|e rest IH]; intros stats H; simpl in H.
  - injection H as <-. simpl. split; [tauto|auto].
  - first_entry H next Hv student Hs.
    destruct (IH _ H) as [Hin Hnd]. clear IH H.
    pose proof (visitEntry_keys _ _ _ _ Hs Hv) as Hk.
    simpl. rewrite Hs. simpl.
    destruct (lookup (Student._id student) stats) as [s|] eqn:Hl.
    + rewrite Hk in *. split; [|exact Hnd].
      intros k. rewrite Hin. split; [tauto|].
      intros [H|[<-|H]]; [tauto| |tauto].
      left. apply lookup_In in Hl. apply (in_map fst) in Hl. exact Hl.
    + rewrite Hk in *. split.
      * intros k. rewrite Hin, in_app_iff. simpl. tauto.
      * intros Hnd0. apply Hnd.
        apply lookup_None in Hl.
        apply NoDup_app; [exact Hnd0 | repeat constructor; simpl; tauto |].
        intros x Hx [<-|[]]. contradiction.
Qed.

Lemma forEachEntry_positive (entries : list Populated.t) stats stats' :
  forEachEntry entries stats = Some stats' ->
  (forall k s, lookup k stats = Some s -> 0 < Stat.total s) ->
  forall k s, lookup k stats' = Some s -> 0 < Stat.total s.
Proof.
  revert stats. induction entries as [|e rest IH]; intros stats H Hpos; simpl in H.
  - now injection H as <-.
  - first_entry H next Hv student Hs.
    apply (IH _ H). clear IH H. intros k s.
    rewrite (visitEntry_lookup _ _ _ _ Hs Hv k).
    destruct (String.eqb (Student._id student) k); [|apply Hpos].
    intros [= <-]. unfold bumped. simpl. lia.
Qed.

End Tally.

(** ** The range query *)

Lemma leb_lexLe (a b : string) : String.leb a b = true <-> lexLe a b.
Proof.
  unfold String.leb. revert b.
  induction a as [|x a IH]; intros [|y b]; simpl.
  - split; [constructor | reflexivity].
  - split; [constructor | reflexivity].
  - split; [discriminate | intros H; inversion H].
  - destruct (Ascii.compare x y) eqn:Hc.
    + apply Ascii.compare_eq_iff in Hc. subst y. rewrite IH.
      split; intros H; [now constructor 3|].
      inversion H as [|? ? ? ? Hlt|]; subst; [|assumption].
      now apply Nat.lt_irrefl in Hlt.
    + unfold Ascii.compare in Hc. rewrite N2Nat.inj_compare in Hc.
      split; [intros _ | reflexivity].
      constructor 2. now apply Nat.compare_lt_iff.
    + unfold Ascii.compare in Hc. rewrite N2Nat.inj_compare in Hc.
      split; [discriminate|].
      intros H. inversion H as [|? ? ? ? Hlt|]; subst.
      * apply Nat.compare_lt_iff in Hlt. unfold nat_of_ascii in Hlt. congruence.
      * rewrite Nat.compare_refl in Hc. discriminate.
Qed.

Lemma inRange_selects (c from to : string) (r : Attendance.t) :
  inRange c from to r = true <-> selects c from to r.
Proof.
  unfold inRange, selects.
  rewrite !andb_true_iff, String.eqb_eq, !leb_lexLe. tauto.
Qed.

(** ** The handler, once its parameters are there *)

Lemma given_Some (s : string) : s <> "" -> given (Some s) = true.
Proof. simpl. intros H. now destruct (String.eqb_spec s ""). Qed.

Lemma report_run (db : Db) (c from to : string) :
  c <> "" -> from <> "" -> to <> "" ->
  report db (query c from to) =
  match forEachRecord (findRecords db c from to) [] with
  | None => Fail 500 reportFailed
  | Some studentStats => Ok (summarise (length (findRecords db c from to)) studentStats)
  end.
Proof.
  intros Hc Hf Ht. unfold report, query. cbn [q_className q_from q_to].
  now rewrite !given_Some.
Qed.

Lemma report_Ok (db : Db) (c from to : string) (r : Report) :
  report db (query c from to) = Ok r ->
  exists studentStats,
    forEachEntry (selectedEntries db c from to) [] = Some studentStats
    /\ r = summarise (length (found db c from to)) studentStats.
Proof.
  unfold report, query. cbn [q_className q_from q_to].
  destruct (negb (given (Some c)) || negb (given (Some from)) || negb (given (Some to)));
    [discriminate|].
  rewrite forEachRecord_concat. fold (selectedEntries db c from to).
  destruct (forEachEntry (selectedEntries db c from to) []) as [stats|]; [|discriminate].
  intros [= <-]. exists stats. split; [reflexivity|].
  unfold findRecords, found. now rewrite length_map.
Qed.

(** What the loops leave in [studentStats], starting from [{}]. *)
Lemma stats_facts (entries : list Populated.t) (stats : StudentStats) :
  forEachEntry entries [] = Some stats ->
  NoDup (keys stats)
  /\ (forall k, totalAt k stats = entriesOf k entries
                /\ presentAt k stats = presencesOf k entries)
  /\ (forall k, In k (keys stats) <-> In k (idsOf entries))
  /\ (forall k s, In (k, s) stats -> lookup k stats = Some s /\ 0 < Stat.total s)
  /\ sumTotal stats = length entries
  /\ sumPresent stats = length (filter Populated.present entries).
Proof.
  intros H.
  destruct (forEachEntry_keys _ _ _ H) as [Hin Hnd].
  assert (Hnd' : NoDup (keys stats)) by (apply Hnd; constructor).
  split; [exact Hnd'|]. split; [|split; [|split]].
  - intros k. destruct (forEachEntry_tally _ _ _ H k) as [Ht Hp].
    rewrite Ht, Hp. unfold totalAt, presentAt. simpl. lia.
  - intros k. rewrite Hin. simpl. tauto.
  - intros k s Hks. pose proof (In_lookup _ _ _ Hnd' Hks) as Hl. split; [exact Hl|].
    apply (forEachEntry_positive _ _ _ H) with (k := k); [|exact Hl].
    intros ? ? [=].
  - destruct (forEachEntry_sums _ _ _ H) as [Ht Hp].
    rewrite Ht, Hp. unfold sumTotal, sumPresent. simpl. lia.
Qed.

Lemma entriesOf_idsOf (k : ObjectId) (entries : list Populated.t) :
  0 < entriesOf k entries <-> In k (idsOf entries).
Proof.
  unfold entriesOf, refersTo.
  induction entries as [|e rest IH]; simpl; [split; [lia | tauto]|].
  destruct (Populated.studentId e) as [student|]; simpl; [|exact IH].
  destruct (String.eqb_spec (Student._id student) k) as [->|Hne]; simpl.
  - split; [now left | lia].
  - rewrite IH. split; [now right | now intros [?|?]].
Qed.

Lemma entriesOf_concat (k : ObjectId) (records : list (list Populated.t)) :
  entriesOf k (concat records) = list_sum (map (entriesOf k) records)
  /\ presencesOf k (concat records) = list_sum (map (presencesOf k) records).
Proof.
  unfold entriesOf, presencesOf.
  induction records as [|rec rest [IH1 IH2]]; simpl; [split; reflexivity|].
  rewrite !filter_app, !length_app, IH1, IH2. split; reflexivity.
Qed.

(** ** Rounding to one decimal *)

Lemma ratio_den_pos (m : positive) (e : Z) : (0 < snd (Number.ratio m e))%Z.
Proof.
  destruct e as [|p|p]; cbn [Number.ratio snd]; lia.
Qed.

Lemma nearestTenths_nearest (num den : Z) :
  (0 < den)%Z -> nearestTenth num den (Number.nearestTenths num den).
Proof.
  intros Hden. unfold nearestTenth, Number.nearestTenths.
  pose proof (Z.mul_div_le (20 * num + den) (2 * den) ltac:(lia)) as Hlo.
  pose proof (Z.mul_succ_div_gt (20 * num + den) (2 * den) ltac:(lia)) as Hhi.
  set (n := ((20 * num + den) / (2 * den))%Z) in *.
  split; nia.
Qed.

Lemma toFixed1_rounded (x : Number.t) : printsRounded x (Number.toFixed1 x).
Proof.
  destruct x as [s|s| |s m e]; cbv beta iota delta [printsRounded Number.toFixed1];
    try exact I; [reflexivity|].
  pose proof (ratio_den_pos m e) as Hden.
  destruct (Number.ratio m e) as [num den]. cbn [snd] in Hden.
  intros Hsmall.
  destruct (Z.leb_spec (10 ^ 21 * den) num) as [Hbig|_]; [lia|].
  exists (Number.nearestTenths num den). split; [reflexivity|].
  now apply nearestTenths_nearest.
Qed.

(** ** Binary64 arithmetic on the counters

    The operations of [SpecFloat] at precision 53, followed through one
    rounding at a time for mantissas of 53 digits and exponents far from
    the ends of the range. Everything is stated on integers: a number
    [m * 2 ^ e] is compared with an exact value in units of a power of two
    that makes both whole. *)

Section NumberFacts.

Local Open Scope Z_scope.

Lemma digits2_pos_bounds (p : positive) :
  2 ^ (Zpos (digits2_pos p) - 1) <= Zpos p < 2 ^ Zpos (digits2_pos p).
Proof.
  induction p as [p IH|p IH|]; cbn [digits2_pos].
  - rewrite Pos2Z.inj_succ.
    replace (Z.succ (Zpos (digits2_pos p)) - 1) with (Z.succ (Zpos (digits2_pos p) - 1)) by lia.
    rewrite !Z.pow_succ_r by lia. lia.
  - rewrite Pos2Z.inj_succ.
    replace (Z.succ (Zpos (digits2_pos p)) - 1) with (Z.succ (Zpos (digits2_pos p) - 1)) by lia.
    rewrite !Z.pow_succ_r by lia. lia.
  - simpl. lia.
Qed.

Lemma Zdigits2_bounds (m : Z) :
  0 < m -> 2 ^ (Zdigits2 m - 1) <= m < 2 ^ Zdigits2 m.
Proof.
  destruct m as [|p|p]; try lia. intros _. apply digits2_pos_bounds.
Qed.

Lemma Zdigits2_unique (m d : Z) :
  2 ^ (d - 1) <= m < 2 ^ d -> 0 < d -> Zdigits2 m = d.
Proof.
  intros [Hlo Hhi] Hd.
  assert (Hm : 0 < m) by (pose proof (Z.pow_pos_nonneg 2 (d - 1)); lia).
  destruct (Zdigits2_bounds m Hm) as [Hlo' Hhi'].
  assert (Hdm : 0 < Zdigits2 m) by (destruct m; simpl; lia).
  destruct (Z.lt_trichotomy (Zdigits2 m) d) as [Hlt|[Heq|Hgt]]; [|exact Heq|].
  - assert (2 ^ Zdigits2 m <= 2 ^ (d - 1)) by (apply Z.pow_le_mono_r; lia). lia.
  - assert (2 ^ d <= 2 ^ (Zdigits2 m - 1)) by (apply Z.pow_le_mono_r; lia). lia.
Qed.

Lemma shr_1_m (mrs : shr_record) :
  0 <= shr_m mrs -> shr_m (shr_1 mrs) = shr_m mrs / 2.
Proof.
  destruct mrs as [m r s]. cbn [shr_m]. intros Hm. unfold shr_1.
  destruct m as [|[p|p|]|p]; cbn [shr_m]; try lia.
  - reflexivity.
  - rewrite Pos2Z.inj_xI. apply Z.div_unique with 1; lia.
  - rewrite Pos2Z.inj_xO. apply Z.div_unique with 0; lia.
  - reflexivity.
Qed.

Lemma pow2_xO (p : positive) : 2 ^ Zpos p~0 = 2 ^ Zpos p * 2 ^ Zpos p.
Proof. change (Zpos p~0) with (2 * Zpos p). apply Z.pow_twice_r. Qed.

Lemma pow2_xI (p : positive) : 2 ^ Zpos p~1 = 2 * (2 ^ Zpos p * 2 ^ Zpos p).
Proof.
  change (Zpos p~1) with (2 * Zpos p + 1).
  rewrite Z.pow_add_r, Z.pow_twice_r, Z.pow_1_r by lia. lia.
Qed.

Lemma iter_shr_1_m (p : positive) (mrs : shr_record) :
  0 <= shr_m mrs -> shr_m (iter_pos shr_1 p mrs) = shr_m mrs / 2 ^ Zpos p.
Proof.
  revert mrs. induction p as [p IH|p IH|]; intros mrs Hm; cbn [iter_pos].
  - assert (Hp : 0 < 2 ^ Zpos p) by (apply Z.pow_pos_nonneg; lia).
    assert (H1 : 0 <= shr_m (shr_1 mrs)) by (rewrite shr_1_m by lia; apply Z.div_pos; lia).
    assert (H2 : 0 <= shr_m (iter_pos shr_1 p (shr_1 mrs)))
      by (rewrite IH by lia; apply Z.div_pos; lia).
    rewrite IH, IH, shr_1_m, pow2_xI by lia.
    rewrite !Z.div_div by lia. reflexivity.
  - assert (Hp : 0 < 2 ^ Zpos p) by (apply Z.pow_pos_nonneg; lia).
    assert (H2 : 0 <= shr_m (iter_pos shr_1 p mrs))
      by (rewrite IH by lia; apply Z.div_pos; lia).
    rewrite IH, IH, pow2_xO by lia.
    rewrite !Z.div_div by lia. reflexivity.
  - rewrite shr_1_m by lia. reflexivity.
Qed.

Lemma round_nearest_even_cases (m : Z) (l : location) :
  round_nearest_even m l = m \/ round_nearest_even m l = m + 1.
Proof.
  unfold round_nearest_even.
  destruct l as [|[| |]]; try (now left); try (now right).
  destruct (Z.even m); [now left | now right].
Qed.

Lemma loc_of_record_of_loc (m : Z) (l : location) :
  loc_of_shr_record (shr_record_of_loc m l) = l /\ shr_m (shr_record_of_loc m l) = m.
Proof. destruct l as [|[| |]]; split; reflexivity. Qed.

Lemma shr_spec (mrs : shr_record) (e n : Z) :
  0 <= shr_m mrs -> 0 <= n ->
  exists mrs',
    shr mrs e n = (mrs', e + n)
    /\ shr_m mrs' = shr_m mrs / 2 ^ n
    /\ (n = 0 -> mrs' = mrs).
Proof.
  intros Hm Hn. destruct n as [|p|p]; [| |lia].
  - exists mrs. cbn [shr]. rewrite Z.add_0_r, Z.pow_0_r, Z.div_1_r. now repeat split.
  - exists (iter_pos shr_1 p mrs). cbn [shr].
    split; [reflexivity|]. split; [now apply iter_shr_1_m | discriminate].
Qed.

Lemma fexp_normal (x : Z) : -1021 <= x -> fexp 53 1024 x = x - 53.
Proof. unfold fexp, emin. lia. Qed.

Lemma pow2_53 : 2 ^ 53 = 9007199254740992.
Proof. reflexivity. Qed.

Lemma binary_round_aux_normal (sx : bool) (mx ex : Z) (lx : location) :
  0 < mx -> 53 <= Zdigits2 mx -> -1021 <= Zdigits2 mx + ex <= 1023 ->
  exists mr m e,
    (mr = mx / 2 ^ (Zdigits2 mx - 53) \/ mr = mx / 2 ^ (Zdigits2 mx - 53) + 1)
    /\ (Zdigits2 mx = 53 -> lx = loc_Exact -> mr = mx)
    /\ binary_round_aux 53 1024 sx mx ex lx = S754_finite sx m e
    /\ Zdigits2 (Zpos m) = 53
    /\ ex + (Zdigits2 mx - 53) <= e
    /\ Zpos m * 2 ^ (e - (ex + (Zdigits2 mx - 53))) = mr.
Proof.
  intros Hmx Hd Hmag.
  set (d := Zdigits2 mx) in *. set (k := d - 53).
  destruct (Zdigits2_bounds mx Hmx) as [Hlo Hhi]. fold d in Hlo, Hhi.
  assert (Hk : 0 <= k) by lia.
  assert (Hpk : 0 < 2 ^ k) by (apply Z.pow_pos_nonneg; lia).
  assert (Hm1 : 2 ^ 52 <= mx / 2 ^ k < 2 ^ 53).
  { replace (d - 1) with (52 + k) in Hlo by lia. replace d with (53 + k) in Hhi by lia.
    rewrite Z.pow_add_r in Hlo, Hhi by lia. split.
    - apply Z.div_le_lower_bound; lia.
    - apply Z.div_lt_upper_bound; lia. }
  unfold binary_round_aux, shr_fexp. fold d.
  rewrite (fexp_normal (d + ex)) by lia.
  replace (d + ex - 53 - ex) with k by lia.
  destruct (loc_of_record_of_loc mx lx) as [Hloc Hrec].
  destruct (shr_spec (shr_record_of_loc mx lx) ex k) as (mrs1 & Hshr1 & Hmrs1 & Hsame);
    [lia | lia |].
  rewrite Hshr1, Hmrs1, Hrec.
  set (mr := round_nearest_even (mx / 2 ^ k) (loc_of_shr_record mrs1)).
  assert (Hmr : mr = mx / 2 ^ k \/ mr = mx / 2 ^ k + 1) by apply round_nearest_even_cases.
  assert (Hexact : d = 53 -> lx = loc_Exact -> mr = mx).
  { intros Hd53 ->. assert (Hk0 : k = 0) by lia. subst mr.
    rewrite (Hsame Hk0). cbn [shr_record_of_loc loc_of_shr_record round_nearest_even].
    rewrite Hk0, Z.pow_0_r. apply Z.div_1_r. }
  assert (Hcases : mr < 2 ^ 53 \/ mr = 2 ^ 53) by lia.
  destruct Hcases as [Hsmall|Hfull].
  - assert (Hdr : Zdigits2 mr = 53) by (apply Zdigits2_unique; simpl (53 - 1); lia).
    rewrite Hdr, (fexp_normal (53 + (ex + k))) by lia.
    replace (53 + (ex + k) - 53 - (ex + k)) with 0 by lia.
    cbn [shr shr_record_of_loc shr_m].
    destruct mr as [|m|m] eqn:Hm; [lia| |lia].
    replace (ex + k <=? 1024 - 53) with true by (symmetry; apply Z.leb_le; lia).
    exists (Zpos m), m, (ex + k). repeat split; try assumption; try lia.
    rewrite Z.sub_diag, Z.pow_0_r. lia.
  - assert (Hdr : Zdigits2 mr = 54).
    { apply Zdigits2_unique; [|lia]. rewrite Hfull. simpl (54 - 1).
      split; [lia | apply Z.pow_lt_mono_r; lia]. }
    rewrite Hdr, (fexp_normal (54 + (ex + k))) by lia.
    replace (54 + (ex + k) - 53 - (ex + k)) with 1 by lia.
    rewrite Hfull.
    change (shr (shr_record_of_loc (2 ^ 53) loc_Exact) (ex + k) 1)
      with ({| shr_m := 2 ^ 52; shr_r := false; shr_s := false |}, ex + k + 1).
    cbn [shr_m].
    change (2 ^ 52) with (Zpos (2 ^ 52)%positive).
    replace (ex + k + 1 <=? 1024 - 53) with true by (symmetry; apply Z.leb_le; lia).
    exists mr, (2 ^ 52)%positive, (ex + k + 1). repeat split; try assumption; try lia.
    replace (ex + k + 1 - (ex + k)) with 1 by lia. rewrite Hfull. reflexivity.
Qed.

(** One rounding, in units of [2 ^ ex]: the result is within
    [2 ^ (digits - 53)] of the mantissa it rounds. *)
Lemma binary_round_aux_close (sx : bool) (mx ex : Z) (lx : location) :
  0 < mx -> 53 <= Zdigits2 mx -> -1021 <= Zdigits2 mx + ex <= 1023 ->
  exists m e,
    binary_round_aux 53 1024 sx mx ex lx = S754_finite sx m e
    /\ Zdigits2 (Zpos m) = 53
    /\ Zdigits2 mx - 53 <= e - ex <= Zdigits2 mx - 52
    /\ Z.abs (Zpos m * 2 ^ (e - ex) - mx) <= 2 ^ (Zdigits2 mx - 53)
    /\ (Zdigits2 mx = 53 -> lx = loc_Exact -> Zpos m = mx /\ e = ex).
Proof.
  intros Hmx Hd Hmag.
  destruct (binary_round_aux_normal sx mx ex lx Hmx Hd Hmag)
    as (mr & m & e & Hmr & Hexact & Hres & Hdm & He & Hval).
  set (k := Zdigits2 mx - 53) in *.
  assert (Hk : 0 <= k) by lia.
  assert (Hpk : 0 < 2 ^ k) by (apply Z.pow_pos_nonneg; lia).
  pose proof (Z.mul_div_le mx (2 ^ k) Hpk) as Hlo.
  pose proof (Z.mul_succ_div_gt mx (2 ^ k) Hpk) as Hhi.
  assert (Hsplit : Zpos m * 2 ^ (e - ex) = mr * 2 ^ k).
  { replace (e - ex) with ((e - (ex + k)) + k) by lia.
    rewrite Z.pow_add_r by lia. rewrite Z.mul_assoc, Hval. reflexivity. }
  destruct (Zdigits2_bounds (Zpos m) ltac:(lia)) as [Hmlo Hmhi]. rewrite Hdm in Hmlo, Hmhi.
  simpl (53 - 1) in Hmlo.
  assert (Hshift : e - (ex + k) <= 1).
  { destruct (Z.le_gt_cases (e - (ex + k)) 1) as [H|H]; [exact H|].
    assert (H2 : 2 ^ 2 <= 2 ^ (e - (ex + k))) by (apply Z.pow_le_mono_r; lia).
    destruct (Zdigits2_bounds mx Hmx) as [_ Hmxhi].
    replace (Zdigits2 mx) with (53 + k) in Hmxhi by lia.
    rewrite Z.pow_add_r in Hmxhi by lia.
    assert (Hq : mx / 2 ^ k < 2 ^ 53) by (apply Z.div_lt_upper_bound; lia).
    change (2 ^ 2) with 4 in H2. nia. }
  exists m, e. split; [exact Hres|]. split; [exact Hdm|]. split; [lia|]. split.
  - rewrite Hsplit. destruct Hmr as [-> | ->]; nia.
  - intros H53 Hlx. specialize (Hexact H53 Hlx). subst mr.
    assert (Hk0 : k = 0) by lia. rewrite Hk0, Z.add_0_r in *.
    assert (He0 : e - ex = 0).
    { destruct (Z.le_gt_cases (e - ex) 0) as [H|H]; [lia|].
      assert (H2 : 2 ^ 1 <= 2 ^ (e - ex)) by (apply Z.pow_le_mono_r; lia).
      destruct (Zdigits2_bounds mx Hmx) as [_ Hmxhi]. rewrite H53 in Hmxhi.
      change (2 ^ 1) with 2 in H2. nia. }
    rewrite He0, Z.pow_0_r in Hval. lia.
Qed.

Lemma iter_xO_pow (m d : positive) : Zpos (Pos.iter xO m d) = Zpos m * 2 ^ Zpos d.
Proof.
  induction d as [|d IH] using Pos.peano_ind.
  - cbn [Pos.iter]. rewrite Z.pow_1_r. lia.
  - rewrite Pos.iter_succ, Pos2Z.inj_succ, Z.pow_succ_r by lia.
    change (Zpos (Pos.iter xO m d)~0) with (2 * Zpos (Pos.iter xO m d)). rewrite IH. lia.
Qed.

Lemma shl_align_spec (mx : positive) (ex ex' : Z) :
  ex' <= ex ->
  exists mz, shl_align mx ex ex' = (mz, ex') /\ Zpos mz = Zpos mx * 2 ^ (ex - ex').
Proof.
  intros Hle. unfold shl_align.
  destruct (ex' - ex) as [|d|d] eqn:Hd; [|lia|].
  - exists mx. replace ex' with ex by lia. rewrite Z.sub_diag, Z.pow_0_r. split; [reflexivity|lia].
  - exists (Pos.iter xO mx d). split; [reflexivity|].
    rewrite iter_xO_pow. f_equal. f_equal. lia.
Qed.

(** An integer below [2 ^ 53] is a number, exactly. *)
Lemma ofZ_normal (z : Z) :
  0 < z < 2 ^ 53 ->
  exists m e,
    Number.ofZ z = S754_finite false m e
    /\ Zdigits2 (Zpos m) = 53
    /\ e = Zdigits2 z - 53
    /\ Zpos m = z * 2 ^ (- e).
Proof.
  intros [Hpos Hlt]. destruct z as [|p|p]; try lia.
  destruct (digits2_pos_bounds p) as [Hlo Hhi].
  set (d := Zpos (digits2_pos p)) in *.
  assert (Hd : 1 <= d <= 53).
  { split; [lia|]. destruct (Z.le_gt_cases d 53) as [H|H]; [exact H|].
    assert (2 ^ 53 <= 2 ^ (d - 1)) by (apply Z.pow_le_mono_r; lia). lia. }
  unfold Number.ofZ, Number.prec, Number.emax, binary_normalize, binary_round. fold d.
  rewrite Z.add_0_r, (fexp_normal d) by lia.
  destruct (shl_align_spec p 0 (d - 53)) as (mz & -> & Hmz); [lia|].
  replace (0 - (d - 53)) with (53 - d) in Hmz by lia.
  assert (Hdz : Zdigits2 (Zpos mz) = 53).
  { apply Zdigits2_unique; [|lia]. rewrite Hmz. simpl (53 - 1). split.
    - replace 52 with ((d - 1) + (53 - d)) by lia. rewrite Z.pow_add_r by lia.
      apply Z.mul_le_mono_nonneg_r; [apply Z.pow_nonneg; lia | exact Hlo].
    - replace 53 with (d + (53 - d)) at 2 by lia. rewrite Z.pow_add_r by lia.
      apply Z.mul_lt_mono_pos_r; [apply Z.pow_pos_nonneg; lia | exact Hhi]. }
  destruct (binary_round_aux_close false (Zpos mz) (d - 53) loc_Exact)
    as (m & e & Hres & Hdm & _ & _ & Hexact); [lia | lia | lia |].
  destruct (Hexact Hdz eq_refl) as [Hm He].
  exists m, e. split; [exact Hres|]. split; [exact Hdm|]. split; [exact He|].
  rewrite Hm, Hmz, He. f_equal. f_equal. lia.
Qed.

Lemma digits_53_bounds (m : positive) :
  Zdigits2 (Zpos m) = 53 -> 2 ^ 52 <= Zpos m < 2 ^ 53.
Proof.
  intros Hd. destruct (Zdigits2_bounds (Zpos m) ltac:(lia)) as [Hlo Hhi].
  rewrite Hd in Hlo, Hhi. exact (conj Hlo Hhi).
Qed.

(** The quotient of two normal numbers, in units of [2 ^ (e1 - e2 - 53)]. *)
Lemma div_normal (m1 m2 : positive) (e1 e2 : Z) :
  Zdigits2 (Zpos m1) = 53 -> Zdigits2 (Zpos m2) = 53 -> -900 <= e1 - e2 <= 900 ->
  exists m e,
    SFdiv 53 1024 (S754_finite false m1 e1) (S754_finite false m2 e2) = S754_finite false m e
    /\ Zdigits2 (Zpos m) = 53
    /\ 0 <= e - (e1 - e2 - 53) <= 2
    /\ Z.abs (Zpos m * 2 ^ (e - (e1 - e2 - 53)) * Zpos m2 - Zpos m1 * 2 ^ 53) <= 3 * Zpos m2.
Proof.
  intros Hd1 Hd2 He.
  destruct (digits_53_bounds m1 Hd1) as [Hlo1 Hhi1].
  destruct (digits_53_bounds m2 Hd2) as [Hlo2 Hhi2].
  unfold SFdiv, SFdiv_core_binary. rewrite Hd1, Hd2.
  rewrite (fexp_normal (53 + e1 - (53 + e2))) by lia.
  replace (Z.min (53 + e1 - (53 + e2) - 53) (e1 - e2)) with (e1 - e2 - 53) by lia.
  replace (e1 - e2 - (e1 - e2 - 53)) with 53 by lia.
  rewrite Z.shiftl_mul_pow2 by lia.
  set (M := Zpos m1 * 2 ^ 53).
  pose proof (Z.div_eucl_eq M (Zpos m2) ltac:(lia)) as Heq.
  pose proof (Z.mod_pos_bound M (Zpos m2) ltac:(lia)) as Hr.
  unfold Z.modulo in Hr.
  destruct (Z.div_eucl M (Zpos m2)) as [q r].
  assert (Hq : 2 ^ 52 <= q < 2 ^ 54).
  { subst M. change (2 ^ 54) with (2 * 2 ^ 53). change (2 ^ 53) with (2 * 2 ^ 52) in *.
    nia. }
  assert (Hdq : Zdigits2 q = 53 \/ Zdigits2 q = 54).
  { destruct (Z.lt_ge_cases q (2 ^ 53)) as [H|H].
    - left. apply Zdigits2_unique; simpl (53 - 1); lia.
    - right. apply Zdigits2_unique; simpl (54 - 1); lia. }
  destruct (binary_round_aux_close (xorb false false) q (e1 - e2 - 53) (new_location (Zpos m2) r))
    as (m & e & Hres & Hdm & Hshift & Hclose & _); [lia | lia | lia |].
  exists m, e. split; [exact Hres|]. split; [exact Hdm|]. split; [lia|].
  assert (Hulp : 2 ^ (Zdigits2 q - 53) <= 2).
  { destruct Hdq as [-> | ->]; simpl; lia. }
  set (Y := Zpos m * 2 ^ (e - (e1 - e2 - 53))) in *.
  replace (Y * Zpos m2 - M) with ((Y - q) * Zpos m2 - r) by (rewrite Heq; ring).
  assert (H1 : Z.abs ((Y - q) * Zpos m2) <= 2 * Zpos m2).
  { rewrite Z.abs_mul, (Z.abs_eq (Zpos m2)) by lia.
    apply Z.mul_le_mono_nonneg_r; lia. }
  lia.
Qed.

(** The product of two normal numbers, in units of [2 ^ (e1 + e2)]. *)
Lemma mul_normal (m1 m2 : positive) (e1 e2 : Z) :
  Zdigits2 (Zpos m1) = 53 -> Zdigits2 (Zpos m2) = 53 -> -900 <= e1 + e2 <= 900 ->
  exists m e,
    SFmul 53 1024 (S754_finite false m1 e1) (S754_finite false m2 e2) = S754_finite false m e
    /\ Zdigits2 (Zpos m) = 53
    /\ 52 <= e - (e1 + e2) <= 54
    /\ Z.abs (Zpos m * 2 ^ (e - (e1 + e2)) - Zpos m1 * Zpos m2) <= 2 ^ 53.
Proof.
  intros Hd1 Hd2 He.
  destruct (digits_53_bounds m1 Hd1) as [Hlo1 Hhi1].
  destruct (digits_53_bounds m2 Hd2) as [Hlo2 Hhi2].
  unfold SFmul. rewrite Pos2Z.inj_mul.
  set (mx := Zpos m1 * Zpos m2).
  assert (Hmx : 2 ^ 104 <= mx < 2 ^ 106).
  { subst mx. change (2 ^ 104) with (2 ^ 52 * 2 ^ 52). change (2 ^ 106) with (2 ^ 53 * 2 ^ 53).
    nia. }
  assert (Hdq : Zdigits2 mx = 105 \/ Zdigits2 mx = 106).
  { destruct (Z.lt_ge_cases mx (2 ^ 105)) as [H|H].
    - left. apply Zdigits2_unique; simpl (105 - 1); lia.
    - right. apply Zdigits2_unique; simpl (106 - 1); lia. }
  destruct (binary_round_aux_close (xorb false false) mx (e1 + e2) loc_Exact)
    as (m & e & Hres & Hdm & Hshift & Hclose & _); [lia | lia | lia |].
  exists m, e. split; [exact Hres|]. split; [exact Hdm|]. split; [lia|].
  assert (Hulp : 2 ^ (Zdigits2 mx - 53) <= 2 ^ 53).
  { apply Z.pow_le_mono_r; lia. }
  lia.
Qed.

Lemma tenth_arith (T P n Xs X1 mT M W C : Z) :
  0 < T -> 0 <= P <= T -> 0 < mT -> 0 < W -> 0 < C ->
  T * M = P * mT * W ->
  Z.abs (X1 * mT - M) <= 3 * mT ->
  Z.abs (Xs - X1 * (100 * C)) <= 512 * C ->
  (2 * n - 1) * (C * W) <= 20 * Xs < (2 * n + 1) * (C * W) ->
  16240 * T < W ->
  2 * Z.abs (n * T - 1000 * P) <= T /\ Xs <= 100 * C * W + 812 * C /\ 0 <= n.
Proof.
  intros HT HP HmT HW HC Hid Ha Hb Hc Hbig.
  assert (Hd : Z.abs (Xs * mT - 100 * C * M) <= 812 * C * mT).
  { assert (H1 : Z.abs (X1 * (100 * C) * mT - 100 * C * M) <= 300 * C * mT).
    { replace (X1 * (100 * C) * mT - 100 * C * M) with ((100 * C) * (X1 * mT - M)) by ring.
      rewrite Z.abs_mul, (Z.abs_eq (100 * C)) by lia. nia. }
    assert (H2 : Z.abs (Xs * mT - X1 * (100 * C) * mT) <= 512 * C * mT).
    { replace (Xs * mT - X1 * (100 * C) * mT) with ((Xs - X1 * (100 * C)) * mT) by ring.
      rewrite Z.abs_mul, (Z.abs_eq mT) by lia. nia. }
    lia. }
  assert (He : Z.abs (20 * Xs * T - 2000 * C * P * W) <= 16240 * C * T).
  { assert (H1 : Z.abs ((20 * Xs * T - 2000 * C * P * W) * mT) <= 16240 * C * T * mT).
    { replace ((20 * Xs * T - 2000 * C * P * W) * mT)
        with (20 * T * (Xs * mT - 100 * C * M) + 2000 * C * (T * M - P * mT * W)) by ring.
      rewrite Hid, Z.sub_diag, Z.mul_0_r, Z.add_0_r.
      rewrite Z.abs_mul, (Z.abs_eq (20 * T)) by lia. nia. }
    rewrite Z.abs_mul, (Z.abs_eq mT) in H1 by lia. nia. }
  assert (Hf : Z.abs (2 * n * T - 2000 * P) * (C * W) <= (C * W) * T + 16240 * C * T).
  { replace (Z.abs (2 * n * T - 2000 * P) * (C * W))
      with (Z.abs ((2 * n * T - 2000 * P) * (C * W)))
      by (rewrite Z.abs_mul, (Z.abs_eq (C * W)) by nia; reflexivity).
    replace ((2 * n * T - 2000 * P) * (C * W))
      with ((2 * n * (C * W) - 20 * Xs) * T + (20 * Xs * T - 2000 * C * P * W)) by ring.
    assert (H1 : Z.abs ((2 * n * (C * W) - 20 * Xs) * T) <= C * W * T).
    { rewrite Z.abs_mul, (Z.abs_eq T) by lia. nia. }
    lia. }
  assert (Hg : Z.abs (2 * n * T - 2000 * P) <= T).
  { destruct (Z.le_gt_cases (Z.abs (2 * n * T - 2000 * P)) T) as [H|H]; [exact H|].
    exfalso. clear - Hf H HT HW HC Hbig.
    assert (H1 : (T + 1) * (C * W) <= (C * W) * T + 16240 * C * T).
    { apply Z.le_trans with (Z.abs (2 * n * T - 2000 * P) * (C * W)); [|exact Hf].
      apply Z.mul_le_mono_nonneg_r; nia. }
    assert (H2 : C * W <= C * (16240 * T)) by lia.
    assert (H3 : C * (16240 * T) < C * W) by (apply Z.mul_lt_mono_pos_l; lia).
    lia. }
  split; [lia|]. split.
  - assert (HmTW : 0 < mT * W) by (apply Z.mul_pos_pos; assumption).
    assert (HM : M <= mT * W).
    { apply (Z.mul_le_mono_pos_l _ _ T HT). rewrite Hid, <- Z.mul_assoc.
      apply Z.mul_le_mono_nonneg_r; lia. }
    apply (Z.mul_le_mono_pos_r _ _ mT HmT).
    assert (H1 : 100 * C * M <= 100 * C * (mT * W))
      by (apply Z.mul_le_mono_nonneg_l; lia).
    clear - Hd H1. lia.
  - clear - Hg HT HP. nia.
Qed.

End NumberFacts.

(** ** The percentage, against the exact quotient *)

Section PercentFacts.

Local Open Scope Z_scope.

Lemma ratio_spec (m : positive) (e E : Z) :
  0 <= E -> 0 <= e + E ->
  0 < snd (Number.ratio m e)
  /\ fst (Number.ratio m e) * 2 ^ E = Zpos m * 2 ^ (e + E) * snd (Number.ratio m e).
Proof.
  intros HE HeE. destruct e as [|p|p]; cbn [Number.ratio fst snd].
  - rewrite Z.add_0_l. split; lia.
  - split; [lia|]. rewrite Z.pow_add_r by lia. lia.
  - assert (Hp : 0 < 2 ^ Zpos p) by (apply Z.pow_pos_nonneg; lia).
    split; [exact Hp|].
    replace E with ((Zneg p + E) + Zpos p) at 1 by lia. rewrite Z.pow_add_r by lia. lia.
Qed.

Lemma ofZ_hundred : Number.ofZ 100 = S754_finite false 7036874417766400 (-46).
Proof. reflexivity. Qed.

Lemma Zdigits2_mono (a b : Z) : 0 < a <= b -> Zdigits2 a <= Zdigits2 b.
Proof.
  intros [Ha Hab].
  destruct (Zdigits2_bounds a Ha) as [Hlo _].
  destruct (Zdigits2_bounds b ltac:(lia)) as [_ Hhi].
  destruct (Z.le_gt_cases (Zdigits2 a) (Zdigits2 b)) as [H|H]; [exact H|].
  assert (2 ^ Zdigits2 b <= 2 ^ (Zdigits2 a - 1)) by (apply Z.pow_le_mono_r; lia). lia.
Qed.

Lemma Zdigits2_below (a k : Z) : 0 < a < 2 ^ k -> 0 <= k -> 1 <= Zdigits2 a <= k.
Proof.
  intros [Ha Hak] Hk.
  destruct (Zdigits2_bounds a Ha) as [Hlo _].
  split; [destruct a; simpl; lia|].
  destruct (Z.le_gt_cases (Zdigits2 a) k) as [H|H]; [exact H|].
  assert (2 ^ k <= 2 ^ (Zdigits2 a - 1)) by (apply Z.pow_le_mono_r; lia). lia.
Qed.

(** For fewer than [2 ^ 32] entries, the decimal [toFixed(1)] prints for
    [(P / T) * 100] is a tenth nearest to the exact [100 * P / T]. *)
Lemma percent_rounded (P T : nat) :
  (0 < T)%nat -> (P <= T)%nat -> Z.of_nat T < 2 ^ 32 ->
  exists n,
    Number.toFixed1 (percent P T) = Number.Tenths false n
    /\ nearestTenthOfPercentage P T n.
Proof.
  intros HT HPT Hsmall. unfold nearestTenthOfPercentage.
  unfold percent, Number.ofNat, Number.div, Number.mul, Number.prec, Number.emax.
  change (Z.of_nat 100) with 100. rewrite ofZ_hundred.
  set (t := Z.of_nat T) in *. set (p := Z.of_nat P).
  assert (Ht : 0 < t) by lia. assert (Hp : 0 <= p <= t) by lia.
  destruct (ofZ_normal t) as (mT & eT & -> & HdT & HeT & HmT); [lia|].
  destruct (Z.eq_dec p 0) as [Hp0|Hp0].
  - rewrite Hp0. exists 0. split; [reflexivity | lia].
  - destruct (ofZ_normal p) as (mP & eP & -> & HdP & HeP & HmP); [lia|].
    destruct (Zdigits2_below t 32 ltac:(lia) ltac:(lia)) as [HdT1 HdT32].
    destruct (Zdigits2_below p 32 ltac:(lia) ltac:(lia)) as [HdP1 HdP32].
    pose proof (Zdigits2_mono p t ltac:(lia)) as Hmono.
    set (dT := Zdigits2 t) in *. set (dP := Zdigits2 p) in *.
    destruct (div_normal mP mT eP eT HdP HdT ltac:(lia))
      as (m1 & e1 & -> & Hd1 & Hs1 & Hclose1).
    destruct (mul_normal m1 7036874417766400 e1 (-46) Hd1 eq_refl ltac:(lia))
      as (m & e & -> & Hdm & Hs2 & Hclose2).
    set (s1 := e1 - (eP - eT - 53)) in *. set (s2 := e - (e1 + -46)) in *.
    set (W := 2 ^ (53 + dT - dP)). set (C := 2 ^ 46).
    assert (HW : 2 ^ 53 <= W) by (apply Z.pow_le_mono_r; lia).
    assert (HC : 0 < C) by (apply Z.pow_pos_nonneg; lia).
    change (2 ^ 53) with 9007199254740992 in HW.
    change (2 ^ 32) with 4294967296 in Hsmall.
    destruct (ratio_spec m e (46 + (53 + dT - dP)) ltac:(lia) ltac:(lia)) as [Hden Hnum].
    replace (e + (46 + (53 + dT - dP))) with (s1 + s2) in Hnum by lia.
    rewrite (Z.pow_add_r 2 46) in Hnum by lia. fold C W in Hnum.
    set (X1 := Zpos m1 * 2 ^ s1) in *.
    set (Xs := Zpos m * 2 ^ (s1 + s2)) in *.
    assert (Hid : t * (Zpos mP * 2 ^ 53) = p * Zpos mT * W).
    { rewrite HmP, HmT, HeP, HeT. fold dP dT. unfold W.
      replace (- (dP - 53)) with (53 - dP) by lia. replace (- (dT - 53)) with (53 - dT) by lia.
      assert (Hpow : 2 ^ (53 - dT) * 2 ^ (53 + dT - dP) = 2 ^ (53 - dP) * 2 ^ 53).
      { rewrite <- !Z.pow_add_r by lia. f_equal. lia. }
      transitivity (t * p * (2 ^ (53 - dP) * 2 ^ 53)); [ring|]. rewrite <- Hpow. ring. }
    assert (Hb : Z.abs (Xs - X1 * (100 * C)) <= 512 * C).
    { unfold Xs, X1. rewrite (Z.add_comm s1 s2), Z.pow_add_r by lia.
      replace (Zpos m * (2 ^ s2 * 2 ^ s1) - Zpos m1 * 2 ^ s1 * (100 * C))
        with ((Zpos m * 2 ^ s2 - Zpos m1 * 7036874417766400) * 2 ^ s1)
        by (unfold C; change (2 ^ 46) with 70368744177664; ring).
      assert (Hs : 0 < 2 ^ s1 <= 4).
      { split; [apply Z.pow_pos_nonneg; lia|].
        change 4 with (2 ^ 2). apply Z.pow_le_mono_r; lia. }
      rewrite Z.abs_mul, (Z.abs_eq (2 ^ s1)) by lia.
      change (2 ^ 53) with 9007199254740992 in Hclose2.
      unfold C. change (2 ^ 46) with 70368744177664.
      apply Z.le_trans with (9007199254740992 * 4); [|lia].
      apply Z.mul_le_mono_nonneg; lia. }
    destruct (Number.ratio m e) as [num den] eqn:Hratio. cbn [fst snd] in Hden, Hnum.
    pose proof (nearestTenths_nearest num den Hden) as Hnear. unfold nearestTenth in Hnear.
    set (n := Number.nearestTenths num den) in *.
    assert (HCW : 0 < C * W) by (apply Z.mul_pos_pos; lia).
    assert (Hc : (2 * n - 1) * (C * W) <= 20 * Xs < (2 * n + 1) * (C * W)).
    { assert (H1 : (2 * n - 1) * (C * W) * den <= 20 * Xs * den).
      { replace (20 * Xs * den) with (20 * num * (C * W)) by (rewrite <- Z.mul_assoc, Hnum; ring).
        replace ((2 * n - 1) * (C * W) * den) with ((2 * n - 1) * den * (C * W)) by ring.
        apply Z.mul_le_mono_nonneg_r; lia. }
      assert (H2 : 20 * Xs * den < (2 * n + 1) * (C * W) * den).
      { replace (20 * Xs * den) with (20 * num * (C * W)) by (rewrite <- Z.mul_assoc, Hnum; ring).
        replace ((2 * n + 1) * (C * W) * den) with ((2 * n + 1) * den * (C * W)) by ring.
        apply Z.mul_lt_mono_pos_r; lia. }
      split.
      - apply (Z.mul_le_mono_pos_r _ _ den Hden). exact H1.
      - apply (Z.mul_lt_mono_pos_r den _ _ Hden). exact H2. }
    destruct (tenth_arith t p n Xs X1 (Zpos mT) (Zpos mP * 2 ^ 53) W C)
      as (Hgoal & Hbound & Hn); try assumption; try lia.
    exists n. split; [|exact Hgoal].
    assert (Hlt : num < 10 ^ 21 * den).
    { assert (H1 : num * (C * W) < 10 ^ 21 * den * (C * W)).
      { rewrite Hnum.
        assert (H2 : Xs < 10 ^ 21 * (C * W)).
        { change (10 ^ 21) with 1000000000000000000000.
          assert (H3 : C * 812 < C * W) by (apply Z.mul_lt_mono_pos_l; lia).
          clear - Hbound H3 HCW. lia. }
        replace (10 ^ 21 * den * (C * W)) with (10 ^ 21 * (C * W) * den) by ring.
        apply Z.mul_lt_mono_pos_r; lia. }
      apply (Z.mul_lt_mono_pos_r (C * W) _ _ HCW). exact H1. }
    cbv beta iota delta [Number.toFixed1]. rewrite Hratio.
    destruct (Z.leb_spec (10 ^ 21 * den) num) as [Hbig|_]; [lia | reflexivity].
Qed.

End PercentFacts.

(** ** The report: days and students *)

Lemma found_dates_NoDup (db : Db) (c from to : string) :
  uniqueIndex (attendance db) -> NoDup (map Attendance.date (found db c from to)).
Proof.
  unfold uniqueIndex, found.
  induction (attendance db) as [|a l IH]; simpl; intros Hnd; [constructor|].
  inversion Hnd as [|? ? Hnotin Hnd']; subst.
  destruct (inRange c from to a) eqn:Ha; simpl; [|now apply IH].
  constructor; [|now apply IH].
  intros Hin. apply in_map_iff in Hin. destruct Hin as (r & Hdate & Hr).
  apply filter_In in Hr. destruct Hr as [Hr Hsel].
  apply inRange_selects in Ha. apply inRange_selects in Hsel.
  destruct Ha as [Hca _]. destruct Hsel as [Hcr _].
  apply Hnotin. apply in_map_iff. exists r. split; [|exact Hr].
  unfold Attendance.key. congruence.
Qed.

Lemma selectedEntries_length (db : Db) (c from to : string) :
  length (selectedEntries db c from to) =
  list_sum (map (fun rec => length (Attendance.entries rec)) (found db c from to)).
Proof.
  unfold selectedEntries, findRecords. fold (found db c from to).
  rewrite length_concat, map_map. f_equal.
  apply map_ext. intros rec. apply length_map.
Qed.

(** C8. The [days] of a report over class [c] and range [[from, to]] is the
    number of attendance records with that class whose date lies in the
    range under inclusive character-by-character comparison. Days without a
    record are not there to be counted: under the unique index the records
    found have pairwise distinct dates, so [days] is the number of days that
    have a record, and the entries tallied are those of the records found
    and no others. *)
Theorem days_counts_records (db : Db) (c from to : string) (r : Report) :
  report db (query c from to) = Ok r ->
  days r = length (found db c from to)
  /\ (forall rec, In rec (found db c from to) <->
                  In rec (attendance db) /\ selects c from to rec)
  /\ (uniqueIndex (attendance db) -> NoDup (map Attendance.date (found db c from to)))
  /\ exists studentStats,
       forEachEntry (selectedEntries db c from to) [] = Some studentStats
       /\ sumTotal studentStats =
          list_sum (map (fun rec => length (Attendance.entries rec)) (found db c from to)).
Proof.
  intros H. apply report_Ok in H. destruct H as (stats & Hrun & ->).
  split; [reflexivity|]. split; [|split].
  - intros rec. unfold found. now rewrite filter_In, inRange_selects.
  - apply found_dates_NoDup.
  - exists stats. split; [exact Hrun|].
    destruct (stats_facts _ _ Hrun) as (_ & _ & _ & _ & Hsum & _).
    now rewrite Hsum, selectedEntries_length.
Qed.

Lemma keys_nodup_ids (entries : list Populated.t) (stats : StudentStats) :
  forEachEntry entries [] = Some stats ->
  length (keys stats) = length (nodup string_dec (idsOf entries)).
Proof.
  intros H. destruct (stats_facts _ _ H) as (Hnd & _ & Hin & _).
  apply Permutation_length, NoDup_Permutation; [exact Hnd | apply NoDup_nodup |].
  intros k. now rewrite Hin, nodup_In.
Qed.

(** C9. [totalStudentsTracked] is the number of distinct students with a
    positive total in the range: the keys of [studentStats] are pairwise
    distinct, a student is a key exactly when some entry of the records
    found refers to them, and every object stored has [total > 0]. *)
Theorem tracked_students_are_distinct (db : Db) (c from to : string) (r : Report) :
  report db (query c from to) = Ok r ->
  exists studentStats,
    forEachEntry (selectedEntries db c from to) [] = Some studentStats
    /\ totalStudentsTracked r = length (keys studentStats)
    /\ NoDup (keys studentStats)
    /\ (forall k s, In (k, s) studentStats -> 0 < Stat.total s)
    /\ (forall k, In k (keys studentStats) <-> 0 < entriesOf k (selectedEntries db c from to))
    /\ totalStudentsTracked r =
       length (nodup string_dec (idsOf (selectedEntries db c from to))).
Proof.
  intros H. apply report_Ok in H. destruct H as (stats & Hrun & ->).
  exists stats. destruct (stats_facts _ _ Hrun) as (Hnd & _ & Hin & Hpos & _).
  split; [exact Hrun|]. split; [reflexivity|]. split; [exact Hnd|].
  split; [intros k s Hks; now apply (Hpos k s)|]. split.
  - intros k. now rewrite Hin, entriesOf_idsOf.
  - cbn [summarise totalStudentsTracked]. now apply keys_nodup_ids.
Qed.

(** ** The report: the three counts *)

Lemma summarise_counts (d : nat) (stats : StudentStats) :
  NoDup (keys stats) ->
  perfectCount (summarise d stats) = length (filter (keeps isPerfect stats) (keys stats))
  /\ below75Count (summarise d stats) = length (filter (keeps isBelow75 stats) (keys stats))
  /\ chronicAbsenceCount (summarise d stats)
     = length (filter (keeps isChronic stats) (keys stats)).
Proof.
  intros Hnd. unfold summarise. cbn [perfectCount below75Count chronicAbsenceCount].
  rewrite !filter_values_keys by exact Hnd. now unfold keeps.
Qed.

(** C7. A student is counted in [perfectCount] exactly when their present
    count equals their total count and the total is positive; each of the
    three counts is the number of students its filter keeps, every student
    once; and a student with no entry in the range has no object in
    [studentStats], so none of [perfectCount], [below75Count] and
    [chronicAbsenceCount] counts them. *)
Theorem perfect_attendance_boundary (db : Db) (c from to : string) (r : Report) :
  report db (query c from to) = Ok r ->
  exists studentStats,
    forEachEntry (selectedEntries db c from to) [] = Some studentStats
    /\ NoDup (keys studentStats)
    /\ perfectCount r = length (filter (keeps isPerfect studentStats) (keys studentStats))
    /\ below75Count r = length (filter (keeps isBelow75 studentStats) (keys studentStats))
    /\ chronicAbsenceCount r
       = length (filter (keeps isChronic studentStats) (keys studentStats))
    /\ (forall k, keeps isPerfect studentStats k = true <->
                  presentAt k studentStats = totalAt k studentStats
                  /\ 0 < totalAt k studentStats)
    /\ (forall k, totalAt k studentStats = entriesOf k (selectedEntries db c from to)
                  /\ presentAt k studentStats = presencesOf k (selectedEntries db c from to))
    /\ (forall k, entriesOf k (selectedEntries db c from to) = 0 ->
                  ~ In k (keys studentStats)
                  /\ keeps isPerfect studentStats k = false
                  /\ keeps isBelow75 studentStats k = false
                  /\ keeps isChronic studentStats k = false).
Proof.
  intros H. apply report_Ok in H. destruct H as (stats & Hrun & ->).
  exists stats. destruct (stats_facts _ _ Hrun) as (Hnd & Htally & Hin & _).
  destruct (summarise_counts (length (found db c from to)) stats Hnd) as (Hp & Hb & Hc).
  split; [exact Hrun|]. split; [exact Hnd|].
  split; [exact Hp|]. split; [exact Hb|]. split; [exact Hc|].
  split; [|split; [exact Htally|]].
  - intros k. unfold keeps, isPerfect, totalAt, presentAt.
    destruct (lookup k stats) as [s|].
    + rewrite andb_true_iff, Nat.eqb_eq, Nat.ltb_lt. tauto.
    + split; [discriminate | lia].
  - intros k Hzero.
    assert (Hout : ~ In k (keys stats)).
    { rewrite Hin, <- entriesOf_idsOf. lia. }
    split; [exact Hout|].
    apply lookup_None in Hout. unfold keeps. rewrite Hout. repeat split.
Qed.

Lemma listedTwice_runs :
  report listedTwice january
  = Ok (summarise 1 [(Student._id aarav, Stat.make "Aarav Kumar" 1 2)])
  /\ forEachRecord (findRecords listedTwice "Class 5-A" "2024-01-01" "2024-01-31") []
     = Some [(Student._id aarav, Stat.make "Aarav Kumar" 1 2)].
Proof. split; vm_compute; reflexivity. Qed.

(** C10. Entries are never merged per day: a student's total is the sum,
    over the records found, of the number of entries of each record that
    refer to them, and their present count is the same sum over the entries
    marked present. Hence a student listed twice on one day has a total
    above [days]. *)
Theorem duplicate_entries_count_separately :
  (forall (db : Db) (c from to : string) (studentStats : StudentStats),
      forEachRecord (findRecords db c from to) [] = Some studentStats ->
      forall k,
        totalAt k studentStats = list_sum (map (entriesOf k) (findRecords db c from to))
        /\ presentAt k studentStats
           = list_sum (map (presencesOf k) (findRecords db c from to)))
  /\ (exists (r : Report) (studentStats : StudentStats),
         report listedTwice january = Ok r
         /\ forEachRecord (findRecords listedTwice "Class 5-A" "2024-01-01" "2024-01-31") []
            = Some studentStats
         /\ days r = 1
         /\ totalAt (Student._id aarav) studentStats = 2).
Proof.
  split.
  - intros db c from to stats H k. rewrite forEachRecord_concat in H.
    destruct (stats_facts _ _ H) as (_ & Htally & _).
    destruct (Htally k) as [Ht Hp]. destruct (entriesOf_concat k (findRecords db c from to)).
    split; congruence.
  - destruct listedTwice_runs as [Hr Hs].
    eexists. eexists. split; [exact Hr|]. split; [exact Hs|].
    split; reflexivity.
Qed.

(** ** The report: the average *)

(** C6. With [P] the sum of the per-student present counts and [T] the sum
    of the per-student totals (the numbers of present entries and of all
    entries of the records found), [average] is [0] when [T = 0]. When
    [T > 0] it is the number read back from [(P / T) * 100] printed with one
    decimal, the quotient and the product being those of JavaScript numbers,
    and the decimal printed is the tenth nearest to that number. For fewer
    than [2 ^ 32] entries that decimal is also a tenth nearest to the exact
    [100 * P / T]. *)
Theorem average_is_rounded_percentage (db : Db) (c from to : string) (r : Report) :
  report db (query c from to) = Ok r ->
  exists studentStats,
    forEachEntry (selectedEntries db c from to) [] = Some studentStats
    /\ sumPresent studentStats
       = length (filter Populated.present (selectedEntries db c from to))
    /\ sumTotal studentStats = length (selectedEntries db c from to)
    /\ (sumTotal studentStats = 0 -> average r = S754_zero false)
    /\ (0 < sumTotal studentStats ->
        average r
        = Number.parseNumeral
            (Number.toFixed1 (percent (sumPresent studentStats) (sumTotal studentStats)))
        /\ printsRounded
             (percent (sumPresent studentStats) (sumTotal studentStats))
             (Number.toFixed1 (percent (sumPresent studentStats) (sumTotal studentStats))))
    /\ (0 < sumTotal studentStats ->
        (Z.of_nat (sumTotal studentStats) < 2 ^ 32)%Z ->
        exists n,
          Number.toFixed1 (percent (sumPresent studentStats) (sumTotal studentStats))
          = Number.Tenths false n
          /\ average r = Number.parseNumeral (Number.Tenths false n)
          /\ nearestTenthOfPercentage (sumPresent studentStats) (sumTotal studentStats) n).
Proof.
  intros H. apply report_Ok in H. destruct H as (stats & Hrun & ->).
  exists stats. destruct (stats_facts _ _ Hrun) as (_ & _ & _ & _ & Ht & Hp).
  split; [exact Hrun|]. split; [exact Hp|]. split; [exact Ht|].
  unfold summarise. cbn [average]. rewrite totalPresentOf_sum, totalOf_sum.
  unfold averageOf. split; [|split].
  - intros ->. reflexivity.
  - intros Hpos. apply Nat.ltb_lt in Hpos. rewrite Hpos. cbn [parseFloat].
    split; [reflexivity | apply toFixed1_rounded].
  - intros Hpos Hsmall.
    assert (Hle : sumPresent stats <= sumTotal stats).
    { rewrite Hp, Ht. apply filter_length_le. }
    destruct (percent_rounded _ _ Hpos Hle Hsmall) as (n & Hn & Hnear).
    exists n. split; [exact Hn|]. split; [|exact Hnear].
    apply Nat.ltb_lt in Hpos. rewrite Hpos. cbn [parseFloat]. now rewrite Hn.
Qed.

(** ** The report: references that do not resolve *)

Lemma findById_None (id : ObjectId) (roster : list Student.t) :
  findById id roster = None <-> forall s, In s roster -> Student._id s <> id.
Proof.
  unfold findById. split.
  - intros H s Hs Heq. apply (find_none _ _ H) in Hs.
    rewrite Heq, String.eqb_refl in Hs. discriminate.
  - intros H. induction roster as [|s rest IH]; simpl; [reflexivity|].
    destruct (String.eqb_spec (Student._id s) id) as [Heq|_].
    + exfalso. apply (H s); [now left | exact Heq].
    + apply IH. intros s' Hs'. apply H. now right.
Qed.

Lemma selectedEntries_In (db : Db) (c from to : string) (p : Populated.t) :
  In p (selectedEntries db c from to) <->
  exists rec e, In rec (found db c from to) /\ In e (Attendance.entries rec)
                /\ p = populate (students db) e.
Proof.
  unfold selectedEntries, findRecords. fold (found db c from to).
  rewrite in_concat. split.
  - intros (l & Hl & Hp). apply in_map_iff in Hl. destruct Hl as (rec & <- & Hrec).
    apply in_map_iff in Hp. destruct Hp as (e & <- & He). now exists rec, e.
  - intros (rec & e & Hrec & He & ->).
    exists (map (populate (students db)) (Attendance.entries rec)).
    split; apply in_map_iff; [now exists rec | now exists e].
Qed.

Lemma strayEntry_fails : report strayEntry january = Fail 500 reportFailed.
Proof. vm_compute. reflexivity. Qed.

(** C5, as the code has it. A report goes through when every entry of the
    records found refers to a student of the roster. An entry whose student
    is not there is neither skipped nor flagged: the handler's [catch] turns
    the failed read of [e.studentId._id] into the reply 500. *)
Theorem report_needs_every_student (db : Db) (c from to : string) :
  c <> "" -> from <> "" -> to <> "" ->
  ((forall rec e, In rec (found db c from to) -> In e (Attendance.entries rec) ->
                  exists s, In s (students db) /\ Student._id s = Entry.studentId e) ->
   exists studentStats,
     forEachEntry (selectedEntries db c from to) [] = Some studentStats
     /\ report db (query c from to)
        = Ok (summarise (length (found db c from to)) studentStats))
  /\ ((exists rec e, In rec (found db c from to) /\ In e (Attendance.entries rec)
                     /\ dangling db e) ->
      report db (query c from to) = Fail 500 reportFailed).
Proof.
  intros Hc Hf Ht. rewrite (report_run db c from to Hc Hf Ht), forEachRecord_concat.
  fold (selectedEntries db c from to). split.
  - intros Hall.
    destruct (forEachEntry_resolved (selectedEntries db c from to) []) as [stats Hrun].
    { apply Forall_forall. intros p Hp.
      apply selectedEntries_In in Hp. destruct Hp as (rec & e & Hrec & He & ->).
      destruct (Hall rec e Hrec He) as (s & Hs & Hid).
      unfold resolved, populate. cbn [Populated.studentId].
      intros Hnone. apply (proj1 (findById_None _ _) Hnone s Hs Hid). }
    exists stats. rewrite Hrun. split; [reflexivity|].
    unfold findRecords, found. now rewrite length_map.
  - intros (rec & e & Hrec & He & Hdangling).
    rewrite forEachEntry_unresolved; [reflexivity|].
    apply Exists_exists. exists (populate (students db) e). split.
    + apply selectedEntries_In. now exists rec, e.
    + unfold populate. cbn [Populated.studentId]. now apply findById_None.
Qed.

(** C5, as stated, fails on a day whose second entry names a student the
    roster does not have: no report is produced. *)
Lemma stray_entry_is_fatal :
  (exists rec e, In rec (attendance strayEntry) /\ In e (Attendance.entries rec)
                 /\ dangling strayEntry e)
  /\ report strayEntry january = Fail 500 reportFailed
  /\ ~ (exists r, report strayEntry january = Ok r).
Proof.
  split; [|split].
  - exists (Attendance.make "2024-01-01" "Class 5-A" [entryFor aarav true; entryFor diya true]).
    exists (entryFor diya true).
    split; [now left|]. split; [right; now left|].
    intros s [<-|[]]. vm_compute. discriminate.
  - exact strayEntry_fails.
  - intros [r Hr]. rewrite strayEntry_fails in Hr. discriminate.
Qed.

Lemma report_needs_every_student_witness :
  (exists studentStats,
      forEachEntry (selectedEntries threeDays "Class 5-A" "2024-01-01" "2024-01-31") []
      = Some studentStats
      /\ report threeDays january
         = Ok (summarise (length (found threeDays "Class 5-A" "2024-01-01" "2024-01-31"))
                         studentStats))
  /\ report strayEntry january = Fail 500 reportFailed.
Proof.
  split.
  - apply (report_needs_every_student threeDays "Class 5-A" "2024-01-01" "2024-01-31");
      [discriminate | discriminate | discriminate |].
    intros rec e Hrec He.
    vm_compute in Hrec.
    destruct Hrec as [<-|[<-|[<-|[]]]]; vm_compute in He;
      repeat (destruct He as [<-|He];
              [first [exists aarav; split; [now left|reflexivity]
                     | exists diya; split; [right; now left|reflexivity]]|]);
      destruct He.
  - apply (report_needs_every_student strayEntry "Class 5-A" "2024-01-01" "2024-01-31");
      [discriminate | discriminate | discriminate |].
    exists (Attendance.make "2024-01-01" "Class 5-A" [entryFor aarav true; entryFor diya true]).
    exists (entryFor diya true).
    split; [now left|]. split; [right; now left|].
    intros s [<-|[]]. vm_compute. discriminate.
Defined.

(** ** The worked example *)

(** C1, as the code has it. For day 1 {S1 present, S2 absent}, day 2 {S1
    present, S2 present}, day 3 {S1 absent} and a range that covers the three
    days, the tallies are S1 present 2 of 3 and S2 present 1 of 2, and the
    report says average 60.0, perfectCount 0, below75Count 2 and
    chronicAbsenceCount 0: S2 stands at exactly 50 percent, which is not
    below 50. *)
Theorem three_days_report :
  forEachRecord (findRecords threeDays "Class 5-A" "2024-01-01" "2024-01-31") []
  = Some [ (Student._id aarav, Stat.make "Aarav Kumar" 2 3);
           (Student._id diya, Stat.make "Diya Patel" 1 2) ]
  /\ averageOf 3 5 = inl (Number.Tenths false 600)
  /\ report threeDays january
     = Ok {| average := Number.ofNat 60;
             perfectCount := 0;
             below75Count := 2;
             chronicAbsenceCount := 0;
             days := 3;
             totalStudentsTracked := 2 |}.
Proof. repeat split; vm_compute; reflexivity. Qed.

(** C1, as stated, fails in its last figure: the report of the example has
    no chronic absentee. *)
Lemma three_days_chronic_count_is_not_one :
  exists r, report threeDays january = Ok r /\ chronicAbsenceCount r <> 1.
Proof.
  exists (mkReport (Number.ofNat 60) 0 2 0 3 2).
  split; [vm_compute; reflexivity | discriminate].
Qed.

(** ** The ledger *)

Section Ledger.

Context {mongoose : Mongoose}.

Implicit Types (d c : string) (es : list Entry.t) (ledger : list Attendance.t).

Lemma hasKey_key d c (r : Attendance.t) :
  Attendance.hasKey d c r = true <-> Attendance.key r = (d, c).
Proof.
  unfold Attendance.hasKey, Attendance.key.
  rewrite andb_true_iff, !String.eqb_eq. split; [intros [-> ->]; reflexivity|].
  intros [= -> ->]. now split.
Qed.

Lemma hasKey_absent d c ledger :
  ~ In (d, c) (map Attendance.key ledger) -> filter (Attendance.hasKey d c) ledger = [].
Proof.
  induction ledger as [|r rest IH]; simpl; intros Hnotin; [reflexivity|].
  destruct (Attendance.hasKey d c r) eqn:Hk.
  - apply hasKey_key in Hk. exfalso. apply Hnotin. now left.
  - apply IH. intros Hin. apply Hnotin. now right.
Qed.

(** After the upsert the key has one record, and it holds the new entries. *)
Lemma findOneAndUpdate_one d c es ledger :
  uniqueIndex ledger ->
  filter (Attendance.hasKey d c) (findOneAndUpdate d c es ledger)
  = [Attendance.make d c es].
Proof.
  unfold uniqueIndex.
  assert (Hself : Attendance.hasKey d c (Attendance.make d c es) = true)
    by (apply hasKey_key; reflexivity).
  induction ledger as [|r rest IH]; simpl; intros Hnd.
  - now rewrite Hself.
  - inversion Hnd as [|? ? Hnotin Hnd']; subst.
    destruct (Attendance.hasKey d c r) eqn:Hk; simpl.
    + rewrite Hself. f_equal. apply hasKey_absent.
      apply hasKey_key in Hk. now rewrite <- Hk.
    + rewrite Hk. now apply IH.
Qed.

(** Records under other keys stay as they are. *)
Lemma findOneAndUpdate_others d c es ledger :
  filter (fun r => negb (Attendance.hasKey d c r)) (findOneAndUpdate d c es ledger)
  = filter (fun r => negb (Attendance.hasKey d c r)) ledger.
Proof.
  assert (Hself : Attendance.hasKey d c (Attendance.make d c es) = true)
    by (apply hasKey_key; reflexivity).
  induction ledger as [|r rest IH]; simpl.
  - now rewrite Hself.
  - destruct (Attendance.hasKey d c r) eqn:Hk; simpl.
    + now rewrite Hself.
    + rewrite Hk. simpl. now rewrite IH.
Qed.

Lemma findOneAndUpdate_keys d c es ledger :
  map Attendance.key (findOneAndUpdate d c es ledger)
  = if existsb (Attendance.hasKey d c) ledger
    then map Attendance.key ledger
    else map Attendance.key ledger ++ [(d, c)].
Proof.
  induction ledger as [|r rest IH]; simpl; [reflexivity|].
  destruct (Attendance.hasKey d c r) eqn:Hk; simpl.
  - apply hasKey_key in Hk. now rewrite Hk.
  - rewrite IH. now destruct (existsb (Attendance.hasKey d c) rest).
Qed.

(** The upsert keeps the unique index. *)
Lemma findOneAndUpdate_unique d c es ledger :
  uniqueIndex ledger -> uniqueIndex (findOneAndUpdate d c es ledger).
Proof.
  unfold uniqueIndex. intros Hnd. rewrite findOneAndUpdate_keys.
  destruct (existsb (Attendance.hasKey d c) ledger) eqn:Hex; [exact Hnd|].
  apply NoDup_app; [exact Hnd | repeat constructor; simpl; tauto |].
  intros x Hx [<-|[]].
  apply in_map_iff in Hx. destruct Hx as (r & Hr & Hin).
  apply hasKey_key in Hr.
  assert (Htrue : existsb (Attendance.hasKey d c) ledger = true)
    by (apply existsb_exists; now exists r).
  congruence.
Qed.

(** Whatever the reply, the handler keeps the unique index. *)
Lemma mark_keeps_index (db : Db) (body : MarkBody) :
  uniqueIndex (attendance db) -> uniqueIndex (attendance (snd (mark db body))).
Proof.
  intros Hidx. unfold mark.
  destruct (negb (Js.truthy (body_date body)) || negb (Js.truthy (body_className body))
            || negb (Js.truthy (body_entries body))); [exact Hidx|].
  destruct (body_date body) as [date|], (body_className body) as [className|],
    (body_entries body) as [entries|]; try exact Hidx.
  destruct (Js.iterate entries) as [items|]; [|exact Hidx].
  destruct (validateEntries items); try exact Hidx.
  destruct (castString date), (castString className), (castEntries items); try exact Hidx.
  now apply findOneAndUpdate_unique.
Qed.

(** Every way through the handler that does not reply 200 leaves the
    database alone. *)
Lemma mark_failure_writes_nothing (db : Db) (body : MarkBody) :
  status (fst (mark db body)) <> 200 -> snd (mark db body) = db.
Proof.
  unfold mark.
  destruct (negb (Js.truthy (body_date body)) || negb (Js.truthy (body_className body))
            || negb (Js.truthy (body_entries body))); [reflexivity|].
  destruct (body_date body) as [date|], (body_className body) as [className|],
    (body_entries body) as [entries|]; try reflexivity.
  destruct (Js.iterate entries) as [items|]; [|reflexivity].
  destruct (validateEntries items); try reflexivity.
  destruct (castString date), (castString className), (castEntries items); try reflexivity.
  simpl. intros H. now elim H.
Qed.

(** What a reply 200 tells. *)
Lemma mark_Ok (db db' : Db) (date className entries : Js.value) :
  mark db (markBody date className entries) = (Ok tt, db') ->
  exists items d c es,
    Js.iterate entries = Some items
    /\ validateEntries items = Passed
    /\ castString date = Some d /\ castString className = Some c
    /\ castEntries items = Some es
    /\ db' = mkDb (students db) (findOneAndUpdate d c es (attendance db)).
Proof.
  unfold mark, markBody. cbn [body_date body_className body_entries].
  destruct (negb (Js.truthy (Some date)) || negb (Js.truthy (Some className))
            || negb (Js.truthy (Some entries))); [discriminate|].
  destruct (Js.iterate entries) as [items|]; [|discriminate].
  destruct (validateEntries items) eqn:Hv; try discriminate.
  destruct (castString date) as [d|] eqn:Hd; [|discriminate].
  destruct (castString className) as [c|] eqn:Hc; [|discriminate].
  destruct (castEntries items) as [es|] eqn:Hes; [|discriminate].
  intros [= <-]. exists items, d, c, es. repeat split; try reflexivity; assumption.
Qed.

(** A request with a date, a class and well-formed entries that cast is
    served. *)
Lemma mark_accepts (db : Db) (date className : Js.value) (items : list Js.value) d c es :
  Js.truthy (Some date) = true -> Js.truthy (Some className) = true ->
  validateEntries items = Passed ->
  castString date = Some d -> castString className = Some c ->
  castEntries items = Some es ->
  mark db (markBody date className (Js.Arr items))
  = (Ok tt, mkDb (students db) (findOneAndUpdate d c es (attendance db))).
Proof.
  intros Hd Hc Hv Hcd Hcc Hes. unfold mark, markBody.
  cbn [body_date body_className body_entries Js.iterate].
  rewrite Hd, Hc, Hv, Hcd, Hcc, Hes. reflexivity.
Qed.

Lemma castEntry_stores (submitted : Js.value) (e : Entry.t) :
  castEntry submitted = Some e -> stores submitted e.
Proof.
  unfold castEntry, stores.
  destruct (Js.get submitted "studentId") as [[sid|]|]; try discriminate.
  destruct (Js.get submitted "present") as [[[ |p| | | | ]|]|]; try discriminate.
  destruct (Js.get submitted "remarks") as [r|]; try discriminate.
  destruct (castObjectId sid) as [id|] eqn:Hid; try discriminate.
  destruct (match r with Some v => castString v | None => Some "" end); try discriminate.
  intros [= <-]. now exists sid.
Qed.

Lemma castEntries_stores (items : list Js.value) es :
  castEntries items = Some es -> Forall2 stores items es.
Proof.
  revert es. induction items as [|item rest IH]; intros es; simpl.
  - intros [= <-]. constructor.
  - destruct (castEntry item) as [e|] eqn:He; [|discriminate].
    destruct (castEntries rest) as [es'|]; [|discriminate].
    intros [= <-]. constructor; [now apply castEntry_stores | now apply IH].
Qed.


(** One malformed entry, with no [null] before it, ends the validation loop
    with the reply 400. *)
Lemma malformed_bad (entry : Js.value) :
  entry <> Js.Null -> malformed entry -> badEntry entry = Some true.
Proof.
  unfold malformed, badEntry. intros Hnn.
  assert (Hget : forall k, exists v, Js.get entry k = Some v).
  { intros k. destruct entry; simpl; try (eexists; reflexivity). now elim Hnn. }
  destruct (Hget "studentId") as [sid ->]. destruct (Hget "present") as [p ->].
  intros [[= ->]|Hp]; [reflexivity|].
  destruct (Js.truthy sid); [|reflexivity]. simpl.
  destruct p as [[ |b| | | | ]|]; try reflexivity.
  now elim (Hp b).
Qed.

Lemma validateEntries_malformed (items : list Js.value) :
  Forall (fun entry => entry <> Js.Null) items ->
  Exists malformed items ->
  validateEntries items = Invalid.
Proof.
  induction items as [|entry rest IH]; intros Hnn Hex; [inversion Hex|].
  inversion Hnn as [|? ? Hentry Hrest]; subst. simpl.
  inversion Hex as [? ? Hbad|? ? Hlater]; subst.
  - now rewrite (malformed_bad entry Hentry Hbad).
  - destruct (badEntry entry) as [[|]|] eqn:Hb; [reflexivity | now apply IH |].
    unfold badEntry in Hb. destruct entry; simpl in Hb; try discriminate.
    + now elim Hentry.
    + destruct (Js.truthy (Js.assoc "studentId" fields)); discriminate.
Qed.

(** A [mark] call one of whose entries lacks its [studentId] or has a
    [present] that is not a boolean is answered with 400 and writes nothing,
    whatever the other entries of the batch are, as long as no entry is
    [null]. *)
Lemma malformed_entry_rejects_call (db : Db) (body : MarkBody) (items : list Js.value) :
  body_entries body = Some (Js.Arr items) ->
  Forall (fun entry => entry <> Js.Null) items ->
  Exists malformed items ->
  status (fst (mark db body)) = 400 /\ snd (mark db body) = db.
Proof.
  intros Hentries Hnn Hbad.
  assert (Hstatus : status (fst (mark db body)) = 400).
  { unfold mark. rewrite Hentries.
    destruct (negb (Js.truthy (body_date body)) || negb (Js.truthy (body_className body))
              || negb (Js.truthy (Some (Js.Arr items)))); [reflexivity|].
    destruct (body_date body) as [date|], (body_className body) as [className|];
      try reflexivity.
    cbn [Js.iterate]. now rewrite (validateEntries_malformed items Hnn Hbad). }
  split; [exact Hstatus|].
  apply mark_failure_writes_nothing. rewrite Hstatus. discriminate.
Qed.

Lemma null_or_not (v : Js.value) : v = Js.Null \/ v <> Js.Null.
Proof. destruct v; [now left | right; discriminate ..]. Qed.

(** With a [null] among the entries the reply may be 500 instead, and still
    nothing is written. *)
Lemma bad_batch_writes_nothing (db : Db) (body : MarkBody) (items : list Js.value) :
  body_entries body = Some (Js.Arr items) ->
  Exists (fun entry => entry = Js.Null \/ malformed entry) items ->
  snd (mark db body) = db
  /\ (status (fst (mark db body)) = 400 \/ status (fst (mark db body)) = 500).
Proof.
  intros Hentries Hbad.
  assert (Hv : validateEntries items <> Passed).
  { clear Hentries. induction Hbad as [entry rest Hentry|entry rest _ IH]; simpl.
    - destruct Hentry as [->|Hm]; [discriminate|].
      destruct (null_or_not entry) as [->|Hnn]; [discriminate|].
      now rewrite (malformed_bad entry Hnn Hm).
    - destruct (badEntry entry) as [[|]|]; [discriminate | exact IH | discriminate]. }
  assert (Hs : status (fst (mark db body)) = 400 \/ status (fst (mark db body)) = 500).
  { unfold mark. rewrite Hentries.
    destruct (negb (Js.truthy (body_date body)) || negb (Js.truthy (body_className body))
              || negb (Js.truthy (Some (Js.Arr items)))); [now left|].
    destruct (body_date body) as [date|], (body_className body) as [className|];
      try now left.
    cbn [Js.iterate]. destruct (validateEntries items); [now elim Hv | now left | now right]. }
  split; [|exact Hs].
  apply mark_failure_writes_nothing. destruct Hs as [-> | ->]; discriminate.
Qed.

(** C4, as the code has it. An empty array is not a missing [entries]: with
    a date and a class the call is served, and the record of the key is
    created, or replaced, with no entries. What the first check turns away,
    with 400 and no write, is an [entries] that is absent or falsy ([null],
    [false], [0], the empty string); an array never is. *)
Theorem empty_entries_are_written (db : Db) (date className : Js.value) d c :
  Js.truthy (Some date) = true -> Js.truthy (Some className) = true ->
  castString date = Some d -> castString className = Some c ->
  mark db (markBody date className (Js.Arr []))
  = (Ok tt, mkDb (students db) (findOneAndUpdate d c [] (attendance db)))
  /\ (uniqueIndex (attendance db) ->
      filter (Attendance.hasKey d c) (findOneAndUpdate d c [] (attendance db))
      = [Attendance.make d c []])
  /\ (forall entries,
         Js.truthy entries = false ->
         mark db (mkMarkBody (Some date) (Some className) entries)
         = (Fail 400 required, db))
  /\ (forall items, Js.truthy (Some (Js.Arr items)) = true).
Proof.
  intros Hd Hc Hcd Hcc. split; [|split; [|split]].
  - now apply mark_accepts.
  - apply findOneAndUpdate_one.
  - intros entries Hentries. unfold mark. cbn [body_date body_className body_entries].
    rewrite Hd, Hc, Hentries. reflexivity.
  - reflexivity.
Qed.

End Ledger.

(** ** The properties at work on the sample data *)

(** The three sample days are what three [mark] calls leave in a ledger
    that starts empty. *)
Lemma threeDays_marked :
  let day date entries := markBody (Js.Str date) (Js.Str "Class 5-A") (Js.Arr entries) in
  let db0 := mkDb [aarav; diya] [] in
  let db1 := snd (mark (mongoose := plainCasts) db0
                    (day "2024-01-01" [submitted aarav true; submitted diya false])) in
  let db2 := snd (mark (mongoose := plainCasts) db1
                    (day "2024-01-02" [submitted aarav true; submitted diya true])) in
  let db3 := snd (mark (mongoose := plainCasts) db2
                    (day "2024-01-03" [submitted aarav false])) in
  db3 = threeDays.
Proof. vm_compute. reflexivity. Qed.


Lemma malformed_batch_is_rejected :
  let body := markBody (Js.Str "2024-01-04") (Js.Str "Class 5-A")
                (Js.Arr [submitted aarav true;
                         Js.Obj [("studentId", Js.Str (Student._id diya));
                                 ("present", Js.Str "yes")]]) in
  mark (mongoose := plainCasts) threeDays body = (Fail 400 invalidEntry, threeDays).
Proof. vm_compute. reflexivity. Qed.

(** C3. The validation loop reads [entry.studentId] before it looks at
    anything else, and that read throws when the entry is [null]. A batch
    that holds a [null] and, after it, an entry without [studentId] is
    therefore answered with 500 by the handler's [catch], not with 400;
    nothing is written. *)
Theorem null_entry_replies_500 :
  let batch := [Js.Null; Js.Obj [("present", Js.Bool true)]] in
  let body := markBody (Js.Str "2024-01-04") (Js.Str "Class 5-A") (Js.Arr batch) in
  Exists malformed batch
  /\ validateEntries batch = Threw
  /\ mark (mongoose := plainCasts) threeDays body = (Fail 500 markFailed, threeDays)
  /\ status (fst (mark (mongoose := plainCasts) threeDays body)) <> 400.
Proof.
  cbv zeta. split; [|split; [|split]].
  - right. left. left. reflexivity.
  - reflexivity.
  - vm_compute. reflexivity.
  - vm_compute. discriminate.
Qed.

(** C4, as stated, fails on an empty array sent to an empty ledger: the
    reply is 200 and a record is created. *)
Lemma empty_entries_create_a_record :
  let out := mark (mongoose := plainCasts) emptyDb
               (markBody (Js.Str "2024-01-01") (Js.Str "Class 5-A") (Js.Arr [])) in
  status (fst out) = 200
  /\ attendance (snd out) = [Attendance.make "2024-01-01" "Class 5-A" []]
  /\ attendance (snd out) <> attendance emptyDb.
Proof.
  vm_compute. repeat split; discriminate.
Qed.

Lemma empty_entries_are_written_witness :
  mark (mongoose := plainCasts) threeDays
       (markBody (Js.Str "2024-01-03") (Js.Str "Class 5-A") (Js.Arr []))
  = (Ok tt, mkDb (students threeDays)
                 (findOneAndUpdate "2024-01-03" "Class 5-A" [] (attendance threeDays)))
  /\ mark (mongoose := plainCasts) threeDays
          (mkMarkBody (Some (Js.Str "2024-01-03")) (Some (Js.Str "Class 5-A"))
                      (Some Js.Null))
     = (Fail 400 required, threeDays).
Proof.
  destruct (empty_entries_are_written (mongoose := plainCasts) threeDays
              (Js.Str "2024-01-03") (Js.Str "Class 5-A") "2024-01-03" "Class 5-A")
    as (Hserved & _ & Hfalsy & _); try reflexivity.
  split; [exact Hserved|]. apply Hfalsy. reflexivity.
Defined.

Lemma average_is_rounded_percentage_witness :
  exists studentStats,
    forEachEntry (selectedEntries threeDays "Class 5-A" "2024-01-01" "2024-01-31") []
    = Some studentStats
    /\ sumPresent studentStats = 3 /\ sumTotal studentStats = 5
    /\ average threeDaysReport = Number.parseNumeral (Number.toFixed1 (percent 3 5))
    /\ exists n,
         Number.toFixed1 (percent 3 5) = Number.Tenths false n
         /\ nearestTenthOfPercentage 3 5 n.
Proof.
  assert (Hrun0 : report threeDays (query "Class 5-A" "2024-01-01" "2024-01-31")
                 = Ok threeDaysReport) by (vm_compute; reflexivity).
  destruct (average_is_rounded_percentage threeDays "Class 5-A" "2024-01-01" "2024-01-31"
              threeDaysReport Hrun0)
    as (stats & Hrun & Hp & Ht & _ & Havg & Hexact).
  exists stats. split; [exact Hrun|].
  change (length (filter Populated.present
                         (selectedEntries threeDays "Class 5-A" "2024-01-01" "2024-01-31")))
    with 3 in Hp.
  change (length (selectedEntries threeDays "Class 5-A" "2024-01-01" "2024-01-31"))
    with 5 in Ht.
  split; [exact Hp|]. split; [exact Ht|].
  rewrite Hp, Ht in Havg, Hexact.
  split; [exact (proj1 (Havg (Nat.lt_0_succ 4)))|].
  destruct (Hexact (Nat.lt_0_succ 4) eq_refl) as (n & Hn & _ & Hnear).
  exists n. split; [exact Hn | exact Hnear].
Defined.

Lemma perfect_attendance_boundary_witness :
  exists studentStats,
    forEachEntry (selectedEntries threeDays "Class 5-A" "2024-01-01" "2024-01-31") []
    = Some studentStats
    /\ perfectCount threeDaysReport
       = length (filter (keeps isPerfect studentStats) (keys studentStats))
    /\ keeps isBelow75 studentStats "64f1a0000000000000000009" = false.
Proof.
  assert (Hrun0 : report threeDays (query "Class 5-A" "2024-01-01" "2024-01-31")
                 = Ok threeDaysReport) by (vm_compute; reflexivity).
  destruct (perfect_attendance_boundary threeDays "Class 5-A" "2024-01-01" "2024-01-31"
              threeDaysReport Hrun0)
    as (stats & Hrun & _ & Hp & _ & _ & _ & _ & Hnone).
  exists stats. split; [exact Hrun|]. split; [exact Hp|].
  apply (Hnone "64f1a0000000000000000009"). reflexivity.
Defined.

Lemma days_counts_records_witness : days threeDaysReport = 3.
Proof.
  assert (Hrun0 : report threeDays (query "Class 5-A" "2024-01-01" "2024-01-31")
                 = Ok threeDaysReport) by (vm_compute; reflexivity).
  exact (proj1 (days_counts_records threeDays "Class 5-A" "2024-01-01" "2024-01-31"
                  threeDaysReport Hrun0)).
Defined.

Lemma tracked_students_are_distinct_witness : totalStudentsTracked threeDaysReport = 2.
Proof.
  assert (Hrun0 : report threeDays (query "Class 5-A" "2024-01-01" "2024-01-31")
                 = Ok threeDaysReport) by (vm_compute; reflexivity).
  destruct (tracked_students_are_distinct threeDays "Class 5-A" "2024-01-01" "2024-01-31"
              threeDaysReport Hrun0)
    as (stats & _ & _ & _ & _ & _ & Hcount).
  exact Hcount.
Defined.

Lemma duplicate_entries_count_separately_witness :
  totalAt (Student._id aarav) [(Student._id aarav, Stat.make "Aarav Kumar" 1 2)]
  = list_sum (map (entriesOf (Student._id aarav))
                  (findRecords listedTwice "Class 5-A" "2024-01-01" "2024-01-31")).
Proof.
  apply (proj1 duplicate_entries_count_separately
           listedTwice "Class 5-A" "2024-01-01" "2024-01-31").
  vm_compute. reflexivity.
Defined.

(** * Further properties *)

(** ** The ledger under any traffic *)

Section LedgerTraffic.

Context {mongoose : Mongoose}.

(** X1. A [mark] request changes the database only when it is answered with
    200: every other reply (400 for a missing field or a malformed entry,
    500 for a value that is not iterable, a [null] entry or a failed cast)
    leaves it as it was. The roster is never touched, whatever the reply. *)
Theorem mark_writes_only_on_200 (db : Db) (body : MarkBody) :
  (status (fst (mark db body)) <> 200 -> snd (mark db body) = db)
  /\ students (snd (mark db body)) = students db.
Proof.
  split; [apply mark_failure_writes_nothing|].
  unfold mark.
  destruct (negb (Js.truthy (body_date body)) || negb (Js.truthy (body_className body))
            || negb (Js.truthy (body_entries body))); [reflexivity|].
  destruct (body_date body) as [date|], (body_className body) as [className|],
    (body_entries body) as [entries|]; try reflexivity.
  destruct (Js.iterate entries) as [items|]; [|reflexivity].
  destruct (validateEntries items); try reflexivity.
  destruct (castString date), (castString className), (castEntries items); reflexivity.
Qed.

(** X2. Whatever [mark] requests arrive and however they are answered, a
    ledger that starts without duplicates never holds two records for one
    (date, className): the handler upholds the unique index all by itself. *)
Theorem ledger_never_duplicates (bodies : list MarkBody) (db : Db) :
  uniqueIndex (attendance db) -> uniqueIndex (attendance (markAll bodies db)).
Proof.
  unfold markAll. revert db.
  induction bodies as [|body rest IH]; intros db Hidx; simpl; [exact Hidx|].
  apply IH. now apply mark_keeps_index.
Qed.

Lemma findOneAndUpdate_length (d c : string) (es : list Entry.t) (ledger : list Attendance.t) :
  length (findOneAndUpdate d c es ledger)
  = length ledger + (if recorded d c ledger then 0 else 1).
Proof.
  unfold recorded. induction ledger as [|r rest IH]; simpl; [reflexivity|].
  destruct (Attendance.hasKey d c r); simpl; [lia|]. rewrite IH. lia.
Qed.

(** X3. A served [mark] touches the record of its own key and nothing else:
    the records of every other key are the same as before, in the same order,
    and the ledger grows by one record exactly when the key had none. *)
Theorem mark_touches_one_key (db db' : Db) (date className entries : Js.value) :
  mark db (markBody date className entries) = (Ok tt, db') ->
  exists d c,
    castString date = Some d /\ castString className = Some c
    /\ filter (fun r => negb (Attendance.hasKey d c r)) (attendance db')
       = filter (fun r => negb (Attendance.hasKey d c r)) (attendance db)
    /\ length (attendance db')
       = length (attendance db) + (if recorded d c (attendance db) then 0 else 1).
Proof.
  intros H. apply mark_Ok in H.
  destruct H as (items & d & c & es & _ & _ & Hd & Hc & _ & ->).
  exists d, c. cbn [attendance]. repeat split; try assumption.
  - apply findOneAndUpdate_others.
  - apply findOneAndUpdate_length.
Qed.

(** X4. Validation is all or nothing. A batch that holds a [null] or an
    entry without [studentId] or with a [present] that is not a boolean is
    never written, not even its well-formed entries; the reply is 400 or
    500, and it is 400 whenever no entry of the batch is [null]. *)
Theorem rejected_batch_is_atomic (db : Db) (body : MarkBody) (items : list Js.value) :
  body_entries body = Some (Js.Arr items) ->
  Exists (fun entry => entry = Js.Null \/ malformed entry) items ->
  snd (mark db body) = db
  /\ (status (fst (mark db body)) = 400 \/ status (fst (mark db body)) = 500)
  /\ (Forall (fun entry => entry <> Js.Null) items -> status (fst (mark db body)) = 400).
Proof.
  intros Hentries Hbad.
  destruct (bad_batch_writes_nothing db body items Hentries Hbad) as [Hsame Hstatus].
  split; [exact Hsame|]. split; [exact Hstatus|].
  intros Hnn.
  assert (Hm : Exists malformed items).
  { apply Exists_exists in Hbad. destruct Hbad as (entry & Hin & [Hnull|Hm]).
    - rewrite Forall_forall in Hnn. now elim (Hnn entry Hin).
    - apply Exists_exists. now exists entry. }
  unfold mark. rewrite Hentries.
  destruct (negb (Js.truthy (body_date body)) || negb (Js.truthy (body_className body))
            || negb (Js.truthy (Some (Js.Arr items)))); [reflexivity|].
  destruct (body_date body) as [date|], (body_className body) as [className|];
    try reflexivity.
  cbn [Js.iterate]. now rewrite (validateEntries_malformed items Hnn Hm).
Qed.

End LedgerTraffic.

(** ** The report at its edges *)

Lemma lexLe_trans (a b c : string) : lexLe a b -> lexLe b c -> lexLe a c.
Proof.
  intros Hab. revert c. induction Hab as [s|x y s t Hlt|x s t Hst IH]; intros c Hbc.
  - constructor.
  - inversion Hbc as [|? z ? u Hlt'|? ? u Hsu]; subst.
    + constructor 2. lia.
    + now constructor 2.
  - inversion Hbc as [|? z ? u Hlt'|? ? u Hsu]; subst.
    + now constructor 2.
    + constructor 3. now apply IH.
Qed.

(** X5. A class and a range that match no record give the report of
    nothing: average 0, all counts 0, days 0, nobody tracked. This is what a
    range whose [from] sorts after its [to] gets, whatever the ledger
    holds. *)
Theorem empty_range_report (db : Db) (c from to : string) :
  c <> "" -> from <> "" -> to <> "" ->
  (found db c from to = [] -> report db (query c from to) = Ok zeroReport)
  /\ (~ lexLe from to -> report db (query c from to) = Ok zeroReport).
Proof.
  intros Hc Hf Ht.
  assert (Hzero : found db c from to = [] -> report db (query c from to) = Ok zeroReport).
  { intros Hnone. rewrite (report_run db c from to Hc Hf Ht).
    unfold findRecords. fold (found db c from to). rewrite Hnone. reflexivity. }
  split; [exact Hzero|].
  intros Hinverted. apply Hzero.
  destruct (found db c from to) as [|rec rest] eqn:Hfound; [reflexivity|].
  exfalso. apply Hinverted.
  assert (Hin : In rec (found db c from to)) by (rewrite Hfound; now left).
  unfold found in Hin. apply filter_In in Hin. destruct Hin as [_ Hsel].
  apply inRange_selects in Hsel. destruct Hsel as (_ & Hlo & Hhi).
  exact (lexLe_trans _ _ _ Hlo Hhi).
Qed.

Lemma ltb_50_75 (x : Number.t) :
  Number.ltb x (Number.ofNat 50) = true -> Number.ltb x (Number.ofNat 75) = true.
Proof.
  change (Number.ofNat 50) with (S754_finite false 7036874417766400 (-47)).
  change (Number.ofNat 75) with (S754_finite false 5277655813324800 (-46)).
  unfold Number.ltb, SFltb, SFcompare.
  destruct x as [s|s| |s m e].
  - destruct s; intros H; (discriminate H || reflexivity).
  - destruct s; intros H; (discriminate H || reflexivity).
  - discriminate.
  - destruct s; [reflexivity|].
    destruct (Z.compare_spec e (-47)) as [->|Hlt|Hgt].
    + intros _. reflexivity.
    + intros _. destruct (Z.compare_spec e (-46)) as [H|H|H]; first [lia | reflexivity].
    + discriminate.
Qed.

Lemma chronic_below75 (s : Stat.t) : isChronic s = true -> isBelow75 s = true.
Proof.
  unfold isChronic, isBelow75. rewrite !andb_true_iff. intros [Hpos Hlt].
  split; [exact Hpos | now apply ltb_50_75].
Qed.

Lemma filter_length_mono {A : Type} (p q : A -> bool) (l : list A) :
  (forall x, In x l -> p x = true -> q x = true) ->
  length (filter p l) <= length (filter q l).
Proof.
  induction l as [|x l IH]; intros H; simpl; [lia|].
  assert (IH' : length (filter p l) <= length (filter q l))
    by (apply IH; intros y Hy; apply H; now right).
  destruct (p x) eqn:Hp.
  - rewrite (H x (or_introl eq_refl) Hp). simpl. lia.
  - destruct (q x); simpl; lia.
Qed.

Lemma filter_length_disjoint {A : Type} (p q : A -> bool) (l : list A) :
  (forall x, In x l -> p x = true -> q x = false) ->
  length (filter p l) + length (filter q l) <= length l.
Proof.
  induction l as [|x l IH]; intros H; simpl; [lia|].
  assert (IH' : length (filter p l) + length (filter q l) <= length l)
    by (apply IH; intros y Hy; apply H; now right).
  destruct (p x) eqn:Hp.
  - rewrite (H x (or_introl eq_refl) Hp). simpl. lia.
  - destruct (q x); simpl; lia.
Qed.

Section WholePercentages.

Local Open Scope Z_scope.

Lemma div_eucl_exact (m : positive) :
  Z.div_eucl (Zpos m * 2 ^ 53) (Zpos m) = (2 ^ 53, 0).
Proof.
  pose proof (Z.div_mul (2 ^ 53) (Zpos m) ltac:(lia)) as Hq.
  pose proof (Z.mod_mul (2 ^ 53) (Zpos m) ltac:(lia)) as Hr.
  rewrite (Z.mul_comm (2 ^ 53)) in Hq, Hr.
  unfold Z.div in Hq. unfold Z.modulo in Hr.
  destruct (Z.div_eucl (Zpos m * 2 ^ 53) (Zpos m)) as [q r]. now subst.
Qed.

(** A count divided by itself is one, and one hundred percent is exact. *)
Lemma percent_whole (t : nat) :
  (0 < t)%nat -> Z.of_nat t < 2 ^ 53 -> percent t t = Number.ofNat 100.
Proof.
  intros Hpos Hsmall.
  unfold percent, Number.ofNat, Number.div, Number.mul, Number.prec, Number.emax.
  destruct (ofZ_normal (Z.of_nat t)) as (m & e & -> & Hd & _ & _); [lia|].
  assert (Hone : SFdiv 53 1024 (S754_finite false m e) (S754_finite false m e)
                 = S754_finite false 4503599627370496 (-52)).
  { unfold SFdiv, SFdiv_core_binary. rewrite Hd.
    rewrite (fexp_normal (53 + e - (53 + e))) by lia.
    replace (53 + e - (53 + e) - 53) with (-53) by lia.
    replace (e - e) with 0 by lia.
    change (Z.min (-53) 0) with (-53). change (0 - -53) with 53.
    rewrite Z.shiftl_mul_pow2 by lia. rewrite div_eucl_exact.
    assert (Hloc : new_location (Zpos m) 0 = loc_Exact).
    { unfold new_location. destruct (Z.even (Zpos m)); reflexivity. }
    rewrite Hloc. vm_compute. reflexivity. }
  rewrite Hone. vm_compute. reflexivity.
Qed.

(** Nothing out of a positive count is zero percent. *)
Lemma percent_none (t : nat) :
  (0 < t)%nat -> Z.of_nat t < 2 ^ 53 -> percent 0 t = S754_zero false.
Proof.
  intros Hpos Hsmall.
  unfold percent, Number.ofNat, Number.div, Number.mul, Number.prec, Number.emax.
  destruct (ofZ_normal (Z.of_nat t)) as (m & e & -> & _); [lia|].
  reflexivity.
Qed.

End WholePercentages.

Lemma perfect_not_below75 (s : Stat.t) :
  (Z.of_nat (Stat.total s) < 2 ^ 53)%Z ->
  isPerfect s = true -> isBelow75 s = false /\ isChronic s = false.
Proof.
  unfold isPerfect, isBelow75, isChronic. intros Hsmall.
  rewrite andb_true_iff, Nat.eqb_eq, Nat.ltb_lt. intros [-> Hpos].
  rewrite (percent_whole _ Hpos Hsmall).
  split; apply andb_false_intro2; vm_compute; reflexivity.
Qed.

Lemma total_le_sum (stats : StudentStats) (k : ObjectId) (s : Stat.t) :
  In (k, s) stats -> Stat.total s <= sumTotal stats.
Proof.
  unfold sumTotal, values.
  induction stats as [|[k0 s0] rest IH]; simpl; [tauto|].
  intros [[= -> ->]|Hin]; [lia|]. specialize (IH Hin). lia.
Qed.

Lemma values_length (stats : StudentStats) : length (values stats) = length (keys stats).
Proof. unfold values, keys. now rewrite !length_map. Qed.

(** X6. The three counts of a report are nested the way their thresholds
    are: chronic absentees are among those below 75, and every count is at
    most [totalStudentsTracked]. With fewer than [2 ^ 53] entries a student
    with perfect attendance is never below 75, so the perfect and the
    below-75 students together are at most those tracked. *)
Theorem counts_are_nested (db : Db) (c from to : string) (r : Report) :
  report db (query c from to) = Ok r ->
  chronicAbsenceCount r <= below75Count r
  /\ below75Count r <= totalStudentsTracked r
  /\ perfectCount r <= totalStudentsTracked r
  /\ ((Z.of_nat (length (selectedEntries db c from to)) < 2 ^ 53)%Z ->
      perfectCount r + below75Count r <= totalStudentsTracked r).
Proof.
  intros H. apply report_Ok in H. destruct H as (stats & Hrun & ->).
  destruct (stats_facts _ _ Hrun) as (_ & _ & _ & _ & Ht & _).
  unfold summarise.
  cbn [chronicAbsenceCount below75Count perfectCount totalStudentsTracked].
  rewrite <- values_length. repeat split.
  - apply filter_length_mono. intros s _. apply chronic_below75.
  - apply filter_length_le.
  - apply filter_length_le.
  - intros Hsmall. apply filter_length_disjoint. intros s Hin Hperfect.
    apply perfect_not_below75; [|exact Hperfect].
    unfold values in Hin. apply in_map_iff in Hin. destruct Hin as ([k s'] & <- & Hks).
    pose proof (total_le_sum stats k s' Hks) as Hle. cbn [snd]. lia.
Qed.

(** X7. With fewer than [2 ^ 32] entries in range the average is one of the
    1001 values 0.0, 0.1, ..., 100.0 read back as a number: a report never
    shows a negative average or one above 100. *)
Theorem average_is_a_percentage (db : Db) (c from to : string) (r : Report) :
  report db (query c from to) = Ok r ->
  (Z.of_nat (length (selectedEntries db c from to)) < 2 ^ 32)%Z ->
  exists n, (0 <= n <= 1000)%Z /\ average r = Number.parseNumeral (Number.Tenths false n).
Proof.
  intros H Hsmall. apply report_Ok in H. destruct H as (stats & Hrun & ->).
  destruct (stats_facts _ _ Hrun) as (_ & _ & _ & _ & Ht & Hp).
  unfold summarise. cbn [average]. rewrite totalPresentOf_sum, totalOf_sum.
  unfold averageOf. destruct (sumTotal stats) as [|t] eqn:HT.
  - exists 0%Z. split; [lia | reflexivity].
  - assert (Hle : sumPresent stats <= S t).
    { rewrite Hp, Ht. apply filter_length_le. }
    destruct (percent_rounded (sumPresent stats) (S t)) as (n & Hn & Hnear);
      [lia | exact Hle | lia |].
    exists n. split.
    + unfold nearestTenthOfPercentage in Hnear. nia.
    + cbn [Nat.ltb Nat.leb parseFloat]. now rewrite Hn.
Qed.

Lemma filter_length_all {A : Type} (p : A -> bool) (l : list A) :
  (forall x, In x l -> p x = true) -> length (filter p l) = length l.
Proof.
  induction l as [|x l IH]; intros H; simpl; [reflexivity|].
  rewrite (H x (or_introl eq_refl)). simpl. f_equal. apply IH. intros y Hy. apply H. now right.
Qed.

Lemma filter_length_none {A : Type} (p : A -> bool) (l : list A) :
  (forall x, In x l -> p x = false) -> length (filter p l) = 0.
Proof.
  induction l as [|x l IH]; intros H; simpl; [reflexivity|].
  rewrite (H x (or_introl eq_refl)). apply IH. intros y Hy. apply H. now right.
Qed.

(** The counters of an object of [studentStats], read off the entries. *)
Lemma stat_counts (entries : list Populated.t) (stats : StudentStats) (s : Stat.t) :
  forEachEntry entries [] = Some stats ->
  In s (values stats) ->
  exists k, Stat.total s = entriesOf k entries
            /\ Stat.present s = presencesOf k entries
            /\ 0 < Stat.total s <= length entries.
Proof.
  intros Hrun Hin. destruct (stats_facts _ _ Hrun) as (_ & Htally & _ & Hpos & Ht & _).
  unfold values in Hin. apply in_map_iff in Hin. destruct Hin as ([k s'] & <- & Hks).
  destruct (Hpos k s' Hks) as [Hl Hp]. destruct (Htally k) as [Htot Hpres].
  unfold totalAt in Htot. unfold presentAt in Hpres. rewrite Hl in Htot, Hpres.
  exists k. cbn [snd]. repeat split; try assumption.
  rewrite <- Ht. exact (total_le_sum stats k s' Hks).
Qed.

(** X8. The two uniform classes. When every entry in range is marked
    present the report says average 100, everybody tracked is perfect, and
    nobody is below 75 or chronically absent. When every entry is marked
    absent it says average 0, nobody is perfect, and everybody tracked is
    both below 75 and chronically absent. (Fewer than [2 ^ 53] entries, at
    least one.) *)
Theorem uniform_attendance (db : Db) (c from to : string) (r : Report) :
  report db (query c from to) = Ok r ->
  selectedEntries db c from to <> [] ->
  (Z.of_nat (length (selectedEntries db c from to)) < 2 ^ 53)%Z ->
  (Forall (fun e => Populated.present e = true) (selectedEntries db c from to) ->
   average r = Number.ofNat 100
   /\ perfectCount r = totalStudentsTracked r
   /\ below75Count r = 0 /\ chronicAbsenceCount r = 0)
  /\ (Forall (fun e => Populated.present e = false) (selectedEntries db c from to) ->
      average r = S754_zero false
      /\ perfectCount r = 0
      /\ below75Count r = totalStudentsTracked r
      /\ chronicAbsenceCount r = totalStudentsTracked r).
Proof.
  intros H Hsome Hsmall. apply report_Ok in H. destruct H as (stats & Hrun & ->).
  set (entries := selectedEntries db c from to) in *.
  destruct (stats_facts _ _ Hrun) as (_ & _ & _ & _ & Ht & Hp).
  assert (Hlen : 0 < length entries) by (destruct entries; [now elim Hsome | simpl; lia]).
  unfold summarise.
  cbn [average perfectCount below75Count chronicAbsenceCount totalStudentsTracked].
  rewrite totalPresentOf_sum, totalOf_sum, <- values_length, Ht, Hp.
  unfold averageOf. rewrite (proj2 (Nat.ltb_lt 0 (length entries)) Hlen). cbn [parseFloat].
  split; intros Hall; rewrite Forall_forall in Hall.
  - assert (Hevery : forall k, presencesOf k entries = entriesOf k entries).
    { intros k. unfold presencesOf, entriesOf. f_equal. apply filter_ext_in.
      intros e He. rewrite (Hall e He). apply andb_true_r. }
    assert (Hperfect : forall s, In s (values stats) -> isPerfect s = true).
    { intros s Hs. destruct (stat_counts _ _ _ Hrun Hs) as (k & Htot & Hpres & Hpos & _).
      unfold isPerfect. rewrite Hpres, Htot, Hevery, Nat.eqb_refl, <- Htot.
      now apply Nat.ltb_lt. }
    assert (Hnot : forall s, In s (values stats) -> isBelow75 s = false /\ isChronic s = false).
    { intros s Hs. apply perfect_not_below75; [|now apply Hperfect].
      destruct (stat_counts _ _ _ Hrun Hs) as (k & _ & _ & _ & Hle). lia. }
    rewrite (filter_length_all Populated.present entries Hall).
    rewrite (percent_whole _ Hlen Hsmall).
    split; [vm_compute; reflexivity|].
    split; [now apply filter_length_all|].
    split; apply filter_length_none; intros s Hs; now apply Hnot.
  - assert (Hnever : forall k, presencesOf k entries = 0).
    { intros k. unfold presencesOf. apply filter_length_none.
      intros e He. rewrite (Hall e He). apply andb_false_r. }
    assert (Hstat : forall s, In s (values stats) ->
                    isPerfect s = false /\ isBelow75 s = true /\ isChronic s = true).
    { intros s Hs. destruct (stat_counts _ _ _ Hrun Hs) as (k & _ & Hpres & Hpos & Hle).
      rewrite Hnever in Hpres. unfold isPerfect, isBelow75, isChronic. rewrite Hpres.
      rewrite (percent_none (Stat.total s)) by lia.
      rewrite (proj2 (Nat.ltb_lt 0 (Stat.total s)) Hpos).
      destruct (Stat.total s); [lia|]. repeat split. }
    rewrite (filter_length_none Populated.present entries Hall).
    rewrite (percent_none _ Hlen Hsmall).
    split; [reflexivity|].
    split; [apply filter_length_none; intros s Hs; now apply Hstat|].
    split; apply filter_length_all; intros s Hs; now apply Hstat.
Qed.

(** ** The report and the order of the store *)

Lemma Permutation_filter' {A : Type} (f : A -> bool) (l l' : list A) :
  Permutation l l' -> Permutation (filter f l) (filter f l').
Proof.
  induction 1 as [|x l l' _ IH|x y l|l l' l'' _ IH1 _ IH2]; simpl.
  - constructor.
  - destruct (f x); [now constructor | exact IH].
  - destruct (f x), (f y); try reflexivity. apply perm_swap.
  - now transitivity (filter f l').
Qed.

Lemma Permutation_concat' {A : Type} (l l' : list (list A)) :
  Permutation l l' -> Permutation (concat l) (concat l').
Proof.
  induction 1 as [|x l l' _ IH|x y l|l l' l'' _ IH1 _ IH2]; simpl.
  - constructor.
  - now apply Permutation_app_head.
  - rewrite !app_assoc. apply Permutation_app_tail, Permutation_app_comm.
  - now transitivity (concat l').
Qed.

Lemma selectedEntries_perm (db db' : Db) (c from to : string) :
  students db' = students db ->
  Permutation (attendance db) (attendance db') ->
  Permutation (found db c from to) (found db' c from to)
  /\ Permutation (selectedEntries db c from to) (selectedEntries db' c from to).
Proof.
  intros Hroster Hperm.
  assert (Hfound : Permutation (found db c from to) (found db' c from to))
    by (unfold found; now apply Permutation_filter').
  split; [exact Hfound|].
  unfold selectedEntries, findRecords. fold (found db c from to) (found db' c from to).
  rewrite Hroster. now apply Permutation_concat', Permutation_map.
Qed.

Lemma counters_decide (p : Stat.t -> bool) :
  p = isPerfect \/ p = isBelow75 \/ p = isChronic ->
  forall s s', Stat.present s = Stat.present s' -> Stat.total s = Stat.total s' -> p s = p s'.
Proof.
  intros [-> | [-> | ->]] s s' Hp Ht;
    unfold isPerfect, isBelow75, isChronic; now rewrite Hp, Ht.
Qed.

(** Two runs over the same entries in different orders count alike. *)
Lemma summarise_perm (entries entries' : list Populated.t) (stats stats' : StudentStats)
    (d : nat) :
  Permutation entries entries' ->
  forEachEntry entries [] = Some stats ->
  forEachEntry entries' [] = Some stats' ->
  summarise d stats = summarise d stats'.
Proof.
  intros Hperm Hrun Hrun'.
  destruct (stats_facts _ _ Hrun) as (Hnd & Htally & Hin & Hpos & Ht & Hp).
  destruct (stats_facts _ _ Hrun') as (Hnd' & Htally' & Hin' & Hpos' & Ht' & Hp').
  assert (Hcount : forall f : Populated.t -> bool,
             length (filter f entries) = length (filter f entries'))
    by (intros f; now apply Permutation_length, Permutation_filter').
  assert (Hkeys : Permutation (keys stats) (keys stats')).
  { apply NoDup_Permutation; [exact Hnd | exact Hnd' |].
    intros k. rewrite Hin, Hin', <- !entriesOf_idsOf. unfold entriesOf.
    now rewrite Hcount. }
  assert (Hkeeps : forall p, p = isPerfect \/ p = isBelow75 \/ p = isChronic ->
             length (filter p (values stats)) = length (filter p (values stats'))).
  { intros p Hp3. rewrite !filter_values_keys by assumption.
    transitivity (length (filter (fun k => match lookup k stats with
                                           | Some s => p s | None => false end)
                                 (keys stats'))).
    - now apply Permutation_length, Permutation_filter'.
    - f_equal. apply filter_ext_in. intros k Hk.
      assert (Hk0 : In k (keys stats)) by now apply (Permutation_in k (Permutation_sym Hkeys)).
      destruct (Htally k) as [Htot Hpres]. destruct (Htally' k) as [Htot' Hpres'].
      unfold totalAt, presentAt, entriesOf, presencesOf in *.
      destruct (lookup k stats) as [s|] eqn:Hl;
        [|apply lookup_None in Hl; contradiction].
      destruct (lookup k stats') as [s'|] eqn:Hl';
        [|apply lookup_None in Hl'; contradiction].
      apply (counters_decide p Hp3).
      + rewrite Hpres, Hpres'. apply Hcount.
      + rewrite Htot, Htot'. apply Hcount. }
  unfold summarise. rewrite !totalPresentOf_sum, !totalOf_sum.
  rewrite Ht, Ht', Hp, Hp', (Hcount Populated.present), (Permutation_length Hperm).
  rewrite (Hkeeps isPerfect), (Hkeeps isBelow75), (Hkeeps isChronic) by tauto.
  now rewrite (Permutation_length Hkeys).
Qed.

(** X9. A report does not depend on the order in which the store keeps, or
    returns, the attendance records: two ledgers holding the same records in
    different orders get the same reply, be it the report or the 500 of an
    entry whose student is missing. *)
Theorem report_ignores_storage_order (db db' : Db) (q : ReportQuery) :
  students db' = students db ->
  Permutation (attendance db) (attendance db') ->
  report db' q = report db q.
Proof.
  intros Hroster Hperm. unfold report.
  destruct (negb (given (q_className q)) || negb (given (q_from q)) || negb (given (q_to q)));
    [reflexivity|].
  destruct (q_className q) as [c|], (q_from q) as [from|], (q_to q) as [to|];
    try reflexivity.
  destruct (selectedEntries_perm db db' c from to Hroster Hperm) as [Hfound Hentries].
  rewrite !forEachRecord_concat. fold (selectedEntries db c from to).
  fold (selectedEntries db' c from to).
  assert (Hdays : length (findRecords db' c from to) = length (findRecords db c from to)).
  { unfold findRecords. fold (found db c from to) (found db' c from to).
    rewrite !length_map. symmetry. now apply Permutation_length. }
  rewrite Hdays.
  destruct (forEachEntry (selectedEntries db c from to) []) as [stats|] eqn:Hrun.
  - destruct (forEachEntry_resolved (selectedEntries db' c from to) []) as [stats' Hrun'].
    { apply (Permutation_Forall Hentries). apply Forall_forall. intros e He.
      unfold resolved. intros Hnone.
      rewrite (forEachEntry_unresolved (selectedEntries db c from to) []) in Hrun;
        [discriminate|].
      apply Exists_exists. now exists e. }
    rewrite Hrun'. f_equal. symmetry.
    exact (summarise_perm _ _ _ _ _ Hentries Hrun Hrun').
  - destruct (forEachEntry (selectedEntries db' c from to) []) as [stats'|] eqn:Hrun';
      [|reflexivity].
    exfalso.
    destruct (forEachEntry_resolved (selectedEntries db c from to) []) as [stats Hok];
      [|rewrite Hok in Hrun; discriminate].
    apply (Permutation_Forall (Permutation_sym Hentries)). apply Forall_forall. intros e He.
    unfold resolved. intros Hnone.
    rewrite (forEachEntry_unresolved (selectedEntries db' c from to) []) in Hrun';
      [discriminate|].
    apply Exists_exists. now exists e.
Qed.

(** ** A day more *)

Section MarkThenReport.

Context {mongoose : Mongoose}.

Lemma inRange_same_key (c from to d cl : string) (es : list Entry.t) (r : Attendance.t) :
  Attendance.hasKey d cl r = true ->
  inRange c from to (Attendance.make d cl es) = inRange c from to r.
Proof.
  intros Hk. apply hasKey_key in Hk. unfold Attendance.key in Hk.
  injection Hk as Hd Hc. unfold inRange. cbn [Attendance.date Attendance.className].
  now rewrite Hd, Hc.
Qed.

Lemma found_after_upsert (c from to d cl : string) (es : list Entry.t)
    (ledger : list Attendance.t) :
  length (filter (inRange c from to) (findOneAndUpdate d cl es ledger))
  = length (filter (inRange c from to) ledger)
    + (if recorded d cl ledger then 0
       else if inRange c from to (Attendance.make d cl es) then 1 else 0).
Proof.
  unfold recorded. induction ledger as [|r rest IH]; simpl.
  - destruct (inRange c from to (Attendance.make d cl es)); reflexivity.
  - destruct (Attendance.hasKey d cl r) eqn:Hk; simpl.
    + rewrite (inRange_same_key c from to d cl es r Hk).
      destruct (inRange c from to r); simpl; lia.
    + destruct (inRange c from to r); simpl; rewrite IH; lia.
Qed.

(** X10. What a served [mark] does to [days]. Marking a day the class has no
    record for adds one to the [days] of every report whose class and range
    cover it; marking a day again, or a day outside the report's class or
    range, leaves [days] as it was. *)
Theorem mark_adds_a_day (db db' : Db) (date className entries : Js.value)
    (c from to : string) (r r' : Report) :
  mark db (markBody date className entries) = (Ok tt, db') ->
  report db (query c from to) = Ok r ->
  report db' (query c from to) = Ok r' ->
  exists d cl,
    castString date = Some d /\ castString className = Some cl
    /\ days r' = days r
                 + (if recorded d cl (attendance db) then 0
                    else if String.eqb cl c && String.leb from d && String.leb d to
                         then 1 else 0).
Proof.
  intros Hmark Hr Hr'. apply mark_Ok in Hmark.
  destruct Hmark as (items & d & cl & es & _ & _ & Hd & Hc & _ & ->).
  apply report_Ok in Hr. destruct Hr as (stats & _ & ->).
  apply report_Ok in Hr'. destruct Hr' as (stats' & _ & ->).
  exists d, cl. split; [exact Hd|]. split; [exact Hc|].
  cbn [summarise days]. unfold found. cbn [attendance].
  apply found_after_upsert.
Qed.

End MarkThenReport.

(** ** The further properties on the sample data *)

Lemma mark_writes_only_on_200_witness :
  snd (mark (mongoose := plainCasts) threeDays
            (mkMarkBody (Some (Js.Str "2024-01-04")) None (Some (Js.Arr []))))
  = threeDays.
Proof.
  apply (proj1 (mark_writes_only_on_200 (mongoose := plainCasts) threeDays
                  (mkMarkBody (Some (Js.Str "2024-01-04")) None (Some (Js.Arr []))))).
  vm_compute. discriminate.
Defined.

Lemma ledger_never_duplicates_witness :
  uniqueIndex
    (attendance
       (markAll (mongoose := plainCasts)
          [ markBody (Js.Str "2024-01-01") (Js.Str "Class 5-A") (Js.Arr [submitted diya true]);
            markBody (Js.Str "2024-01-04") (Js.Str "Class 5-A") (Js.Arr [Js.Null]);
            markBody (Js.Str "2024-01-04") (Js.Str "Class 5-A") (Js.Arr [submitted aarav true]) ]
          threeDays)).
Proof.
  apply (ledger_never_duplicates (mongoose := plainCasts)).
  unfold uniqueIndex. vm_compute.
  repeat (constructor; [simpl; intuition discriminate|]). constructor.
Defined.

Lemma mark_touches_one_key_witness :
  exists d c,
    castString (Mongoose := plainCasts) (Js.Str "2024-01-04") = Some d
    /\ castString (Mongoose := plainCasts) (Js.Str "Class 5-A") = Some c
    /\ filter (fun r => negb (Attendance.hasKey d c r))
              (attendance threeDays
               ++ [Attendance.make "2024-01-04" "Class 5-A" [entryFor aarav true]])
       = filter (fun r => negb (Attendance.hasKey d c r)) (attendance threeDays)
    /\ length (attendance threeDays
               ++ [Attendance.make "2024-01-04" "Class 5-A" [entryFor aarav true]])
       = length (attendance threeDays)
         + (if recorded d c (attendance threeDays) then 0 else 1).
Proof.
  apply (mark_touches_one_key (mongoose := plainCasts) threeDays
           (mkDb (students threeDays)
                 (attendance threeDays
                  ++ [Attendance.make "2024-01-04" "Class 5-A" [entryFor aarav true]]))
           (Js.Str "2024-01-04") (Js.Str "Class 5-A") (Js.Arr [submitted aarav true])).
  vm_compute. reflexivity.
Defined.

Lemma rejected_batch_is_atomic_witness :
  let body := markBody (Js.Str "2024-01-04") (Js.Str "Class 5-A")
                       (Js.Arr [submitted aarav true; Js.Obj [("present", Js.Bool true)]]) in
  snd (mark (mongoose := plainCasts) threeDays body) = threeDays
  /\ status (fst (mark (mongoose := plainCasts) threeDays body)) = 400.
Proof.
  intros body.
  destruct (rejected_batch_is_atomic (mongoose := plainCasts) threeDays body
              [submitted aarav true; Js.Obj [("present", Js.Bool true)]])
    as (Hsame & _ & H400).
  - reflexivity.
  - apply Exists_cons_tl, Exists_cons_hd. right. left. reflexivity.
  - split; [exact Hsame|]. apply H400.
    repeat (constructor; [discriminate|]). constructor.
Defined.

Lemma empty_range_report_witness :
  report threeDays (query "Class 5-A" "2024-01-31" "2024-01-01") = Ok zeroReport.
Proof.
  apply (proj2 (empty_range_report threeDays "Class 5-A" "2024-01-31" "2024-01-01"
                  ltac:(discriminate) ltac:(discriminate) ltac:(discriminate))).
  intros H. apply leb_lexLe in H. vm_compute in H. discriminate.
Defined.

Lemma counts_are_nested_witness :
  chronicAbsenceCount threeDaysReport <= below75Count threeDaysReport
  /\ below75Count threeDaysReport <= totalStudentsTracked threeDaysReport
  /\ perfectCount threeDaysReport <= totalStudentsTracked threeDaysReport
  /\ perfectCount threeDaysReport + below75Count threeDaysReport
     <= totalStudentsTracked threeDaysReport.
Proof.
  assert (Hrun0 : report threeDays (query "Class 5-A" "2024-01-01" "2024-01-31")
                 = Ok threeDaysReport) by (vm_compute; reflexivity).
  destruct (counts_are_nested threeDays "Class 5-A" "2024-01-01" "2024-01-31"
              threeDaysReport Hrun0)
    as (H1 & H2 & H3 & H4).
  split; [exact H1|]. split; [exact H2|]. split; [exact H3|].
  apply H4. vm_compute. reflexivity.
Defined.

Lemma average_is_a_percentage_witness :
  exists n, (0 <= n <= 1000)%Z
            /\ average threeDaysReport = Number.parseNumeral (Number.Tenths false n).
Proof.
  assert (Hrun0 : report threeDays (query "Class 5-A" "2024-01-01" "2024-01-31")
                 = Ok threeDaysReport) by (vm_compute; reflexivity).
  apply (average_is_a_percentage threeDays "Class 5-A" "2024-01-01" "2024-01-31"
           threeDaysReport Hrun0).
  vm_compute. reflexivity.
Defined.

Lemma uniform_attendance_witness :
  let r := mkReport (Number.ofNat 100) 2 0 0 1 2 in
  average r = Number.ofNat 100
  /\ perfectCount r = totalStudentsTracked r
  /\ below75Count r = 0 /\ chronicAbsenceCount r = 0.
Proof.
  intros r.
  apply (uniform_attendance
           (mkDb [aarav; diya]
                 [Attendance.make "2024-01-01" "Class 5-A"
                                  [entryFor aarav true; entryFor diya true]])
           "Class 5-A" "2024-01-01" "2024-01-31" r).
  - vm_compute. reflexivity.
  - vm_compute. discriminate.
  - vm_compute. reflexivity.
  - vm_compute. repeat constructor.
Defined.

Lemma report_ignores_storage_order_witness :
  report (mkDb (students threeDays) (rev (attendance threeDays))) january
  = report threeDays january.
Proof.
  apply (report_ignores_storage_order threeDays
           (mkDb (students threeDays) (rev (attendance threeDays))) january).
  - reflexivity.
  - apply Permutation_rev.
Defined.

Lemma mark_adds_a_day_witness :
  exists d cl,
    castString (Mongoose := plainCasts) (Js.Str "2024-01-04") = Some d
    /\ castString (Mongoose := plainCasts) (Js.Str "Class 5-A") = Some cl
    /\ 4 = days threeDaysReport
           + (if recorded d cl (attendance threeDays) then 0
              else if String.eqb cl "Class 5-A" && String.leb "2024-01-01" d
                      && String.leb d "2024-01-31"
                   then 1 else 0).
Proof.
  apply (mark_adds_a_day (mongoose := plainCasts) threeDays
           (mkDb (students threeDays)
                 (attendance threeDays
                  ++ [Attendance.make "2024-01-04" "Class 5-A" [entryFor aarav true]]))
           (Js.Str "2024-01-04") (Js.Str "Class 5-A") (Js.Arr [submitted aarav true])
           "Class 5-A" "2024-01-01" "2024-01-31" threeDaysReport
           (mkReport (Number.parseNumeral (Number.Tenths false 667)) 0 1 0 4 2)).
  - vm_compute. reflexivity.
  - vm_compute. reflexivity.
  - vm_compute. reflexivity.
Defined.

(** ** The [auth] middleware *)

Lemma split_cons (sep : ascii) (s : string) : exists piece pieces, split sep s = piece :: pieces.
Proof.
  induction s as [|ch s IH]; simpl; [now exists EmptyString, []|].
  destruct (Ascii.eqb ch sep); [now eexists _, _|].
  destruct IH as (piece & pieces & ->). now eexists _, _.
Qed.

Lemma split_spaceless (s : string) : spaceless s = true -> split " " s = [s].
Proof.
  unfold spaceless. induction s as [|ch s IH]; simpl; [reflexivity|].
  intros H. apply andb_true_iff in H. destruct H as [Hch Hs].
  apply negb_true_iff in Hch. rewrite Hch, (IH Hs). reflexivity.
Qed.

Lemma split_append (a b : string) :
  spaceless a = true -> split " " (String.append a (String " " b)) = a :: split " " b.
Proof.
  unfold spaceless. induction a as [|ch a IH]; simpl; [reflexivity|].
  intros H. apply andb_true_iff in H. destruct H as [Hch Ha].
  apply negb_true_iff in Hch. rewrite Hch, (IH Ha). reflexivity.
Qed.

Lemma append_nonempty (a b : string) (ch : ascii) :
  String.eqb (String.append a (String ch b)) "" = false.
Proof. destruct a; reflexivity. Qed.

Section Middleware.

Context {mongoose : Mongoose} {jwt : Jwt}.

(** X11. The middleware looks at the second space-separated piece of the header
    and at nothing else. Whatever stands before the first space, [Bearer]
    or not or nothing at all, and whatever follows a second space, the
    outcome is that of verifying the piece between them; when that piece is
    empty (two spaces in a row) the reply is "No token provided". A header
    without any space, such as the bare token, is turned away with the same
    reply. *)
Theorem auth_reads_the_second_piece (secret : string) (now : nat)
    (scheme token : string) (more : option string) :
  spaceless scheme = true -> spaceless token = true ->
  auth secret now (Some (headerOf scheme token more))
  = (if String.eqb token "" then Refuse 401 noToken else verdict secret now token)
  /\ (token <> "" -> auth secret now (Some token) = Refuse 401 noToken).
Proof.
  intros Hscheme Htoken. split.
  - unfold auth, headerOf. rewrite append_nonempty, (split_append _ _ Hscheme).
    cbn [nth_error].
    destruct more as [m|].
    + rewrite (split_append _ _ Htoken). reflexivity.
    + replace (String.append token EmptyString) with token
        by (clear; induction token; simpl; congruence).
      rewrite (split_spaceless _ Htoken). reflexivity.
  - intros Hne. unfold auth.
    destruct (String.eqb_spec token ""); [contradiction|].
    now rewrite (split_spaceless _ Htoken).
Qed.

Lemma auth_verified (secret : string) (now : nat) (authHeader : option string) :
  (verified secret now authHeader -> exists id, auth secret now authHeader = Next id)
  /\ (~ verified secret now authHeader ->
      exists message, auth secret now authHeader = Refuse 401 message).
Proof.
  unfold verified, auth. split.
  - intros (header & token & id & -> & Hnth & Hne & Hv).
    destruct (String.eqb_spec header "") as [->|_]; [discriminate|].
    rewrite Hnth. destruct (String.eqb_spec token ""); [contradiction|].
    rewrite Hv. now exists id.
  - intros Hnot.
    destruct authHeader as [header|]; [|now eexists].
    destruct (String.eqb header ""); [now eexists|].
    destruct (nth_error (split " " header) 1) as [token|] eqn:Hnth; [|now eexists].
    destruct (String.eqb_spec token "") as [->|Hne]; [now eexists|].
    destruct (jwtVerify token secret now) as [id|] eqn:Hv; [|now eexists].
    elim Hnot. now exists header, token, id.
Qed.

(** X12. Nothing behind [auth] runs without a token that verifies. Of a
    request to [/attendance/mark] or [/reports/summary] the body goes
    through [express.json()] first. When the body is accepted, a header
    that holds a verifying token as its second piece gets the handler's
    answer, and any other header gets 401. When the body is refused, the
    error-handling middleware answers 500, token or no token. Without a
    verifying token the reply is thus 401 or 500, never a report, and the
    database is left as it was. *)
Theorem no_service_without_a_token (B : Type) (secret : string) (now : nat)
    (authHeader : option string) (q : ReportQuery) (db : Db) :
  (verified secret now authHeader ->
   forall (body : MarkBody) (other : B),
     markRequest secret now authHeader (Body body) db = mark db body
     /\ reportRequest secret now authHeader (Body other) q db = report db q)
  /\ (~ verified secret now authHeader ->
      forall (body : MarkBody) (other : B),
        status (fst (markRequest secret now authHeader (Body body) db)) = 401
        /\ snd (markRequest secret now authHeader (Body body) db) = db
        /\ status (reportRequest secret now authHeader (Body other) q db) = 401)
  /\ (markRequest secret now authHeader BodyError db = (Fail 500 somethingWrong, db)
      /\ reportRequest (B := B) secret now authHeader BodyError q db
         = Fail 500 somethingWrong)
  /\ (~ verified secret now authHeader ->
      forall (received : Parsed MarkBody) (asked : Parsed B),
        snd (markRequest secret now authHeader received db) = db
        /\ fst (markRequest secret now authHeader received db) <> Ok tt
        /\ forall r, reportRequest secret now authHeader asked q db <> Ok r).
Proof.
  unfold markRequest, reportRequest, afterJson, postAttendanceMark, getReportsSummary.
  destruct (auth_verified secret now authHeader) as [Hyes Hno].
  split; [|split; [|split]].
  - intros Hv body other. destruct (Hyes Hv) as [id ->]. split; reflexivity.
  - intros Hv body other. destruct (Hno Hv) as [message ->]. repeat split.
  - split; reflexivity.
  - intros Hv received asked. destruct (Hno Hv) as [message ->].
    destruct received as [body|], asked as [other|]; cbn [behindAuth fst snd];
      (split; [reflexivity|split; [discriminate|intros r; discriminate]]).
Qed.

End Middleware.

Lemma auth_reads_the_second_piece_witness :
  auth (jwt := plainJwt) "secret" 0 (Some "Token jwt.64f1a0000000000000000009 and more")
  = Next (Some "64f1a0000000000000000009")
  /\ auth (jwt := plainJwt) "secret" 0 (Some "jwt.64f1a0000000000000000009")
     = Refuse 401 noToken.
Proof.
  destruct (auth_reads_the_second_piece (jwt := plainJwt) "secret" 0
              "Token" "jwt.64f1a0000000000000000009" (Some "and more"))
    as [Hsecond Hbare]; [reflexivity | reflexivity |].
  split; [exact Hsecond | apply Hbare; discriminate].
Defined.

Lemma no_service_without_a_token_witness :
  markRequest (mongoose := plainCasts) (jwt := plainJwt) "secret" 0
    (Some "Bearer jwt.64f1a0000000000000000009")
    (Body (markBody (Js.Str "2024-01-04") (Js.Str "Class 5-A")
                    (Js.Arr [submitted aarav true])))
    threeDays
  = mark (mongoose := plainCasts) threeDays
      (markBody (Js.Str "2024-01-04") (Js.Str "Class 5-A") (Js.Arr [submitted aarav true]))
  /\ status (reportRequest (jwt := plainJwt) "secret" 0 (Some "Bearer") (Body tt)
                           january threeDays)
     = 401
  /\ markRequest (mongoose := plainCasts) (jwt := plainJwt) "secret" 0 None BodyError
                 threeDays
     = (Fail 500 somethingWrong, threeDays).
Proof.
  split; [|split].
  - apply (proj1 (no_service_without_a_token (mongoose := plainCasts) (jwt := plainJwt)
                    unit "secret" 0 (Some "Bearer jwt.64f1a0000000000000000009")
                    january threeDays)).
    + exists "Bearer jwt.64f1a0000000000000000009", "jwt.64f1a0000000000000000009",
        (Some "64f1a0000000000000000009").
      repeat split; try reflexivity. discriminate.
    + exact tt.
  - apply (proj1 (proj2 (no_service_without_a_token (mongoose := plainCasts)
                           (jwt := plainJwt) unit "secret" 0 (Some "Bearer")
                           january threeDays))).
    + intros (header & token & id & Hh & Hnth & _). injection Hh as <-.
      vm_compute in Hnth. discriminate.
    + exact (mkMarkBody None None None).
  - apply (proj1 (proj2 (proj2 (no_service_without_a_token (mongoose := plainCasts)
                                  (jwt := plainJwt) unit "secret" 0 None
                                  january threeDays)))).
Defined.

(** ** The roster *)

Lemma insertByRoll_perm (s : Student.t) (l : list Student.t) :
  Permutation (insertByRoll s l) (s :: l).
Proof.
  induction l as [|t l IH]; simpl; [reflexivity|].
  destruct (Student.roll s <=? Student.roll t)%Z; [reflexivity|].
  rewrite IH. apply perm_swap.
Qed.

Lemma sortByRoll_perm (l : list Student.t) : Permutation (sortByRoll l) l.
Proof.
  induction l as [|s l IH]; simpl; [reflexivity|].
  rewrite insertByRoll_perm. now constructor.
Qed.

Lemma insertByRoll_sorted (s : Student.t) (l : list Student.t) :
  StronglySorted rollLe l -> StronglySorted rollLe (insertByRoll s l).
Proof.
  induction 1 as [|t l Hl IH Ht]; simpl.
  - repeat constructor.
  - destruct (Z.leb_spec (Student.roll s) (Student.roll t)) as [Hle|Hgt].
    + constructor; [now constructor|].
      constructor; [exact Hle|].
      rewrite Forall_forall in *. intros u Hu. unfold rollLe in *.
      specialize (Ht u Hu). lia.
    + constructor; [exact IH|].
      rewrite Forall_forall in *. intros u Hu.
      apply (Permutation_in _ (insertByRoll_perm s l)) in Hu.
      destruct Hu as [<-|Hu]; [unfold rollLe; lia | now apply Ht].
Qed.

Lemma sortByRoll_sorted (l : list Student.t) : StronglySorted rollLe (sortByRoll l).
Proof.
  induction l as [|s l IH]; simpl; [constructor | now apply insertByRoll_sorted].
Qed.

(** X13. The listing of a class is the class, sorted: every student of the
    roster whose [className] is the one asked for appears exactly as often
    as the roster holds it, nobody else appears, and rolls never decrease
    down the list. An absent or empty [className] lists the whole roster,
    sorted the same way. *)
Theorem listing_is_the_class_sorted (roster : list Student.t) (c : string) :
  c <> "" ->
  StronglySorted rollLe (getStudents roster (Some c))
  /\ Permutation (getStudents roster (Some c)) (filter (inClass c) roster)
  /\ StronglySorted rollLe (getStudents roster None)
  /\ Permutation (getStudents roster None) roster
  /\ getStudents roster (Some "") = getStudents roster None.
Proof.
  intros Hc. unfold getStudents, given.
  destruct (String.eqb_spec c "") as [->|_]; [contradiction|]. cbn [negb].
  repeat split; try apply sortByRoll_sorted; apply sortByRoll_perm.
Qed.

Lemma listing_is_the_class_sorted_witness :
  StronglySorted rollLe (getStudents twoClasses (Some "Class 5-A"))
  /\ Permutation (getStudents twoClasses (Some "Class 5-A")) [diya; aarav]
  /\ StronglySorted rollLe (getStudents twoClasses None)
  /\ Permutation (getStudents twoClasses None) twoClasses
  /\ getStudents twoClasses (Some "") = getStudents twoClasses None.
Proof.
  apply (listing_is_the_class_sorted twoClasses "Class 5-A"). discriminate.
Defined.

(** ** The bulk upsert *)

Lemma sameSeat_seat (s : StudentInput.t) (doc : Student.t) :
  sameSeat s doc = true <-> seat doc = seatOf s.
Proof.
  unfold sameSeat, seat, seatOf. rewrite andb_true_iff, String.eqb_eq, Z.eqb_eq.
  split; [intros [-> ->]; reflexivity | intros H; injection H; auto].
Qed.

Lemma sameSeat_setFields (s s' : StudentInput.t) (doc : Student.t) :
  sameSeat s (setFields s' doc) = true <-> seatOf s' = seatOf s.
Proof. now rewrite sameSeat_seat. Qed.

Lemma updateOne_seats (id : ObjectId) (s : StudentInput.t) (roster : list Student.t) :
  let (roster', w) := updateOne id s roster in
  match w with
  | Upserted =>
      ~ In (seatOf s) (map seat roster)
      /\ map seat roster' = map seat roster ++ [seatOf s]
      /\ map Student._id roster' = map Student._id roster ++ [id]
  | _ =>
      In (seatOf s) (map seat roster)
      /\ map seat roster' = map seat roster
      /\ map Student._id roster' = map Student._id roster
  end.
Proof.
  induction roster as [|doc rest IH]; simpl.
  - repeat split. tauto.
  - destruct (sameSeat s doc) eqn:Hseat.
    + apply sameSeat_seat in Hseat.
      assert (Hsame : seat (setFields s doc) = seat doc) by now rewrite Hseat.
      destruct (changes s doc); simpl; rewrite Hsame; repeat split; now left.
    + destruct (updateOne id s rest) as [rest' w].
      assert (Hne : seat doc <> seatOf s).
      { intros H. apply sameSeat_seat in H. congruence. }
      destruct w; simpl; destruct IH as (Hin & -> & ->); repeat split; tauto.
Qed.

Lemma bulkWrite_seats (newId : nat -> ObjectId) (ops : list StudentInput.t) :
  forall (i : nat) (roster : list Student.t) (r : BulkResult),
    let (result, roster') := bulkWrite newId i ops roster r in
    exists seats ids,
      map seat roster' = map seat roster ++ seats
      /\ map Student._id roster' = map Student._id roster ++ ids
      /\ length ids = length seats
      /\ NoDup seats
      /\ (forall k, In k seats -> In k (map seatOf ops) /\ ~ In k (map seat roster))
      /\ upsertedCount result = upsertedCount r + length seats
      /\ modifiedCount r <= modifiedCount result
      /\ modifiedCount result + upsertedCount result
         <= modifiedCount r + upsertedCount r + length ops.
Proof.
  induction ops as [|s rest IH]; intros i roster r; simpl.
  - exists [], []. rewrite !app_nil_r. simpl.
    split; [reflexivity|]. split; [reflexivity|]. split; [reflexivity|].
    split; [constructor|]. split; [now intros k []|].
    split; [lia|]. split; lia.
  - pose proof (updateOne_seats (newId i) s roster) as Hone.
    destruct (updateOne (newId i) s roster) as [roster1 w].
    specialize (IH (S i) roster1 (tally w r)).
    destruct (bulkWrite newId (S i) rest roster1 (tally w r)) as [result roster'].
    destruct IH as (seats & ids & Hs & Hi & Hlen & Hnd & Hin & Hup & Hmod & Hsum).
    assert (Hkeep : w <> Upserted ->
                    In (seatOf s) (map seat roster)
                    /\ map seat roster1 = map seat roster
                    /\ map Student._id roster1 = map Student._id roster).
    { destruct w; try exact (fun _ => Hone). intros Hw. now elim Hw. }
    destruct w; simpl in Hup, Hmod, Hsum.
    + destruct (Hkeep ltac:(discriminate)) as (Hthere & Hs1 & Hi1).
      rewrite Hs1 in Hs, Hin. rewrite Hi1 in Hi.
      exists seats, ids.
      split; [exact Hs|]. split; [exact Hi|]. split; [exact Hlen|].
      split; [exact Hnd|]. split; [|lia].
      intros k Hk. destruct (Hin k Hk) as [Hk1 Hk2]. split; [now right | exact Hk2].
    + destruct (Hkeep ltac:(discriminate)) as (Hthere & Hs1 & Hi1).
      rewrite Hs1 in Hs, Hin. rewrite Hi1 in Hi.
      exists seats, ids.
      split; [exact Hs|]. split; [exact Hi|]. split; [exact Hlen|].
      split; [exact Hnd|]. split; [|lia].
      intros k Hk. destruct (Hin k Hk) as [Hk1 Hk2]. split; [now right | exact Hk2].
    + destruct Hone as (Hfresh & Hs1 & Hi1). rewrite Hs1 in Hs, Hin. rewrite Hi1 in Hi.
      rewrite <- app_assoc in Hs, Hi.
      exists ([seatOf s] ++ seats), ([newId i] ++ ids).
      split; [exact Hs|]. split; [exact Hi|]. split; [simpl; lia|].
      split.
      { constructor; [|exact Hnd].
        intros Hk. apply Hin in Hk. destruct Hk as [_ Hk]. apply Hk.
        apply in_or_app. right. now left. }
      split.
      { intros k [<-|Hk]; [split; [now left | exact Hfresh]|].
        destruct (Hin k Hk) as [Hk1 Hk2]. split; [now right|].
        intros Hr. apply Hk2. apply in_or_app. now left. }
      simpl. lia.
Qed.

Lemma postStudents_Ok (newId : nat -> ObjectId) (roster roster' : list Student.t)
    (students : option Js.value) (result : BulkResult) :
  postStudents newId roster students = Some (Ok result, roster') ->
  exists items ops,
    students = Some (Js.Arr items)
    /\ readStudents items = Some ops
    /\ bulkWrite newId 0 ops roster (mkBulkResult 0 0) = (result, roster').
Proof.
  unfold postStudents. intros H.
  destruct students as [[| | | |items|]|]; try discriminate.
  destruct (existsb isNull items); [discriminate|].
  destruct (readStudents items) as [ops|] eqn:Hops; [|discriminate].
  destruct (bulkWrite newId 0 ops roster (mkBulkResult 0 0)) as [res ros] eqn:Hb.
  injection H as <- <-. now exists items, ops.
Qed.

Lemma readStudents_length (items : list Js.value) (ops : list StudentInput.t) :
  readStudents items = Some ops -> length ops = length items.
Proof.
  revert ops. induction items as [|item rest IH]; intros ops; simpl.
  - now intros [= <-].
  - destruct (readStudent item); [|discriminate].
    destruct (readStudents rest) as [ss|]; [|discriminate].
    intros [= <-]. simpl. now rewrite (IH ss).
Qed.

Lemma readStudents_In (items : list Js.value) (ops : list StudentInput.t)
    (item : Js.value) (s : StudentInput.t) :
  readStudents items = Some ops -> In item items -> readStudent item = Some s -> In s ops.
Proof.
  revert ops. induction items as [|x rest IH]; intros ops; simpl; [now intros _ []|].
  destruct (readStudent x) as [sx|] eqn:Hx; [|discriminate].
  destruct (readStudents rest) as [ss|]; [|discriminate].
  intros [= <-] [->|Hin] Hs.
  - left. congruence.
  - right. now apply (IH ss).
Qed.

(** X14. A served batch only ever adds to the roster. Every document that
    was there keeps its place, its [_id] and its seat (class and roll); the
    new documents come after them, one for each [upsertedCount], on seats
    the batch names and the roster did not have, no two on the same seat.
    So a roster without two students on one seat stays one, and
    [modifiedCount + upsertedCount] never exceeds the size of the batch. *)
Theorem batch_only_adds_seats (newId : nat -> ObjectId) (roster roster' : list Student.t)
    (items : list Js.value) (result : BulkResult) :
  postStudents newId roster (Some (Js.Arr items)) = Some (Ok result, roster') ->
  (exists seats ids,
      map seat roster' = map seat roster ++ seats
      /\ map Student._id roster' = map Student._id roster ++ ids
      /\ length seats = upsertedCount result
      /\ length ids = upsertedCount result
      /\ NoDup seats
      /\ forall k, In k seats -> In k (seatsOf items) /\ ~ In k (map seat roster))
  /\ length roster' = length roster + upsertedCount result
  /\ modifiedCount result + upsertedCount result <= length items
  /\ (NoDup (map seat roster) -> NoDup (map seat roster')).
Proof.
  intros H. apply postStudents_Ok in H.
  destruct H as (items0 & ops & [= <-] & Hops & Hb).
  pose proof (bulkWrite_seats newId ops 0 roster (mkBulkResult 0 0)) as Hs.
  rewrite Hb in Hs.
  destruct Hs as (seats & ids & Hs & Hi & Hlen & Hnd & Hin & Hup & _ & Hsum).
  simpl in Hup, Hsum. rewrite (readStudents_length _ _ Hops) in Hsum.
  unfold seatsOf. rewrite Hops.
  split; [|split; [|split]].
  - exists seats, ids. repeat split; try assumption; try lia; now apply Hin.
  - rewrite <- (length_map seat roster'), Hs, length_app, length_map. lia.
  - exact Hsum.
  - intros Hnodup. rewrite Hs.
    apply NoDup_app; [exact Hnodup | exact Hnd |].
    intros k Hk Hk'. now apply (Hin k Hk').
Qed.

Lemma updateOne_settles (id : ObjectId) (s : StudentInput.t) (roster : list Student.t) :
  settled s (fst (updateOne id s roster)) = true.
Proof.
  assert (Hnew : forall doc, sameSeat s (setFields s doc) = true
                             /\ changes s (setFields s doc) = false).
  { intros doc. split; [now apply sameSeat_setFields|].
    unfold changes, setFields. simpl. rewrite String.eqb_refl.
    destruct (StudentInput.parentPhone s); [now rewrite String.eqb_refl | reflexivity]. }
  induction roster as [|doc rest IH]; simpl.
  - unfold sameSeat, changes, newStudent. simpl.
    rewrite !String.eqb_refl, Z.eqb_refl. simpl.
    destruct (StudentInput.parentPhone s); [now rewrite String.eqb_refl | reflexivity].
  - destruct (sameSeat s doc) eqn:Hseat; simpl.
    + destruct (Hnew doc) as [-> ->]. reflexivity.
    + destruct (updateOne id s rest) as [rest' w]. simpl in *. now rewrite Hseat.
Qed.

Lemma updateOne_keeps_settled (id : ObjectId) (s s' : StudentInput.t)
    (roster : list Student.t) :
  seatOf s' <> seatOf s -> settled s roster = true ->
  settled s (fst (updateOne id s' roster)) = true.
Proof.
  intros Hne. induction roster as [|doc rest IH]; simpl; [discriminate|].
  destruct (sameSeat s' doc) eqn:Hseat'; simpl.
  - apply sameSeat_seat in Hseat'.
    assert (Hs : sameSeat s doc = false).
    { destruct (sameSeat s doc) eqn:E; [|reflexivity].
      apply sameSeat_seat in E. congruence. }
    assert (Hs' : sameSeat s (setFields s' doc) = false).
    { destruct (sameSeat s (setFields s' doc)) eqn:E; [|reflexivity].
      apply sameSeat_setFields in E. contradiction. }
    now rewrite Hs, Hs'.
  - destruct (updateOne id s' rest) as [rest' w]. simpl in *.
    destruct (sameSeat s doc); [trivial | exact IH].
Qed.

Lemma settled_fixed (id : ObjectId) (s : StudentInput.t) (roster : list Student.t) :
  settled s roster = true -> updateOne id s roster = (roster, Matched).
Proof.
  induction roster as [|doc rest IH]; simpl; [discriminate|].
  destruct (sameSeat s doc) eqn:Hseat.
  - intros Hc. apply negb_true_iff in Hc. rewrite Hc.
    unfold changes in Hc. apply orb_false_iff in Hc. destruct Hc as [Hname Hphone].
    apply negb_false_iff, String.eqb_eq in Hname.
    unfold sameSeat in Hseat. apply andb_true_iff in Hseat.
    destruct Hseat as [Hclass Hroll].
    apply String.eqb_eq in Hclass. apply Z.eqb_eq in Hroll.
    unfold setFields. rewrite <- Hname, <- Hclass, <- Hroll.
    destruct (StudentInput.parentPhone s) as [p|].
    + apply negb_false_iff, String.eqb_eq in Hphone. rewrite <- Hphone.
      now destruct doc.
    + now destruct doc.
  - intros Hs. now rewrite (IH Hs).
Qed.

Lemma settled_shows (s : StudentInput.t) (roster : list Student.t) :
  settled s roster = true -> exists doc, In doc roster /\ shows s doc.
Proof.
  induction roster as [|doc rest IH]; simpl; [discriminate|].
  destruct (sameSeat s doc) eqn:Hseat.
  - intros Hc. exists doc. split; [now left|].
    apply negb_true_iff in Hc. unfold changes in Hc.
    apply orb_false_iff in Hc. destruct Hc as [Hname Hphone].
    apply negb_false_iff, String.eqb_eq in Hname.
    apply sameSeat_seat in Hseat.
    repeat split; try assumption.
    intros p Hp. rewrite Hp in Hphone.
    now apply negb_false_iff, String.eqb_eq in Hphone.
  - intros Hs. destruct (IH Hs) as (doc' & Hin & Hshow). exists doc'. split; [now right|exact Hshow].
Qed.

Lemma bulkWrite_keeps_settled (newId : nat -> ObjectId) (s : StudentInput.t)
    (ops : list StudentInput.t) :
  ~ In (seatOf s) (map seatOf ops) ->
  forall (i : nat) (roster : list Student.t) (r : BulkResult),
    settled s roster = true -> settled s (snd (bulkWrite newId i ops roster r)) = true.
Proof.
  induction ops as [|s' rest IH]; intros Hnot i roster r Hs; simpl; [exact Hs|].
  pose proof (updateOne_keeps_settled (newId i) s s' roster) as Hk.
  destruct (updateOne (newId i) s' roster) as [roster1 w]. simpl in Hk.
  apply IH.
  - intros Hin. apply Hnot. now right.
  - apply Hk; [|exact Hs]. intros Heq. apply Hnot. now left.
Qed.

Lemma bulkWrite_settles (newId : nat -> ObjectId) (ops : list StudentInput.t) :
  NoDup (map seatOf ops) ->
  forall (i : nat) (roster : list Student.t) (r : BulkResult) (s : StudentInput.t),
    In s ops -> settled s (snd (bulkWrite newId i ops roster r)) = true.
Proof.
  induction ops as [|s' rest IH]; intros Hnd i roster r s; simpl; [now intros []|].
  inversion Hnd as [|? ? Hnot Hnd']; subst.
  pose proof (updateOne_settles (newId i) s' roster) as Hone.
  destruct (updateOne (newId i) s' roster) as [roster1 w]. simpl in Hone.
  intros [<-|Hin].
  - now apply bulkWrite_keeps_settled.
  - now apply IH.
Qed.

Lemma bulkWrite_fixed (newId : nat -> ObjectId) (ops : list StudentInput.t)
    (roster : list Student.t) :
  (forall s, In s ops -> settled s roster = true) ->
  forall (i : nat) (r : BulkResult), bulkWrite newId i ops roster r = (r, roster).
Proof.
  induction ops as [|s rest IH]; intros Hall i r; simpl; [reflexivity|].
  rewrite (settled_fixed (newId i) s roster) by (apply Hall; now left).
  simpl. apply IH. intros s' Hs'. apply Hall. now right.
Qed.

(** X15. Sending a batch a second time changes nothing. When the batch
    names every seat at most once, the roster it leaves is a fixed point:
    the same batch sent again, whatever [_id]s the store would hand out,
    is answered 200 with [modifiedCount] 0 and [upsertedCount] 0 and leaves
    every document as it is. *)
Theorem resending_a_batch_changes_nothing (newId newId' : nat -> ObjectId)
    (roster roster' : list Student.t) (items : list Js.value) (result : BulkResult) :
  postStudents newId roster (Some (Js.Arr items)) = Some (Ok result, roster') ->
  NoDup (seatsOf items) ->
  postStudents newId' roster' (Some (Js.Arr items))
  = Some (Ok (mkBulkResult 0 0), roster').
Proof.
  intros H Hnd.
  assert (Hnull : existsb isNull items = false).
  { unfold postStudents in H. destruct (existsb isNull items); [discriminate|reflexivity]. }
  apply postStudents_Ok in H. destruct H as (items0 & ops & [= <-] & Hops & Hb).
  unfold seatsOf in Hnd. rewrite Hops in Hnd.
  unfold postStudents. rewrite Hnull, Hops.
  rewrite (bulkWrite_fixed newId' ops roster'); [reflexivity|].
  intros s Hs.
  pose proof (bulkWrite_settles newId ops Hnd 0 roster (mkBulkResult 0 0) s Hs) as Hset.
  now rewrite Hb in Hset.
Qed.

(** X16. What a served batch says is what the listing shows. When the batch
    names every seat at most once, each of its elements is found afterwards
    in the listing of its class, on its seat, under the name it gave and
    with the parent phone it gave, if it gave one. *)
Theorem saved_students_are_listed (newId : nat -> ObjectId)
    (roster roster' : list Student.t) (items : list Js.value) (result : BulkResult) :
  postStudents newId roster (Some (Js.Arr items)) = Some (Ok result, roster') ->
  NoDup (seatsOf items) ->
  forall item s,
    In item items -> readStudent item = Some s ->
    exists doc,
      In doc (getStudents roster' (Some (StudentInput.className s))) /\ shows s doc.
Proof.
  intros H Hnd item s Hitem Hread.
  apply postStudents_Ok in H. destruct H as (items0 & ops & [= <-] & Hops & Hb).
  unfold seatsOf in Hnd. rewrite Hops in Hnd.
  pose proof (bulkWrite_settles newId ops Hnd 0 roster (mkBulkResult 0 0) s
                (readStudents_In _ _ _ _ Hops Hitem Hread)) as Hset.
  rewrite Hb in Hset. simpl in Hset.
  destruct (settled_shows s roster' Hset) as (doc & Hin & Hshow).
  exists doc. split; [|exact Hshow].
  unfold getStudents, given.
  destruct (negb (String.eqb (StudentInput.className s) "")).
  - apply (Permutation_in _ (Permutation_sym (sortByRoll_perm _))).
    apply filter_In. split; [exact Hin|].
    destruct Hshow as (Hseat & _). unfold seat, seatOf in Hseat.
    injection Hseat as Hc _. now apply String.eqb_eq.
  - now apply (Permutation_in _ (Permutation_sym (sortByRoll_perm _))).
Qed.

Lemma batch_only_adds_seats_witness :
  (exists seats ids,
      map seat afterNewTerm = map seat [aarav; diya] ++ seats
      /\ map Student._id afterNewTerm = map Student._id [aarav; diya] ++ ids
      /\ length seats = 1
      /\ length ids = 1
      /\ NoDup seats
      /\ forall k, In k seats -> In k (seatsOf newTerm) /\ ~ In k (map seat [aarav; diya]))
  /\ length afterNewTerm = 2 + 1
  /\ 1 + 1 <= length newTerm
  /\ (NoDup (map seat [aarav; diya]) -> NoDup (map seat afterNewTerm)).
Proof.
  apply (batch_only_adds_seats freshId [aarav; diya] afterNewTerm newTerm (mkBulkResult 1 1)).
  vm_compute. reflexivity.
Defined.

Lemma resending_a_batch_changes_nothing_witness :
  postStudents (fun _ => "64f1c0000000000000000000") afterNewTerm (Some (Js.Arr newTerm))
  = Some (Ok (mkBulkResult 0 0), afterNewTerm).
Proof.
  apply (resending_a_batch_changes_nothing freshId (fun _ => "64f1c0000000000000000000")
           [aarav; diya] afterNewTerm newTerm (mkBulkResult 1 1)).
  - vm_compute. reflexivity.
  - vm_compute. repeat (constructor; [simpl; intuition discriminate|]). constructor.
Defined.

Lemma saved_students_are_listed_witness :
  exists doc,
    In doc (getStudents afterNewTerm (Some "Class 5-A"))
    /\ shows (StudentInput.make 3 "Arjun Singh" "Class 5-A" None) doc.
Proof.
  apply (saved_students_are_listed freshId [aarav; diya] afterNewTerm newTerm
           (mkBulkResult 1 1)
           ltac:(vm_compute; reflexivity)
           ltac:(vm_compute; repeat (constructor; [simpl; intuition discriminate|]);
                 constructor)
           (studentJson 3 "Arjun Singh" "Class 5-A")
           (StudentInput.make 3 "Arjun Singh" "Class 5-A" None)).
  - right. left. reflexivity.
  - vm_compute. reflexivity.
Defined.

(** X17. The two refusals that come before the write, and write nothing.
    A [students] that is no array is answered 400. A single [null] among
    the elements of an array is answered 500, whatever the other elements
    are: the operations are built for the whole array before [bulkWrite] is
    called, and reading [s.className] of the [null] throws. (A failure
    inside [bulkWrite] is another matter and is not covered here.) *)
Theorem refused_batch_writes_nothing (newId : nat -> ObjectId) (roster : list Student.t) :
  (forall students,
      (forall items, students <> Some (Js.Arr items)) ->
      postStudents newId roster students = Some (Fail 400 studentsRequired, roster))
  /\ (forall items,
         In Js.Null items ->
         postStudents newId roster (Some (Js.Arr items))
         = Some (Fail 500 studentsFailed, roster)).
Proof.
  split.
  - intros students Hno. unfold postStudents.
    destruct students as [[| | | |items|]|]; try reflexivity.
    now elim (Hno items).
  - intros items Hnull. unfold postStudents.
    replace (existsb isNull items) with true; [reflexivity|].
    symmetry. apply existsb_exists. now exists Js.Null.
Qed.

Lemma refused_batch_writes_nothing_witness :
  postStudents freshId [aarav; diya]
    (Some (Js.Arr [studentJson 3 "Arjun Singh" "Class 5-A"; Js.Null]))
  = Some (Fail 500 studentsFailed, [aarav; diya])
  /\ postStudents freshId [aarav; diya] (Some (Js.Str "Arjun Singh"))
     = Some (Fail 400 studentsRequired, [aarav; diya]).
Proof.
  destruct (refused_batch_writes_nothing freshId [aarav; diya]) as (Hshape & Hnull).
  split.
  - apply Hnull. right. left. reflexivity.
  - apply Hshape. discriminate.
Defined.

(** ** Accounts *)

Lemma findByEmail_None (email : string) (teachers : list Teacher.t) :
  findByEmail email teachers = None <-> ~ In email (map Teacher.email teachers).
Proof.
  unfold findByEmail. induction teachers as [|t rest IH]; simpl; [tauto|].
  destruct (String.eqb_spec (Teacher.email t) email) as [Heq|Hne].
  - split; [discriminate | intros H; elim H; now left].
  - rewrite IH. tauto.
Qed.

Lemma findByEmail_Some (email : string) (teachers : list Teacher.t) (t : Teacher.t) :
  findByEmail email teachers = Some t -> In t teachers /\ Teacher.email t = email.
Proof.
  unfold findByEmail. intros H. apply find_some in H.
  destruct H as [Hin Heq]. now apply String.eqb_eq in Heq.
Qed.

Lemma findByEmail_last (email : string) (teachers : list Teacher.t) (t : Teacher.t) :
  ~ In email (map Teacher.email teachers) -> Teacher.email t = email ->
  findByEmail email (teachers ++ [t]) = Some t.
Proof.
  unfold findByEmail. intros Hnot Heq.
  induction teachers as [|u rest IH]; simpl.
  - now rewrite Heq, String.eqb_refl.
  - destruct (String.eqb_spec (Teacher.email u) email) as [Hu|_].
    + elim Hnot. now left.
    + apply IH. intros Hin. apply Hnot. now right.
Qed.

Lemma truthy_Str (s : string) : s <> "" -> Js.truthy (Some (Js.Str s)) = true.
Proof. intros Hs. simpl. now destruct (String.eqb_spec s ""). Qed.

Section AccountFacts.

Context {mongoose : Mongoose} {bcrypt : Bcrypt} {jwt : Jwt}.

(** X18. Registration never gives two teachers one email. A reply other
    than 201 leaves the teachers as they were; a 201 appends exactly one
    teacher, with the [_id] the store drew and an email no teacher had; so
    a collection without a repeated email stays one, with no help from the
    unique index. *)
Theorem register_keeps_emails_unique (salt : string) (id : ObjectId)
    (teachers teachers' : list Teacher.t) (body : RegisterBody) (reply : Registration) :
  register salt id teachers body = Some (reply, teachers') ->
  (registrationStatus reply <> 201 -> teachers' = teachers)
  /\ (registrationStatus reply = 201 ->
      exists t,
        teachers' = teachers ++ [t]
        /\ Teacher._id t = id
        /\ body_email body = Some (Js.Str (Teacher.email t))
        /\ ~ In (Teacher.email t) (map Teacher.email teachers)
        /\ reply = Created (withoutPassword t))
  /\ (NoDup (map Teacher.email teachers) -> NoDup (map Teacher.email teachers')).
Proof.
  unfold register. intros H.
  destruct (negb (Js.truthy (body_name body)) || negb (Js.truthy (body_email body))
            || negb (Js.truthy (body_password body))).
  { injection H as <- <-. repeat split; auto; discriminate. }
  destruct (body_email body) as [[| | |email| |]|]; try discriminate.
  destruct (findByEmail email teachers) as [existing|] eqn:Hfind.
  { injection H as <- <-. repeat split; auto; discriminate. }
  apply findByEmail_None in Hfind.
  destruct (body_password body) as [[| | |password| |]|];
    try (injection H as <- <-; repeat split; auto; discriminate).
  destruct (body_name body) as [[| | |name| |]|]; try discriminate.
  injection H as <- <-. split; [|split].
  - intros Hs. now elim Hs.
  - intros _. eexists. repeat split. exact Hfind.
  - intros Hnd. rewrite map_app. simpl.
    apply NoDup_app; [exact Hnd | repeat constructor; intros [] |].
    intros e He [<-|[]]. contradiction.
Qed.

(** X19. Register, log in, pass [auth]. A teacher registered with a name,
    an email no teacher has and a password can log in with that email and
    password, gets back the data the registration replied with, and the
    token of that login, sent as [Bearer <token>], opens the guarded
    routes under the teacher's [_id]. This needs of [bcrypt] that the
    password compares equal to its own hash, and of [jsonwebtoken] that
    the token it signed holds no space and verifies at the later time. *)
Theorem registered_teacher_gets_in (salt : string) (id : ObjectId) (secret : string)
    (t1 t2 : nat) (teachers : list Teacher.t) (n e p : string) :
  n <> "" -> e <> "" -> p <> "" ->
  ~ In e (map Teacher.email teachers) ->
  bcryptCompare p (bcryptHash salt p) = true ->
  jwtSign id secret t1 <> "" ->
  spaceless (jwtSign id secret t1) = true ->
  jwtVerify (jwtSign id secret t1) secret t2 = Some (Some id) ->
  exists data teachers',
    register salt id teachers
             (mkRegisterBody (Some (Js.Str n)) (Some (Js.Str e)) (Some (Js.Str p)))
    = Some (Created data, teachers')
    /\ login secret t1 teachers' (mkLoginBody (Some (Js.Str e)) (Some (Js.Str p)))
       = Some (Ok (mkSession (jwtSign id secret t1) data))
    /\ auth secret t2 (Some (headerOf "Bearer" (jwtSign id secret t1) None))
       = Next (Some id)
    /\ forall body db,
         postAttendanceMark secret t2 (Some (headerOf "Bearer" (jwtSign id secret t1) None))
                            body db
         = mark db body.
Proof.
  intros Hn He Hp Hfresh Hcompare Htoken Hspace Hverify.
  assert (Hauth : auth secret t2 (Some (headerOf "Bearer" (jwtSign id secret t1) None))
                  = Next (Some id)).
  { unfold auth, headerOf. rewrite append_nonempty.
    rewrite (split_append "Bearer" _ eq_refl). cbn [nth_error].
    replace (String.append (jwtSign id secret t1) EmptyString) with (jwtSign id secret t1)
      by (generalize (jwtSign id secret t1); intros s; induction s; simpl; congruence).
    rewrite (split_spaceless _ Hspace). cbn [nth_error].
    destruct (String.eqb_spec (jwtSign id secret t1) ""); [contradiction|].
    now rewrite Hverify. }
  exists (withoutPassword (Teacher.create id n e (bcryptHash salt p))),
    (teachers ++ [Teacher.create id n e (bcryptHash salt p)]).
  split; [|split; [|split]].
  - unfold register. cbn [body_name body_email body_password].
    rewrite (truthy_Str n Hn), (truthy_Str e He), (truthy_Str p Hp). cbn [negb orb].
    apply findByEmail_None in Hfresh. now rewrite Hfresh.
  - unfold login. cbn [login_email login_password].
    rewrite (truthy_Str e He), (truthy_Str p Hp). cbn [negb orb].
    rewrite (findByEmail_last e teachers (Teacher.create id n e (bcryptHash salt p)) Hfresh eq_refl).
    cbn [Teacher.password Teacher.create Teacher._id]. now rewrite Hcompare.
  - exact Hauth.
  - intros body db. unfold postAttendanceMark. now rewrite Hauth.
Qed.

(** X20. No token without the password. A login is answered with a token
    only when some teacher has the email sent and [bcrypt] accepts the
    password sent against that teacher's stored hash; the token is then
    signed for that teacher's [_id]. An email no teacher has and a password
    that [bcrypt] turns down get one and the same reply, 400 "Invalid email
    or password". *)
Theorem login_needs_the_password (secret : string) (now : nat)
    (teachers : list Teacher.t) (body : LoginBody) :
  (forall session,
      login secret now teachers body = Some (Ok session) ->
      exists t e p,
        In t teachers
        /\ login_email body = Some (Js.Str e) /\ Teacher.email t = e
        /\ login_password body = Some (Js.Str p)
        /\ bcryptCompare p (Teacher.password t) = true
        /\ session = mkSession (jwtSign (Teacher._id t) secret now) (withoutPassword t))
  /\ (forall e p,
         login_email body = Some (Js.Str e) -> login_password body = Some (Js.Str p) ->
         e <> "" -> p <> "" ->
         (forall t, In t teachers -> Teacher.email t = e ->
                    bcryptCompare p (Teacher.password t) = false) ->
         login secret now teachers body = Some (Fail 400 invalidLogin)).
Proof.
  split.
  - intros session. unfold login.
    destruct (negb (Js.truthy (login_email body)) || negb (Js.truthy (login_password body)));
      [discriminate|].
    destruct (login_email body) as [[| | |e| |]|]; try discriminate.
    destruct (findByEmail e teachers) as [t|] eqn:Hfind; [|discriminate].
    apply findByEmail_Some in Hfind. destruct Hfind as [Hin Hemail].
    destruct (login_password body) as [[| | |p| |]|]; try discriminate.
    destruct (bcryptCompare p (Teacher.password t)) eqn:Hc; [|discriminate].
    intros [= <-]. exists t, e, p. repeat split; assumption.
  - intros e p Hemail Hpassword He Hp Hwrong. unfold login.
    rewrite Hemail, Hpassword, (truthy_Str e He), (truthy_Str p Hp). cbn [negb orb].
    destruct (findByEmail e teachers) as [t|] eqn:Hfind; [|reflexivity].
    apply findByEmail_Some in Hfind. destruct Hfind as [Hin Ht].
    now rewrite (Hwrong t Hin Ht).
Qed.

End AccountFacts.

Lemma register_keeps_emails_unique_witness :
  (registrationStatus (Created (withoutPassword asha)) <> 201 -> [asha] = [])
  /\ (registrationStatus (Created (withoutPassword asha)) = 201 ->
      exists t,
        [asha] = [] ++ [t]
        /\ Teacher._id t = "64f1d0000000000000000001"
        /\ body_email ashaBody = Some (Js.Str (Teacher.email t))
        /\ ~ In (Teacher.email t) (map Teacher.email [])
        /\ Created (withoutPassword asha) = Created (withoutPassword t))
  /\ (NoDup (map Teacher.email []) -> NoDup (map Teacher.email [asha])).
Proof.
  apply (register_keeps_emails_unique (bcrypt := plainBcrypt)
           "$2b$12$salt" "64f1d0000000000000000001" [] [asha] ashaBody
           (Created (withoutPassword asha))).
  vm_compute. reflexivity.
Defined.

Lemma registered_teacher_gets_in_witness :
  exists data teachers',
    register (bcrypt := plainBcrypt) "$2b$12$salt" "64f1d0000000000000000001" [] ashaBody
    = Some (Created data, teachers')
    /\ login (bcrypt := plainBcrypt) (jwt := plainJwt) "secret" 0 teachers'
             (mkLoginBody (Some (Js.Str "asha@school.in")) (Some (Js.Str "chalk")))
       = Some (Ok (mkSession "jwt.64f1d0000000000000000001" data))
    /\ auth (jwt := plainJwt) "secret" 1 (Some "Bearer jwt.64f1d0000000000000000001")
       = Next (Some "64f1d0000000000000000001")
    /\ forall body db,
         postAttendanceMark (mongoose := plainCasts) (jwt := plainJwt) "secret" 1
                            (Some "Bearer jwt.64f1d0000000000000000001") body db
         = mark (mongoose := plainCasts) db body.
Proof.
  apply (registered_teacher_gets_in (mongoose := plainCasts) (bcrypt := plainBcrypt)
           (jwt := plainJwt)
           "$2b$12$salt" "64f1d0000000000000000001" "secret" 0 1 []
           "Asha Rao" "asha@school.in" "chalk");
    first [discriminate | reflexivity | (intros []) ].
Defined.

Lemma login_needs_the_password_witness :
  login (bcrypt := plainBcrypt) (jwt := plainJwt) "secret" 0 [asha]
        (mkLoginBody (Some (Js.Str "asha@school.in")) (Some (Js.Str "chalk!")))
  = Some (Fail 400 invalidLogin)
  /\ login (bcrypt := plainBcrypt) (jwt := plainJwt) "secret" 0 [asha]
           (mkLoginBody (Some (Js.Str "nobody@school.in")) (Some (Js.Str "chalk")))
     = Some (Fail 400 invalidLogin).
Proof.
  split.
  - apply (proj2 (login_needs_the_password (bcrypt := plainBcrypt) (jwt := plainJwt)
                    "secret" 0 [asha]
                    (mkLoginBody (Some (Js.Str "asha@school.in")) (Some (Js.Str "chalk!"))))
                 "asha@school.in" "chalk!");
      try reflexivity; try discriminate.
    intros t [<-|[]] _. reflexivity.
  - apply (proj2 (login_needs_the_password (bcrypt := plainBcrypt) (jwt := plainJwt)
                    "secret" 0 [asha]
                    (mkLoginBody (Some (Js.Str "nobody@school.in")) (Some (Js.Str "chalk"))))
                 "nobody@school.in" "chalk");
      try reflexivity; try discriminate.
    intros t [<-|[]] Hemail. discriminate.
Defined.

(** ** The seed *)

Section SeedFacts.

Context {bcrypt : Bcrypt} {jwt : Jwt}.

(** X21. The seed starts afresh, whatever the store held. Afterwards no
    attendance is on record, so every report is the report of nothing; the
    roster holds the fifteen demo students, no two on one seat, and the
    listing of Class 6-B shows its rolls 1 to 5 in order; and the demo
    credentials log in, with a token for the demo teacher, provided
    [bcrypt] accepts the demo password against the hash it made of it. *)
Theorem seed_starts_afresh (salt : string) (teacherId : ObjectId)
    (newId : nat -> ObjectId) (store : Store) :
  let seeded := seed salt teacherId newId store in
  (forall c from to, c <> "" -> from <> "" -> to <> "" ->
                     report (store_db seeded) (query c from to) = Ok zeroReport)
  /\ length (students (store_db seeded)) = 15
  /\ NoDup (map seat (students (store_db seeded)))
  /\ map Student.roll (getStudents (students (store_db seeded)) (Some "Class 6-B"))
     = [1; 2; 3; 4; 5]%Z
  /\ (forall secret now,
         bcryptCompare demoPassword (bcryptHash salt demoPassword) = true ->
         exists data,
           login secret now (store_teachers seeded)
                 (mkLoginBody (Some (Js.Str demoEmail)) (Some (Js.Str demoPassword)))
           = Some (Ok (mkSession (jwtSign teacherId secret now) data))).
Proof.
  intros seeded. split; [|split; [|split; [|split]]].
  - intros c from to Hc Hfrom Hto. unfold report, query, given. simpl.
    destruct (String.eqb_spec c ""); [contradiction|].
    destruct (String.eqb_spec from ""); [contradiction|].
    destruct (String.eqb_spec to ""); [contradiction|].
    reflexivity.
  - reflexivity.
  - cbv [seeded seed store_db students insertMany demoStudents map seat
         Student.className Student.roll].
    repeat (constructor; [simpl; intuition discriminate|]). constructor.
  - reflexivity.
  - intros secret now Hcompare. eexists. unfold login. simpl.
    now rewrite Hcompare.
Qed.

End SeedFacts.

Lemma seed_starts_afresh_witness :
  exists data,
    login (bcrypt := plainBcrypt) (jwt := plainJwt) "secret" 0
          (store_teachers (seed (bcrypt := plainBcrypt) "$2b$12$salt" "64f1d0000000000000000000"
                          freshId (mkStore [asha] threeDays)))
          (mkLoginBody (Some (Js.Str demoEmail)) (Some (Js.Str demoPassword)))
    = Some (Ok (mkSession "jwt.64f1d0000000000000000000" data)).
Proof.
  apply (proj2 (proj2 (proj2 (proj2
           (seed_starts_afresh (bcrypt := plainBcrypt) (jwt := plainJwt)
              "$2b$12$salt" "64f1d0000000000000000000" freshId
              (mkStore [asha] threeDays)))))
         "secret" 0).
  reflexivity.
Defined.

(** ** Marks and the reports after them *)

Lemma leb_antisym (a b : string) : String.leb a b = true -> String.leb b a = true -> a = b.
Proof.
  unfold String.leb. rewrite (String.compare_antisym a b).
  destruct (String.compare b a) eqn:Hc; simpl; try discriminate.
  intros _ _. apply String.compare_eq_iff in Hc. now symmetry.
Qed.

Lemma leb_refl (a : string) : String.leb a a = true.
Proof.
  apply leb_lexLe. induction a as [|x a IH]; [constructor | now apply lexLe_same].
Qed.

Lemma inRange_point (c d : string) (r : Attendance.t) :
  inRange c d d r = Attendance.hasKey d c r.
Proof.
  unfold inRange, Attendance.hasKey.
  destruct (String.eqb_spec (Attendance.className r) c) as [_|_];
    destruct (String.eqb_spec (Attendance.date r) d) as [->|Hne]; simpl;
    try reflexivity.
  - now rewrite leb_refl.
  - destruct (String.leb d (Attendance.date r)) eqn:H1; [|reflexivity].
    destruct (String.leb (Attendance.date r) d) eqn:H2; [|reflexivity].
    elim Hne. symmetry. now apply leb_antisym.
Qed.

Lemma findOneAndUpdate_out_of_range (c from to d cl : string) (es : list Entry.t)
    (ledger : list Attendance.t) :
  inRange c from to (Attendance.make d cl es) = false ->
  filter (inRange c from to) (findOneAndUpdate d cl es ledger)
  = filter (inRange c from to) ledger.
Proof.
  intros Hout. induction ledger as [|r rest IH]; simpl.
  - now rewrite Hout.
  - destruct (Attendance.hasKey d cl r) eqn:Hk; simpl.
    + rewrite <- (inRange_same_key c from to d cl es r Hk), Hout. reflexivity.
    + now rewrite IH.
Qed.

Lemma findOneAndUpdate_twice (d c : string) (es1 es2 : list Entry.t)
    (ledger : list Attendance.t) :
  findOneAndUpdate d c es2 (findOneAndUpdate d c es1 ledger)
  = findOneAndUpdate d c es2 ledger.
Proof.
  assert (Hself : Attendance.hasKey d c (Attendance.make d c es1) = true).
  { unfold Attendance.hasKey. simpl. now rewrite !String.eqb_refl. }
  induction ledger as [|r rest IH]; simpl.
  - now rewrite Hself.
  - destruct (Attendance.hasKey d c r) eqn:Hk; simpl.
    + now rewrite Hself.
    + now rewrite Hk, IH.
Qed.

Lemma report_depends_on_found (db db' : Db) (c from to : string) :
  students db' = students db ->
  found db' c from to = found db c from to ->
  report db' (query c from to) = report db (query c from to).
Proof.
  intros Hs Hf. unfold report, query, findRecords. cbn.
  unfold found in Hf. now rewrite Hs, Hf.
Qed.

Lemma stats_length_le_total (stats : StudentStats) :
  (forall k s, In (k, s) stats -> 0 < Stat.total s) -> length stats <= sumTotal stats.
Proof.
  unfold sumTotal, values. induction stats as [|[k s] rest IH]; intros Hpos; simpl; [lia|].
  specialize (Hpos k s (or_introl eq_refl)) as Hs.
  assert (length rest <= list_sum (map Stat.total (map snd rest))).
  { apply IH. intros k' s' Hin. apply (Hpos k' s'). now right. }
  lia.
Qed.

Lemma idsOf_on_roster (roster : list Student.t) (es : list Entry.t) (k : ObjectId) :
  In k (idsOf (map (populate roster) es)) -> In k (map Student._id roster).
Proof.
  induction es as [|e rest IH]; simpl; [tauto|].
  unfold findById at 1.
  destruct (find (fun s => String.eqb (Student._id s) (Entry.studentId e)) roster)
    as [s|] eqn:Hfind; [|exact IH].
  intros [<-|Hin]; [|now apply IH].
  apply find_some in Hfind. apply in_map. tauto.
Qed.

Lemma stores_present {mongoose : Mongoose} (items : list Js.value) (es : list Entry.t) :
  Forall2 stores items es ->
  length es = length items
  /\ length (filter Entry.present es) = length (filter saysPresent items).
Proof.
  induction 1 as [|item e items es Hst Hrest [IHlen IHp]]; simpl; [split; reflexivity|].
  split; [now rewrite IHlen|].
  destruct Hst as (sid & _ & _ & Hp). unfold saysPresent. rewrite Hp.
  destruct (Entry.present e); simpl; now rewrite IHp.
Qed.

Section MarksAndReports.

Context {mongoose : Mongoose}.

Lemma mark_Fail (db db' : Db) (body : MarkBody) (code : nat) (message : string) :
  mark db body = (Fail code message, db') -> db' = db.
Proof.
  unfold mark.
  destruct (negb (Js.truthy (body_date body)) || negb (Js.truthy (body_className body))
            || negb (Js.truthy (body_entries body))); [now intros [= _ _ <-]|].
  destruct (body_date body) as [date|], (body_className body) as [className|],
    (body_entries body) as [entries|]; try (now intros [= _ _ <-]).
  destruct (Js.iterate entries) as [items|]; [|now intros [= _ _ <-]].
  destruct (validateEntries items); try (now intros [= _ _ <-]).
  destruct (castString date), (castString className), (castEntries items);
    now intros [= _ _ <-].
Qed.

Lemma mark_elsewhere (db db' : Db) (date className entries : Js.value) :
  mark db (markBody date className entries) = (Ok tt, db') ->
  exists d c es,
    castString date = Some d /\ castString className = Some c
    /\ db' = mkDb (students db) (findOneAndUpdate d c es (attendance db))
    /\ forall db0,
         mark db0 (markBody date className entries)
         = (Ok tt, mkDb (students db0) (findOneAndUpdate d c es (attendance db0))).
Proof.
  unfold mark, markBody. cbn [body_date body_className body_entries].
  destruct (negb (Js.truthy (Some date)) || negb (Js.truthy (Some className))
            || negb (Js.truthy (Some entries))); [discriminate|].
  destruct (Js.iterate entries) as [items|]; [|discriminate].
  destruct (validateEntries items); try discriminate.
  destruct (castString date) as [d|], (castString className) as [c|],
    (castEntries items) as [es|]; try discriminate.
  intros [= <-]. exists d, c, es. repeat split.
Qed.

(** X22. A mark is invisible to the reports that do not cover it. Whatever
    the reply, a [mark] for a class other than the report's, or for a date
    outside the report's range, leaves the reply of that report exactly as
    it was, error replies included. *)
Theorem mark_leaves_other_reports (db db' : Db) (date className entries : Js.value)
    (reply : Reply unit) (c from to : string) :
  mark db (markBody date className entries) = (reply, db') ->
  (forall d cl, castString date = Some d -> castString className = Some cl ->
                String.eqb cl c && String.leb from d && String.leb d to = false) ->
  report db' (query c from to) = report db (query c from to).
Proof.
  intros Hmark Hout.
  destruct reply as [[]|code message].
  - apply mark_Ok in Hmark.
    destruct Hmark as (items & d & cl & es & _ & _ & Hd & Hc & _ & ->).
    apply report_depends_on_found; [reflexivity|].
    unfold found. cbn [attendance].
    apply findOneAndUpdate_out_of_range. exact (Hout d cl Hd Hc).
  - now rewrite (mark_Fail _ _ _ _ _ Hmark).
Qed.

(** X23. A report never tracks more students than there are. The students
    it tracks are students of the roster, each counted once, so
    [totalStudentsTracked] is at most the size of the roster; it is also at
    most the number of entries in range, and [days] is at most the number
    of attendance records. *)
Theorem tracked_students_are_on_the_roster (db : Db) (c from to : string) (r : Report) :
  report db (query c from to) = Ok r ->
  totalStudentsTracked r <= length (students db)
  /\ totalStudentsTracked r <= length (selectedEntries db c from to)
  /\ days r <= length (attendance db).
Proof.
  intros Hr. apply report_Ok in Hr. destruct Hr as (stats & Hrun & ->).
  destruct (stats_facts _ _ Hrun) as (Hnd & _ & Hkeys & Hpos & Htotal & _).
  cbn [summarise totalStudentsTracked days]. split; [|split].
  - rewrite <- (length_map Student._id (students db)).
    apply NoDup_incl_length; [exact Hnd|].
    intros k Hk. apply Hkeys in Hk.
    unfold selectedEntries, findRecords in Hk.
    induction (filter (inRange c from to) (attendance db)) as [|rec rest IH];
      simpl in Hk; [destruct Hk|].
    assert (Hsplit : forall a b, In k (idsOf (a ++ b)) -> In k (idsOf a) \/ In k (idsOf b)).
    { clear. intros a b. induction a as [|e a IHa]; simpl; [tauto|].
      destruct (Populated.studentId e); simpl; tauto. }
    apply Hsplit in Hk. destruct Hk as [Hk|Hk]; [|now apply IH].
    now apply (idsOf_on_roster _ _ _ Hk).
  - rewrite <- Htotal. unfold keys. rewrite length_map.
    apply stats_length_le_total. intros k s Hin. now apply (Hpos k s).
  - unfold found. apply filter_length_le.
Qed.

(** X24. Only the last mark of a day counts. Two marks for the same date
    and class, served one after the other, leave the roster and, in every
    attendance record, the date, the class and the entries that the second
    mark alone would have left: of the entries of the first nothing
    remains, and sending the same sheet twice leaves what sending it once
    does. A [Db] holds these three fields of a record and no others; the
    [_id], [createdAt] and [updatedAt] of a record are not part of it, and
    the [_id] and [createdAt] of a record the first mark created are
    those it got then. *)
Theorem last_mark_wins (db db1 db2 : Db) (date className entries1 entries2 : Js.value) :
  mark db (markBody date className entries1) = (Ok tt, db1) ->
  mark db1 (markBody date className entries2) = (Ok tt, db2) ->
  mark db (markBody date className entries2) = (Ok tt, db2).
Proof.
  intros H1 H2.
  apply mark_elsewhere in H1. destruct H1 as (d & c & es1 & Hd & Hc & -> & _).
  apply mark_elsewhere in H2. destruct H2 as (d' & c' & es2 & Hd' & Hc' & -> & Hany).
  rewrite Hd in Hd'. injection Hd' as <-. rewrite Hc in Hc'. injection Hc' as <-.
  cbn [students attendance]. rewrite findOneAndUpdate_twice. apply Hany.
Qed.

(** X25. What is marked for a day is what the report of that day says. With
    the unique index in place, after a served [mark] of a batch for a date
    and a class, the report of that class from that date to that date
    counts one day, its average is the percentage of the batch's entries
    that say [present: true], printed with one decimal and read back, and
    it tracks at most as many students as the batch has entries. *)
Theorem marked_day_is_reported (db db' : Db) (date className : Js.value)
    (items : list Js.value) (d c : string) (r : Report) :
  uniqueIndex (attendance db) ->
  mark db (markBody date className (Js.Arr items)) = (Ok tt, db') ->
  castString date = Some d -> castString className = Some c ->
  report db' (query c d d) = Ok r ->
  days r = 1
  /\ average r
     = parseFloat (averageOf (length (filter saysPresent items)) (length items))
  /\ totalStudentsTracked r <= length items.
Proof.
  intros Hidx Hmark Hd Hc Hr. apply mark_Ok in Hmark.
  destruct Hmark as (items0 & d0 & c0 & es & Hit & _ & Hd0 & Hc0 & Hes & ->).
  cbn [Js.iterate] in Hit. injection Hit as <-.
  rewrite Hd in Hd0. injection Hd0 as <-. rewrite Hc in Hc0. injection Hc0 as <-.
  apply report_Ok in Hr. destruct Hr as (stats & Hrun & ->).
  assert (Hfound : found (mkDb (students db) (findOneAndUpdate d c es (attendance db))) c d d
                   = [Attendance.make d c es]).
  { unfold found. cbn [attendance].
    rewrite (filter_ext _ _ (inRange_point c d)).
    now apply findOneAndUpdate_one. }
  assert (Hsel : selectedEntries (mkDb (students db)
                                       (findOneAndUpdate d c es (attendance db))) c d d
                 = map (populate (students db)) es).
  { unfold selectedEntries, findRecords. unfold found in Hfound. rewrite Hfound.
    cbn. now rewrite app_nil_r. }
  rewrite Hsel in Hrun. rewrite Hfound.
  destruct (stats_facts _ _ Hrun) as (_ & _ & _ & Hpos & Htotal & Hpresent).
  destruct (stores_present items es (castEntries_stores _ _ Hes)) as [Hlen Hp].
  rewrite length_map, Hlen in Htotal.
  assert (Hmap : length (filter Populated.present (map (populate (students db)) es))
                 = length (filter Entry.present es)).
  { clear. induction es as [|e es IH]; simpl; [reflexivity|].
    destruct (Entry.present e); simpl; now rewrite IH. }
  rewrite Hmap, Hp in Hpresent.
  cbn [summarise days average totalStudentsTracked length].
  rewrite totalPresentOf_sum, totalOf_sum, Hpresent, Htotal.
  split; [reflexivity|]. split; [reflexivity|].
  rewrite <- Htotal. unfold keys. rewrite length_map.
  apply stats_length_le_total. intros k s Hin. now apply (Hpos k s).
Qed.

End MarksAndReports.

Lemma mark_leaves_other_reports_witness :
  report (mkDb (students threeDays)
               (attendance threeDays
                ++ [Attendance.make "2024-01-02" "Class 6-B" [entryFor aarav true]]))
         (query "Class 5-A" "2024-01-01" "2024-01-31")
  = report threeDays (query "Class 5-A" "2024-01-01" "2024-01-31").
Proof.
  apply (mark_leaves_other_reports (mongoose := plainCasts) threeDays
           (mkDb (students threeDays)
                 (attendance threeDays
                  ++ [Attendance.make "2024-01-02" "Class 6-B" [entryFor aarav true]]))
           (Js.Str "2024-01-02") (Js.Str "Class 6-B") (Js.Arr [submitted aarav true])
           (Ok tt) "Class 5-A" "2024-01-01" "2024-01-31").
  - vm_compute. reflexivity.
  - intros d cl [= <-] [= <-]. reflexivity.
Defined.

Lemma tracked_students_are_on_the_roster_witness :
  totalStudentsTracked threeDaysReport <= length (students threeDays)
  /\ totalStudentsTracked threeDaysReport
     <= length (selectedEntries threeDays "Class 5-A" "2024-01-01" "2024-01-31")
  /\ days threeDaysReport <= length (attendance threeDays).
Proof.
  apply (tracked_students_are_on_the_roster threeDays "Class 5-A" "2024-01-01" "2024-01-31"
           threeDaysReport).
  vm_compute. reflexivity.
Defined.

Lemma last_mark_wins_witness :
  mark (mongoose := plainCasts) emptyDb
       (markBody (Js.Str "2024-01-01") (Js.Str "Class 5-A") (Js.Arr [submitted aarav false]))
  = (Ok tt, mkDb [] [Attendance.make "2024-01-01" "Class 5-A" [entryFor aarav false]]).
Proof.
  apply (last_mark_wins (mongoose := plainCasts) emptyDb
           (mkDb [] [Attendance.make "2024-01-01" "Class 5-A"
                       [entryFor aarav true; entryFor diya true]])
           (mkDb [] [Attendance.make "2024-01-01" "Class 5-A" [entryFor aarav false]])
           (Js.Str "2024-01-01") (Js.Str "Class 5-A")
           (Js.Arr [submitted aarav true; submitted diya true])
           (Js.Arr [submitted aarav false])).
  - vm_compute. reflexivity.
  - vm_compute. reflexivity.
Defined.

Lemma marked_day_is_reported_witness :
  let r := mkReport (Number.ofNat 50) 1 1 1 1 2 in
  days r = 1
  /\ average r
     = parseFloat (averageOf (length (filter saysPresent
                                             [submitted aarav true; submitted diya false]))
                             (length [submitted aarav true; submitted diya false]))
  /\ totalStudentsTracked r <= length [submitted aarav true; submitted diya false].
Proof.
  intros r.
  apply (marked_day_is_reported (mongoose := plainCasts) threeDays
           (mkDb (students threeDays)
                 (attendance threeDays
                  ++ [Attendance.make "2024-01-04" "Class 5-A"
                        [entryFor aarav true; entryFor diya false]]))
           (Js.Str "2024-01-04") (Js.Str "Class 5-A")
           [submitted aarav true; submitted diya false]
           "2024-01-04" "Class 5-A" r).
  - unfold uniqueIndex. vm_compute.
    repeat (constructor; [simpl; intuition discriminate|]). constructor.
  - vm_compute. reflexivity.
  - reflexivity.
  - reflexivity.
  - vm_compute. reflexivity.
Defined.

(** ** Marks the roster cannot resolve *)

Lemma findOneAndUpdate_In (d c : string) (es : list Entry.t) (ledger : list Attendance.t) :
  In (Attendance.make d c es) (findOneAndUpdate d c es ledger).
Proof.
  induction ledger as [|r rest IH]; simpl; [now left|].
  destruct (Attendance.hasKey d c r); [now left | now right].
Qed.

Lemma Forall2_In_left {A B : Type} (R : A -> B -> Prop) (l : list A) (l' : list B) (a : A) :
  Forall2 R l l' -> In a l -> exists b, In b l' /\ R a b.
Proof.
  induction 1 as [|x y l l' Hxy Hrest IH]; simpl; [tauto|].
  intros [<-|Hin].
  - exists y. split; [now left | exact Hxy].
  - destruct (IH Hin) as (b & Hb & Hab). exists b. split; [now right | exact Hab].
Qed.

Section UnknownStudents.

Context {mongoose : Mongoose}.

(** X26. A mark never consults the roster, and a report cannot do without
    it. An entry whose [studentId] is the [_id] of no student is accepted
    and stored like any other; from then on every report of that class
    whose range covers the date is answered 500, however many well-formed
    records it would otherwise count. *)
Theorem unknown_student_poisons_reports (db db' : Db) (date className : Js.value)
    (items : list Js.value) (d c : string) :
  mark db (markBody date className (Js.Arr items)) = (Ok tt, db') ->
  castString date = Some d -> castString className = Some c -> c <> "" ->
  (exists item sid id,
      In item items
      /\ Js.get item "studentId" = Some (Some sid)
      /\ castObjectId sid = Some id
      /\ forall s, In s (students db) -> Student._id s <> id) ->
  forall from to,
    from <> "" -> to <> "" -> lexLe from d -> lexLe d to ->
    report db' (query c from to) = Fail 500 reportFailed.
Proof.
  intros Hmark Hd Hc Hne (item & sid & id & Hitem & Hget & Hcast & Hnobody)
         from to Hfrom Hto Hlo Hhi.
  apply mark_Ok in Hmark.
  destruct Hmark as (items0 & d0 & c0 & es & Hit & _ & Hd0 & Hc0 & Hes & ->).
  cbn [Js.iterate] in Hit. injection Hit as <-.
  rewrite Hd in Hd0. injection Hd0 as <-. rewrite Hc in Hc0. injection Hc0 as <-.
  destruct (Forall2_In_left _ _ _ _ (castEntries_stores _ _ Hes) Hitem)
    as (e & He & sid' & Hget' & Hcast' & _).
  rewrite Hget in Hget'. injection Hget' as <-.
  rewrite Hcast in Hcast'. injection Hcast' as Hid.
  rewrite (report_run _ c from to Hne Hfrom Hto), forEachRecord_concat.
  fold (selectedEntries (mkDb (students db) (findOneAndUpdate d c es (attendance db)))
                        c from to).
  rewrite forEachEntry_unresolved; [reflexivity|].
  apply Exists_exists. exists (populate (students db) e). split.
  - apply selectedEntries_In. exists (Attendance.make d c es), e.
    split; [|split; [exact He | reflexivity]].
    unfold found. apply filter_In. split; [apply findOneAndUpdate_In|].
    unfold inRange. cbn [Attendance.className Attendance.date attendance].
    rewrite String.eqb_refl.
    apply leb_lexLe in Hlo. apply leb_lexLe in Hhi. now rewrite Hlo, Hhi.
  - unfold populate. cbn [Populated.studentId]. apply findById_None.
    intros s Hs. rewrite <- Hid. now apply Hnobody.
Qed.

End UnknownStudents.

Lemma unknown_student_poisons_reports_witness :
  report (mkDb (students threeDays)
               (attendance threeDays
                ++ [Attendance.make "2024-01-04" "Class 5-A"
                      [entryFor aarav true; entryFor rohan true]]))
         january
  = Fail 500 reportFailed.
Proof.
  apply (unknown_student_poisons_reports (mongoose := plainCasts) threeDays
           (mkDb (students threeDays)
                 (attendance threeDays
                  ++ [Attendance.make "2024-01-04" "Class 5-A"
                        [entryFor aarav true; entryFor rohan true]]))
           (Js.Str "2024-01-04") (Js.Str "Class 5-A")
           [submitted aarav true; submitted rohan true]
           "2024-01-04" "Class 5-A").
  - vm_compute. reflexivity.
  - reflexivity.
  - reflexivity.
  - discriminate.
  - exists (submitted rohan true), (Js.Str (Student._id rohan)), (Student._id rohan).
    split; [right; now left|]. split; [reflexivity|]. split; [reflexivity|].
    intros s [<-|[<-|[]]]; discriminate.
  - discriminate.
  - discriminate.
  - apply leb_lexLe. reflexivity.
  - apply leb_lexLe. reflexivity.
Defined.
